(** * Transcript pipeline: a shallow embedding of [transcript_tool.py] and
    [transcribe_audio.py], and the properties of the specification.

    Layout:
    - [Python]: the pieces of the Python runtime the two scripts rely on
      (strings as sequences of code points, [str] methods, the exception
      hierarchy, strict UTF-8 decoding, [os.path.basename], the limits on
      file names);
    - [TranscribeAudio]: [upload_blob], [delete_blob],
      [transcribe_gcs_long_running] and [main] of [transcribe_audio.py];
    - [TranscriptTool]: [slugify], [get_channel_videos],
      [download_and_save_transcript], [process_channel] and
      [combine_local_files] of [transcript_tool.py];
    - [TranscriptToolMain]: [main] of [transcript_tool.py], from the
      parsed command line on;
    - [Examples]: the inputs at which the theorems are instantiated;
    - the theorems, one section per component. *)

From Stdlib Require Import NArith ZArith List String Ascii Lia Bool.
From stdpp Require Import base option list gmap sorting.
Import ListNotations.

#[local] Open Scope N_scope.

(* ===================================================================== *)
(** ** The Python runtime                                                 *)
(* ===================================================================== *)

Module Python.

(** A Python [str] is a sequence of Unicode code points. *)
Abbreviation pystr := (list N).

(** A [bytes] object: a sequence of integers below 256. *)
Abbreviation pybytes := (list N).

(** Literals of the source are written [str "..."]; every character of a
    literal used in this development is ASCII. *)
Definition str (s : string) : pystr :=
  map N_of_ascii (list_ascii_of_string s).

Definition between (lo hi c : N) : bool := (lo <=? c) && (c <=? hi).

Definition is_ascii (c : N) : bool := c <? 128.

Definition ascii_isdigit (c : N) : bool := between 48 57 c.
Definition ascii_isupper (c : N) : bool := between 65 90 c.
Definition ascii_islower (c : N) : bool := between 97 122 c.
Definition ascii_isalnum (c : N) : bool :=
  ascii_isdigit c || ascii_isupper c || ascii_islower c.

(** [str.isspace] below U+0080: TAB, LF, VT, FF, CR, the four separators
    FS, GS, RS, US and SPACE. *)
Definition ascii_isspace (c : N) : bool :=
  between 9 13 c || between 28 31 c || (c =? 32).

Definition ascii_lower (c : N) : N :=
  if ascii_isupper c then c + 32 else c.

(** The Unicode character database, for code points above U+007F. The
    interpreter ships it as a table; here it is a parameter of the model.
    - [uni_isalnum c]: [chr(c).isalnum()];
    - [uni_isspace c]: [chr(c).isspace()];
    - [uni_lower s]:   [s.lower()] for a string that has a code point above
      U+007F (lower-casing is not character-wise there: final sigma, and
      characters whose lower case is two code points). *)
Record Unicode : Type := {
  uni_isalnum : N -> bool;
  uni_isspace : N -> bool;
  uni_lower : pystr -> pystr
}.

(** The rows of the database for the Latin-1 Supplement block
    (U+0080..U+00FF). Code points above U+00FF are outside this excerpt and
    are classified as neither alphanumeric nor space; it is only used on
    strings of code points up to U+00FF. *)
Definition latin1_isalnum (c : N) : bool :=
  (c =? 170) || (c =? 178) || (c =? 179) || (c =? 181) || (c =? 185) ||
  (c =? 186) || between 188 190 c ||
  between 192 214 c || between 216 246 c || between 248 255 c.

Definition latin1_isspace (c : N) : bool := (c =? 133) || (c =? 160).

Definition latin1_lower_char (c : N) : N :=
  if ascii_isupper c || between 192 214 c || between 216 222 c
  then c + 32 else c.

Definition latin1 : Unicode :=
  {| uni_isalnum := latin1_isalnum;
     uni_isspace := latin1_isspace;
     uni_lower := map latin1_lower_char |}.

Section StrMethods.
Context (ucd : Unicode).

(** [\w] of the [re] module on a [str] pattern: alphanumeric or [_]. *)
Definition re_word (c : N) : bool :=
  if is_ascii c then ascii_isalnum c || (c =? 95) else uni_isalnum ucd c.

(** [\s] of the [re] module on a [str] pattern. *)
Definition re_space (c : N) : bool :=
  if is_ascii c then ascii_isspace c else uni_isspace ucd c.

(** [s.lower()]. *)
Definition lower (s : pystr) : pystr :=
  if forallb is_ascii s then map ascii_lower s else uni_lower ucd s.
End StrMethods.

(** [s.lstrip(ch)], [s.rstrip(ch)] and [s.strip(ch)] for a one-character
    argument. *)
Fixpoint lstrip (ch : N) (s : pystr) : pystr :=
  match s with
  | [] => []
  | c :: r => if c =? ch then lstrip ch r else s
  end.

Definition rstrip (ch : N) (s : pystr) : pystr := rev (lstrip ch (rev s)).

Definition strip (ch : N) (s : pystr) : pystr := rstrip ch (lstrip ch s).

(** [sep.join(parts)]. *)
Fixpoint join (sep : pystr) (parts : list pystr) : pystr :=
  match parts with
  | [] => []
  | [p] => p
  | p :: rest => p ++ sep ++ join sep rest
  end.

(** [s.endswith(suffix)]. *)
Definition endswith (s suffix : pystr) : bool :=
  bool_decide (drop (length s - length suffix)%nat s = suffix).

(** [ch * n] for a one-character string. *)
Definition repeat_char (c : N) (n : nat) : pystr := replicate n c.

(** Truthiness of a string: empty is false. *)
Definition nonempty (s : pystr) : bool :=
  match s with [] => false | _ => true end.

(** Truthiness of a value that is [None] or a string. *)
Definition truthy (o : option pystr) : bool :=
  match o with Some s => nonempty s | None => false end.

(** [os.path.basename] on POSIX: what follows the last [/]. *)
Fixpoint basename (p : pystr) : pystr :=
  match p with
  | [] => []
  | c :: r => if existsb (N.eqb 47) r then basename r
              else if c =? 47 then r else p
  end.

(** The number of bytes of [c.encode('utf-8')], and of
    [s.encode('utf-8')]. *)
Definition utf8_size (c : N) : nat :=
  if c <? 128 then 1 else if c <? 2048 then 2 else if c <? 65536 then 3
  else 4.

Definition utf8_length (s : pystr) : nat :=
  foldr (fun c n => utf8_size c + n)%nat 0%nat s.

(** The bytes of the longest component of a path; [current] counts those
    of the component that is being read. *)
Fixpoint longest_component (path : pystr) (current : nat) : nat :=
  match path with
  | [] => current
  | c :: rest =>
      if c =? 47 then Nat.max current (longest_component rest 0)
      else longest_component rest (current + utf8_size c)
  end.

(** The limits of Linux on a file name and on a path (with its final
    null byte). *)
Definition NAME_MAX : nat := 255.
Definition PATH_MAX : nat := 4096.

(** The paths [open] and [os.rename] refuse with [OSError] (File name
    too long). *)
Definition name_too_long (name : pystr) : bool :=
  Nat.ltb NAME_MAX (longest_component name 0)
  || Nat.leb PATH_MAX (utf8_length name).

(** Text-mode reading translates [\r\n] and a lone [\r] to [\n]
    (universal newlines, the default of [open]). *)
Fixpoint universal_newlines (s : pystr) : pystr :=
  match s with
  | [] => []
  | 13 :: r =>
      10 :: match r with
            | 10 :: r' => universal_newlines r'
            | _ => universal_newlines r
            end
  | c :: r => c :: universal_newlines r
  end.

(** *** Strict UTF-8 decoding: [b.decode('utf-8')]

    [None] stands for [UnicodeDecodeError]. Overlong forms, surrogates and
    code points above U+10FFFF are rejected, as the codec does. *)
Definition utf8_cont (b : N) : bool := between 128 191 b.

Fixpoint decode_utf8 (bs : pybytes) : option pystr :=
  match bs with
  | [] => Some []
  | b0 :: r =>
    if b0 <? 128 then cons b0 <$> decode_utf8 r
    else if between 194 223 b0 then
      match r with
      | b1 :: r1 =>
        if utf8_cont b1
        then cons ((b0 - 192) * 64 + (b1 - 128)) <$> decode_utf8 r1
        else None
      | _ => None
      end
    else if between 224 239 b0 then
      match r with
      | b1 :: b2 :: r2 =>
        if between (if b0 =? 224 then 160 else 128)
                   (if b0 =? 237 then 159 else 191) b1 && utf8_cont b2
        then cons ((b0 - 224) * 4096 + (b1 - 128) * 64 + (b2 - 128))
               <$> decode_utf8 r2
        else None
      | _ => None
      end
    else if between 240 244 b0 then
      match r with
      | b1 :: b2 :: b3 :: r3 =>
        if between (if b0 =? 240 then 144 else 128)
                   (if b0 =? 244 then 143 else 191) b1
           && utf8_cont b2 && utf8_cont b3
        then cons ((b0 - 240) * 262144 + (b1 - 128) * 4096
                   + (b2 - 128) * 64 + (b3 - 128)) <$> decode_utf8 r3
        else None
      | _ => None
      end
    else None
  end.

(** *** Exceptions

    [exc] lists classes derived from [Exception]; [exn] adds the two
    classes the scripts meet that derive from [BaseException] only, which
    an [except Exception] clause does not catch. *)
Inductive exc : Type :=
| CalledProcessError (stderr : option pybytes)
    (* subprocess.CalledProcessError, with its [stderr] attribute *)
| UnicodeDecodeError
| FileNotFoundError
| IsADirectoryError
| NotADirectoryError
| KeyError
| IndexError
| NotFound              (* google.api_core.exceptions.NotFound *)
| GoogleAPICallError    (* any other google.api_core call error *)
| OtherError (name : string).  (* any other subclass of Exception *)

Inductive exn : Type :=
| Exc (e : exc)
| KeyboardInterrupt
| SystemExit (code : Z).

(** How a call ends: it returns a value or raises. *)
Inductive outcome (A : Type) : Type :=
| Returns (a : A)
| Raises (e : exn).
Arguments Returns {A} a.
Arguments Raises {A} e.

(** What an external collaborator answers: a value, or an exception
    derived from [Exception]. *)
Inductive reply (A : Type) : Type :=
| Reply (a : A)
| Fails (e : exc).
Arguments Reply {A} a.
Arguments Fails {A} e.

(** *** Effects

    A computation reads and updates a state [S], and returns or raises:
    an exception leaves the state as it was where it was raised. *)
Definition M (S A : Type) : Type := S -> outcome A * S.

#[export] Instance M_ret {S} : MRet (M S) :=
  fun A a s => (Returns a, s).

#[export] Instance M_bind {S} : MBind (M S) :=
  fun A B k m s =>
    match m s with
    | (Returns a, s') => k a s'
    | (Raises e, s') => (Raises e, s')
    end.

Definition raise {S A} (e : exn) : M S A := fun s => (Raises e, s).

Definition get_state {S} : M S S := fun s => (Returns s, s).

Definition modify {S} (f : S -> S) : M S unit := fun s => (Returns tt, f s).

(** The outcome of a call that does not touch the state. *)
Definition lift {S A} (o : outcome A) : M S A := fun s => (o, s).

Definition of_reply {A} (r : reply A) : outcome A :=
  match r with
  | Reply a => Returns a
  | Fails e => Raises (Exc e)
  end.

(** [sys.exit(code)]. *)
Definition sys_exit {S A} (code : Z) : M S A := raise (SystemExit code).

(** [try: body except ...: handler]. [handler e] is [None] when no
    [except] clause matches [e]; an exception raised by a handler is not
    offered to the clauses of the same statement. *)
Definition try_except {S A} (body : M S A) (handler : exn -> option (M S A))
  : M S A :=
  fun s =>
    match body s with
    | (Returns a, s') => (Returns a, s')
    | (Raises e, s') =>
        match handler e with
        | Some h => h s'
        | None => (Raises e, s')
        end
    end.

(** [try: body finally: cleanup]. The cleanup runs on every exit; when it
    raises, its exception replaces the outcome of the body. *)
Definition try_finally {S A} (body : M S A) (cleanup : M S unit) : M S A :=
  fun s =>
    let '(r, s') := body s in
    match cleanup s' with
    | (Returns _, s'') => (r, s'')
    | (Raises e, s'') => (Raises e, s'')
    end.

(** A clause [except Exception]. *)
Definition except_Exception {S A} (h : exc -> M S A) (e : exn)
  : option (M S A) :=
  match e with
  | Exc x => Some (h x)
  | _ => None
  end.

End Python.

(* ===================================================================== *)
(** ** [transcribe_audio.py]: the staging adapter                         *)
(* ===================================================================== *)

Module TranscribeAudio.
Import Python.

(** The parsed command line. *)
Record Args : Type := {
  audio_file : pystr;
  output_file : option pystr;
  gcs_bucket : pystr;
  project_id : pystr
}.

(** What the outside world does during one run of the script. A blocking
    call may also end with [KeyboardInterrupt] when the user interrupts
    the process, hence [outcome] rather than [reply].
    - [clock]: [datetime.datetime.now().strftime("%Y%m%d_%H%M%S")];
    - [storage_upload]: the body of [upload_blob] up to
      [blob.upload_from_filename];
    - [speech_recognize]: [long_running_recognize] and [operation.result],
      giving for each result the transcripts of its alternatives;
    - [file_write]: writing the transcription to [--output-file];
    - [storage_delete]: the body of [delete_blob] up to [blob.delete]. *)
Record Env : Type := {
  clock : outcome pystr;
  storage_upload : outcome unit;
  speech_recognize : outcome (list (list pystr));
  file_write : outcome unit;
  storage_delete : outcome unit
}.

(** The requests the script issues, in order. *)
Inductive event : Type :=
| Upload (bucket source blob : pystr)
| Recognize (uri : pystr)
| WriteFile (path text : pystr)
| Stdout (text : pystr)
| Delete (bucket blob : pystr).

(** The state of [main]: its local [gcs_blob_name] and the requests issued
    so far. *)
Record St : Type := {
  gcs_blob_name : option pystr;
  trace : list event
}.

Definition initial : St := {| gcs_blob_name := None; trace := [] |}.

Definition emit (e : event) : M St unit :=
  modify (fun s => {| gcs_blob_name := gcs_blob_name s;
                      trace := trace s ++ [e] |}).

Definition set_gcs_blob_name (v : option pystr) : M St unit :=
  modify (fun s => {| gcs_blob_name := v; trace := trace s |}).

Section Script.
Context (env : Env).

Definition upload_blob (bucket_name source_file_name destination_blob_name
                        : pystr) : M St pystr :=
  emit (Upload bucket_name source_file_name destination_blob_name);;
  lift (storage_upload env);;
  mret (str "gs://" ++ bucket_name ++ str "/" ++ destination_blob_name).

Definition delete_blob (bucket_name blob_name : pystr) : M St unit :=
  try_except
    (emit (Delete bucket_name blob_name);;
     lift (storage_delete env))
    (fun e =>
       match e with
       | Exc NotFound => Some (mret tt)
       | Exc _ => Some (mret tt)
       | _ => None
       end).

(** [result.alternatives[0].transcript] for each result. *)
Fixpoint best_alternatives (results : list (list pystr))
  : outcome (list pystr) :=
  match results with
  | [] => Returns []
  | alternatives :: rest =>
      match alternatives with
      | [] => Raises (Exc IndexError)
      | best :: _ =>
          match best_alternatives rest with
          | Returns l => Returns (best :: l)
          | Raises e => Raises e
          end
      end
  end.

Definition transcribe_gcs_long_running (project : pystr) (gcs_uri : pystr)
  : M St (option pystr) :=
  try_except
    (emit (Recognize gcs_uri);;
     results ← lift (speech_recognize env);
     transcript ← lift (best_alternatives results);
     mret (Some (join (str " ") transcript)))
    (fun e =>
       match e with
       | Exc NotFound | Exc GoogleAPICallError => Some (mret None)
       | Exc _ => Some (mret None)
       | _ => None
       end).

Definition main (args : Args) : M St unit :=
  set_gcs_blob_name None;;
  try_finally
    (try_except
       (let file_basename := basename (audio_file args) in
        timestamp ← lift (clock env);
        let name :=
          str "audio_transcription/" ++ timestamp ++ str "_"
            ++ file_basename in
        set_gcs_blob_name (Some name);;
        gcs_uri ← upload_blob (gcs_bucket args) (audio_file args) name;
        (if nonempty gcs_uri then mret tt else sys_exit 1);;
        transcription ←
          transcribe_gcs_long_running (project_id args) gcs_uri;
        match transcription with
        | Some text =>
            if truthy (output_file args)
            then emit (WriteFile (default [] (output_file args)) text);;
                 lift (file_write env)
            else emit (Stdout text)
        | None => sys_exit 1
        end)
       (fun e =>
          match e with
          | KeyboardInterrupt => Some (sys_exit 0)
          | _ => None
          end))
    (s ← get_state;
     if truthy (gcs_blob_name s)
     then delete_blob (gcs_bucket args) (default [] (gcs_blob_name s))
     else mret tt).
End Script.

(** The script run from its initial state. *)
Definition run (env : Env) (args : Args) : outcome unit * St :=
  main env args initial.

(** The [Delete] requests of a trace. *)
Definition deletes (t : list event) : list (pystr * pystr) :=
  omap (fun e => match e with Delete b n => Some (b, n) | _ => None end) t.

(** The remote locations of the [Upload] requests of a trace. *)
Definition uploads (t : list event) : list (pystr * pystr) :=
  omap (fun e => match e with Upload b _ n => Some (b, n) | _ => None end) t.

(** The name [main] gives the staged object. *)
Definition remote_name (timestamp : pystr) (args : Args) : pystr :=
  str "audio_transcription/" ++ timestamp ++ str "_"
    ++ basename (audio_file args).

Definition with_storage_delete (env : Env) (d : outcome unit) : Env :=
  {| clock := clock env;
     storage_upload := storage_upload env;
     speech_recognize := speech_recognize env;
     file_write := file_write env;
     storage_delete := d |}.

End TranscribeAudio.

(* ===================================================================== *)
(** ** [transcript_tool.py]: resolver, executor, orchestrator, aggregator *)
(* ===================================================================== *)

Module TranscriptTool.
Import Python.

Definition GCS_BUCKET : pystr := str "chuck-transcription-bucket-20251118".

Definition nl : pystr := [10].

(** *** The YouTube Data API client *)

(** A page of [playlistItems().list]: [items] is absent when the response
    has no such key, an item is [None] when it lacks
    [snippet.resourceId.videoId]; [nextPageToken] is what
    [playlist.get("nextPageToken")] returns. *)
Record Page : Type := {
  items : option (list (option pystr));
  nextPageToken : option pystr
}.

(** The client [build("youtube", "v3", developerKey=api_key)] returns.
    - [channels_list id]: [channels().list(part="contentDetails",
      id=id).execute()], as the [items] of the response, each item as its
      [contentDetails.relatedPlaylists.uploads] when it has one;
    - [playlistItems_list n playlist token]: the [n]-th request
      [playlistItems().list(part="snippet", playlistId=playlist,
      maxResults=50, pageToken=token).execute()] of the run. *)
Record YouTubeData : Type := {
  channels_list : pystr -> reply (option (list (option pystr)));
  playlistItems_list : nat -> pystr -> option pystr -> reply Page
}.

(** *** The working directory *)

(** An entry of the working directory: a file, with its content as text
    when the bytes are valid UTF-8, or a directory. *)
Inductive node : Type :=
| File (text : option pystr)
| Dir.

(** What [subprocess.run(argv, check=True, capture_output=True)] meets:
    the process runs, leaves the directory as [files] and exits, or it
    cannot be started (the executable is missing). *)
Inductive proc_result : Type :=
| Exited (code : Z) (stderr : pybytes) (files : gmap pystr node)
| NotStarted (e : exc).

(** *** External collaborators

    The index [n] of an answer is the number of collaborator calls made
    before it, so that a collaborator may answer differently each time. *)
Record Env : Type := {
  build : pystr -> YouTubeData;
  video_title : nat -> pystr -> reply pystr;
    (* pytubefix: YouTube("https://youtube.com/watch?v=" + id).title,
       an HTTP request for the video's page *)
  get_transcript : nat -> pystr -> reply (list pystr);
    (* YouTubeTranscriptApi.get_transcript(id): the [text] of each entry *)
  subprocess_run : nat -> list pystr -> gmap pystr node -> proc_result;
  strftime_now : nat -> pystr;
    (* datetime.now().strftime('%Y-%m-%d %H:%M:%S') *)
  buffer_flush : pystr -> pystr -> nat
    (* the buffers of the combined handle: after a write, with [written]
       all that has been written to the handle and [buffer] what of it
       has not reached the file, [buffer_flush written buffer] is the
       number of characters of [buffer] that now reach the file.
       CPython decides this from buffer sizes that depend on the
       platform *)
}.

(** The calls to collaborators, in order. *)
Inductive call : Type :=
| FetchVideoPage (video_id : pystr)
| FetchCaptions (video_id : pystr)
| RunProcess (argv : list pystr).

Definition is_network (c : call) : bool :=
  match c with
  | FetchVideoPage _ | FetchCaptions _ => true
  | RunProcess _ => false
  end.

Definition is_subprocess (c : call) : bool :=
  match c with
  | RunProcess _ => true
  | _ => false
  end.

(** The diagnostics on standard output that a property refers to; the
    lines that only narrate progress are left out. *)
Inductive message : Type :=
| AlreadyExists (filename : pystr)
| SubprocessError (video_id stderr : pystr)
| ProcessingError (video_id : pystr)
| ChannelComplete (total new skipped errors : nat)
| NoTranscriptFilesFound
| FileError (filename : pystr)
| AllCombined (output_file : pystr).

(** The status strings ["new"], ["skipped"] and ["error"]. *)
Inductive status : Type := New | Skipped | Error.

(** The dictionary [stats]. *)
Record Stats : Type := {
  new : nat;
  skipped : nat;
  error : nat
}.

(** [stats[status] += 1]. *)
Definition bump (st : status) (stats : Stats) : Stats :=
  match st with
  | New => {| new := S (new stats); skipped := skipped stats;
              error := error stats |}
  | Skipped => {| new := new stats; skipped := S (skipped stats);
                  error := error stats |}
  | Error => {| new := new stats; skipped := skipped stats;
                error := S (error stats) |}
  end.

(** The combined output, open for writing. *)
Inductive handle : Type := Combined.

(** The state of a run:
    - [fs]: the working directory;
    - [pending]: all that has been written to the combined handle since
      it was opened;
    - [calls]: the collaborator calls made so far;
    - [stdout]: the diagnostics printed so far;
    - [buffered]: the end of [pending] that is in the buffers of the
      handle and has not reached the file; it does when the handle is
      closed at the latest;
    - [target]: the name under which the combined handle was opened,
      while it is open. *)
Record World : Type := {
  fs : gmap pystr node;
  pending : pystr;
  calls : list call;
  stdout : list message;
  buffered : pystr;
  target : option pystr
}.

Definition set_fs (f : gmap pystr node -> gmap pystr node) (w : World)
  : World :=
  {| fs := f (fs w); pending := pending w; calls := calls w;
     stdout := stdout w; buffered := buffered w; target := target w |}.

(** The state of the combined handle when it has just been opened under
    [name]. *)
Definition open_handle (name : pystr) (w : World) : World :=
  {| fs := fs w; pending := []; calls := calls w; stdout := stdout w;
     buffered := []; target := Some name |}.

Definition add_call (c : call) (w : World) : World :=
  {| fs := fs w; pending := pending w; calls := calls w ++ [c];
     stdout := stdout w; buffered := buffered w; target := target w |}.

Definition add_message (m : message) (w : World) : World :=
  {| fs := fs w; pending := pending w; calls := calls w;
     stdout := stdout w ++ [m]; buffered := buffered w;
     target := target w |}.

Definition say (m : message) : M World unit := modify (add_message m).

(** [os.path.exists(name)]. *)
Definition path_exists (name : pystr) : M World bool :=
  fun w => (Returns (bool_decide (is_Some (fs w !! name))), w).

(** [with open(name, "r", encoding="utf-8") as f: f.read()]. *)
Definition read_text (name : pystr) : M World pystr :=
  fun w =>
    match fs w !! name with
    | None => (Raises (Exc FileNotFoundError), w)
    | Some Dir => (Raises (Exc IsADirectoryError), w)
    | Some (File None) => (Raises (Exc UnicodeDecodeError), w)
    | Some (File (Some text)) => (Returns (universal_newlines text), w)
    end.

(** [with open(name, "w", encoding="utf-8") as f: f.write(text)]. *)
Definition write_text (name text : pystr) : M World unit :=
  fun w =>
    if name_too_long name then (Raises (Exc (OtherError "OSError")), w)
    else
      match fs w !! name with
      | Some Dir => (Raises (Exc IsADirectoryError), w)
      | _ => (Returns tt, set_fs (insert name (File (Some text))) w)
      end.

(** [os.rename(src, dst)]. *)
Definition os_rename (src dst : pystr) : M World unit :=
  fun w =>
    match fs w !! src with
    | None => (Raises (Exc FileNotFoundError), w)
    | Some n =>
        if name_too_long dst then (Raises (Exc (OtherError "OSError")), w)
        else
          match n, fs w !! dst with
          | File _, Some Dir => (Raises (Exc IsADirectoryError), w)
          | Dir, Some (File _) => (Raises (Exc NotADirectoryError), w)
          | _, _ =>
              (Returns tt, set_fs (fun m => <[dst := n]> (delete src m)) w)
          end
    end.

(** [os.remove(name)]. *)
Definition os_remove (name : pystr) : M World unit :=
  fun w =>
    match fs w !! name with
    | None => (Raises (Exc FileNotFoundError), w)
    | Some Dir => (Raises (Exc IsADirectoryError), w)
    | Some (File _) => (Returns tt, set_fs (delete name) w)
    end.

(** Text leaves the buffers of a handle: it is appended to the file of
    the name the handle was opened under, as long as a text file of that
    name is there. *)
Definition flush_to (target : option pystr) (data : pystr)
    (d : gmap pystr node) : gmap pystr node :=
  match target with
  | Some name =>
      match d !! name with
      | Some (File (Some text)) => <[name := File (Some (text ++ data))]> d
      | _ => d
      end
  | None => d
  end.

(** Closing the combined handle: what is still in its buffers reaches the
    file. *)
Definition handle_close (name : pystr) : M World unit :=
  modify (fun w =>
    {| fs := flush_to (Some name) (buffered w) (fs w); pending := [];
       calls := calls w; stdout := stdout w; buffered := [];
       target := None |}).

(** [with open(name, "a", encoding="utf-8") as combined: body]. The name
    is the path given on the command line; it is taken to be one under
    which the file system lets a file be created. *)
Definition with_open_append {A} (name : pystr) (body : M World A)
  : M World A :=
  (fun w =>
     match fs w !! name with
     | Some Dir => (Raises (Exc IsADirectoryError), w)
     | Some (File _) => (Returns tt, open_handle name w)
     | None =>
         (Returns tt,
          open_handle name (set_fs (insert name (File (Some []))) w))
     end);;
  try_finally body (handle_close name).

(** [with open(name, "w", encoding="utf-8") as combined: body], with
    the same proviso on the name. *)
Definition with_open_write {A} (name : pystr) (body : M World A)
  : M World A :=
  (fun w =>
     match fs w !! name with
     | Some Dir => (Raises (Exc IsADirectoryError), w)
     | _ =>
         (Returns tt,
          open_handle name (set_fs (insert name (File (Some []))) w))
     end);;
  try_finally body (handle_close name).

(** [for x in xs: body x]. *)
Fixpoint for_each {A} (xs : list A) (body : A -> M World unit)
  : M World unit :=
  match xs with
  | [] => mret tt
  | x :: rest => body x;; for_each rest body
  end.

(** Lexicographic order on strings, by code point: [a <= b] in Python. *)
Fixpoint str_leb (a b : pystr) : bool :=
  match a, b with
  | [], _ => true
  | _ :: _, [] => false
  | x :: a', y :: b' =>
      if x <? y then true else if y <? x then false else str_leb a' b'
  end.

Definition str_le (a b : pystr) : Prop := str_leb a b = true.

#[export] Instance str_le_dec a b : Decision (str_le a b).
Proof. unfold str_le. apply _. Defined.

(** [sorted(names)]. *)
Definition sorted (names : list pystr) : list pystr :=
  merge_sort str_le names.

Section Tool.
Context (ucd : Unicode) (env : Env).

(** [combined_file_handle.write(text)]: the text is written to the
    handle, and the buffers let some of what they hold through to the
    file. *)
Definition after_write (text : pystr) (w : World) : World :=
  let written := pending w ++ text in
  let buffer := buffered w ++ text in
  let n := buffer_flush env written buffer in
  {| fs := flush_to (target w) (take n buffer) (fs w);
     pending := written; calls := calls w; stdout := stdout w;
     buffered := drop n buffer; target := target w |}.

Definition handle_write (text : pystr) : M World unit :=
  modify (after_write text).

(** *** Utility functions *)

(** [re.sub(r'[^\w\s-]', '', text)] keeps these characters. *)
Definition kept (c : N) : bool :=
  re_word ucd c || re_space ucd c || (c =? 45).

(** [re.sub(r'[\s:]+', '_', text)]: each maximal run of whitespace and
    colons becomes one underscore. [in_run] tells that the character
    before belongs to such a run. *)
Fixpoint underscore_runs (in_run : bool) (text : pystr) : pystr :=
  match text with
  | [] => []
  | c :: rest =>
      if re_space ucd c || (c =? 58)
      then if in_run then underscore_runs true rest
           else 95 :: underscore_runs true rest
      else c :: underscore_runs false rest
  end.

Definition slugify (text : pystr) : pystr :=
  let text := List.filter kept text in
  let text := underscore_runs false text in
  strip 95 (lower ucd text).

(** *** Core YouTube API functions *)

(** [channel["items"][0]["contentDetails"]["relatedPlaylists"]["uploads"]]. *)
Definition uploads_playlist (channel : option (list (option pystr)))
  : reply pystr :=
  match channel with
  | None => Fails KeyError
  | Some [] => Fails IndexError
  | Some (None :: _) => Fails KeyError
  | Some (Some playlist_id :: _) => Reply playlist_id
  end.

(** [[item["snippet"]["resourceId"]["videoId"] for item in
    playlist["items"]]]. *)
Definition page_video_ids (playlist : Page) : reply (list pystr) :=
  match items playlist with
  | None => Fails KeyError
  | Some l =>
      match mapM id l with
      | Some ids => Reply ids
      | None => Fails KeyError
      end
  end.

(** The [while True] loop of [get_channel_videos]; [n] counts the
    requests made, [fuel] bounds the iterations that are unfolded
    ([None] when it runs out). *)
Fixpoint fetch_pages (fuel : nat) (youtube : YouTubeData)
    (playlist_id : pystr) (n : nat) (video_ids : list pystr)
    (next_page_token : option pystr) : option (list pystr) :=
  match fuel with
  | O => None
  | S fuel' =>
      match playlistItems_list youtube n playlist_id next_page_token with
      | Fails _ => Some video_ids
      | Reply playlist =>
          match page_video_ids playlist with
          | Fails _ => Some video_ids
          | Reply ids =>
              let video_ids := video_ids ++ ids in
              let next_page_token := nextPageToken playlist in
              if negb (truthy next_page_token) then Some video_ids
              else fetch_pages fuel' youtube playlist_id (S n) video_ids
                     next_page_token
          end
      end
  end.

Definition get_channel_videos (fuel : nat) (api_key channel_id : pystr)
  : option (list pystr) :=
  let youtube := build env api_key in
  match channels_list youtube channel_id with
  | Fails _ => Some []
  | Reply channel =>
      match uploads_playlist channel with
      | Fails _ => Some []
      | Reply playlist_id => fetch_pages fuel youtube playlist_id 0 [] None
      end
  end.

(** [yt = YouTube(url); yt.title]. *)
Definition fetch_title (video_id : pystr) : M World pystr :=
  fun w =>
    (of_reply (video_title env (length (calls w)) video_id),
     add_call (FetchVideoPage video_id) w).

(** [YouTubeTranscriptApi.get_transcript(video_id)]. *)
Definition fetch_transcript (video_id : pystr) : M World (list pystr) :=
  fun w =>
    (of_reply (get_transcript env (length (calls w)) video_id),
     add_call (FetchCaptions video_id) w).

(** [subprocess.run(argv, check=True, capture_output=True)]. *)
Definition run_checked (argv : list pystr) : M World unit :=
  fun w =>
    let w' := add_call (RunProcess argv) w in
    match subprocess_run env (length (calls w)) argv (fs w) with
    | Exited code stderr files =>
        (if (code =? 0)%Z then Returns tt
         else Raises (Exc (CalledProcessError (Some stderr))),
         set_fs (fun _ => files) w')
    | NotStarted e => (Raises (Exc e), w')
    end.

Definition now : M World pystr :=
  fun w => (Returns (strftime_now env (length (calls w))), w).

Definition yt_dlp (video_id : pystr) : list pystr :=
  [str "yt-dlp"; str "-x"; str "--audio-format"; str "mp3"; str "-o";
   video_id ++ str ".%(ext)s";
   str "https://www.youtube.com/watch?v=" ++ video_id].

(** The name of a video's transcript file. *)
Definition transcript_filename (title video_id : pystr) : pystr :=
  slugify title ++ str "-" ++ video_id ++ str "-transcript.txt".

(** The block "Transcription Method Logic" of
    [download_and_save_transcript]: it leaves the transcript in [filename]
    and yields [text]. *)
Definition transcribe (video_id filename : pystr)
    (use_whisper use_api : bool) : M World pystr :=
  if use_whisper then
    let audio_filename := video_id ++ str ".mp3" in
    run_checked (yt_dlp video_id);;
    run_checked [str "whisper"; audio_filename; str "--model"; str "base";
                 str "--output_format"; str "txt"];;
    let whisper_output_file := video_id ++ str ".txt" in
    text ← read_text whisper_output_file;
    os_rename whisper_output_file filename;;
    for_each [str "mp3"; str "json"; str "srt"; str "tsv"; str "vtt"]
      (fun ext =>
         let sibling := video_id ++ str "." ++ ext in
         found ← path_exists sibling;
         if (found : bool) then os_remove sibling else mret tt);;
    mret text
  else if use_api then
    transcript_object ← fetch_transcript video_id;
    let text := join (str " ") transcript_object in
    write_text filename text;;
    mret text
  else
    let audio_filename := video_id ++ str ".mp3" in
    run_checked (yt_dlp video_id);;
    run_checked [str "python3"; str "transcribe_audio.py"; audio_filename;
                 str "--gcs-bucket"; GCS_BUCKET; str "--output-file";
                 filename];;
    text ← read_text filename;
    os_remove audio_filename;;
    mret text.

(** The four writes to the combined handle, under their guard
    [if combined_file_handle and text]. *)
Definition write_entry (combined_file_handle : option handle)
    (filename yt_title text : pystr) : M World unit :=
  if bool_decide (is_Some combined_file_handle) && nonempty text
  then
    handle_write (str "## Transcript File: " ++ filename ++ nl);;
    handle_write (str "## Video Title: " ++ yt_title ++ nl);;
    retrieved ← now;
    handle_write (str "## Retrieved: " ++ retrieved ++ nl);;
    handle_write (repeat_char 45 40 ++ nl ++ text ++ nl ++ nl)
  else mret tt.

(** The two [except] clauses of [download_and_save_transcript]. *)
Definition on_failure (video_id : pystr) (e : exn)
  : option (M World (bool * status)) :=
  match e with
  | Exc (CalledProcessError stderr) =>
      Some
        (shown ←
           (if truthy stderr
            then match decode_utf8 (default [] stderr) with
                 | Some text => mret text
                 | None => raise (Exc UnicodeDecodeError)
                 end
            else mret (str "No stderr"));
         say (SubprocessError video_id shown);;
         mret (false, Error))
  | Exc _ => Some (say (ProcessingError video_id);; mret (false, Error))
  | _ => None
  end.

Definition download_and_save_transcript (video_id : pystr)
    (use_whisper use_api : bool) (combined_file_handle : option handle)
  : M World (bool * status) :=
  try_except
    (yt_title ← fetch_title video_id;
     let filename := transcript_filename yt_title video_id in
     found ← path_exists filename;
     if (found : bool) then
       say (AlreadyExists filename);;
       mret (true, Skipped)
     else
       text ← transcribe video_id filename use_whisper use_api;
       write_entry combined_file_handle filename yt_title text;;
       mret (true, New))
    (on_failure video_id).

(** *** Main feature functions *)

(** The loop of [process_channel] over the resolved identifiers. *)
Fixpoint process_each (video_ids : list pystr)
    (use_whisper use_api : bool) (stats : Stats) : M World Stats :=
  match video_ids with
  | [] => mret stats
  | vid :: rest =>
      r ← download_and_save_transcript vid use_whisper use_api
            (Some Combined);
      process_each rest use_whisper use_api (bump r.2 stats)
  end.

(** [process_channel] from the point where the identifiers are known to
    the end of the [with] block; it yields the final [stats]. *)
Definition process_videos (video_ids : list pystr) (output_file : pystr)
    (use_whisper use_api : bool) : M World Stats :=
  let stats := {| new := 0; skipped := 0; error := 0 |} in
  with_open_append output_file
    (process_each video_ids use_whisper use_api stats).

Definition process_channel (fuel : nat) (api_key channel_id : pystr)
    (output_file : pystr) (use_whisper use_api : bool)
  : option (M World unit) :=
  video_ids ← get_channel_videos fuel api_key channel_id;
  Some (if bool_decide (video_ids = []) then mret tt
        else
          stats ← process_videos video_ids output_file use_whisper
                    use_api;
          say (ChannelComplete (length video_ids) (new stats)
                 (skipped stats) (error stats))).

(** One entry of the combined output, as [download_and_save_transcript]
    frames it. *)
Definition framed_entry (filename title retrieved text : pystr) : pystr :=
  (str "## Transcript File: " ++ filename ++ nl)
  ++ (str "## Video Title: " ++ title ++ nl)
  ++ (str "## Retrieved: " ++ retrieved ++ nl)
  ++ (repeat_char 45 40 ++ nl ++ text ++ nl ++ nl).

(** The names [os.listdir()] returns, in the order it returns them. *)
Definition listdir (w : World) : list pystr := (map_to_list (fs w)).*1.

Definition combine_local_files (output_file : pystr) : M World unit :=
  w ← get_state;
  let files :=
    List.filter (fun f => endswith f (str "-transcript.txt")) (listdir w) in
  if bool_decide (files = []) then say NoTranscriptFilesFound
  else
    with_open_write output_file
      (generated ← now;
       handle_write
         (str "Combined Transcripts (from local files)" ++ nl
          ++ str "Generated on: " ++ generated ++ nl
          ++ repeat_char 61 40 ++ nl ++ nl);;
       for_each (sorted files)
         (fun filename =>
            try_except
              (content ← read_text filename;
               handle_write
                 (str "## Episode Transcript: " ++ filename ++ nl
                  ++ content ++ nl ++ nl))
              (except_Exception (fun _ => say (FileError filename)))));;
    say (AllCombined output_file).
End Tool.

(** *** Vocabulary of the properties *)

(** The characters [a-z0-9_-]. *)
Definition slug_char (c : N) : bool :=
  ascii_islower c || ascii_isdigit c || (c =? 95) || (c =? 45).

Definition not_underscore (c : N) : bool := negb (c =? 95).

(** Alphanumeric or hyphen, below U+0080. *)
Definition alnum_or_hyphen (c : N) : bool := ascii_isalnum c || (c =? 45).

(** What the first substitution of [slugify] leaves of an ASCII title. *)
Definition ascii_kept (c : N) : bool :=
  alnum_or_hyphen c || (c =? 95) || ascii_isspace c.




(** A name that follows the naming convention of the transcript files. *)
Definition is_transcript_name (f : pystr) : bool :=
  endswith f (str "-transcript.txt").

(** The name ends in [-transcript.txt], the naming convention of the
    transcript files. *)
Definition follows_convention (name : pystr) : Prop :=
  exists stem, name = stem ++ str "-transcript.txt".

(** The artifacts the recombine mode is to discover in the directory
    [d]. *)
Definition discovered (d : gmap pystr node) (name : pystr) : Prop :=
  is_Some (d !! name) /\ follows_convention name.

(** The lexicographic order of strings, by code point. *)
Inductive lex_le : pystr -> pystr -> Prop :=
| lex_le_nil b : lex_le [] b
| lex_le_lt x a y b : (x < y)%N -> lex_le (x :: a) (y :: b)
| lex_le_eq x a b : lex_le a b -> lex_le (x :: a) (x :: b).

(** A file whose content can be read as text. *)
Definition readable (d : gmap pystr node) (name : pystr) : bool :=
  match d !! name with
  | Some (File (Some _)) => true
  | _ => false
  end.

(** The names among [names] that the recombine mode reports as failed:
    those, other than the combined output [out] itself, that cannot be
    read as text in the directory [d]. *)
Definition failed_reads (d : gmap pystr node) (out : pystr)
    (names : list pystr) : list pystr :=
  List.filter
    (fun name => negb (bool_decide (name = out)) && negb (readable d name))
    names.

(** The head of the combined output of the recombine mode. *)
Definition combine_header (generated : pystr) : pystr :=
  str "Combined Transcripts (from local files)" ++ nl
  ++ str "Generated on: " ++ generated ++ nl
  ++ repeat_char 61 40 ++ nl ++ nl.

(** One entry of the combined output of the recombine mode. *)
Definition combine_entry (filename content : pystr) : pystr :=
  str "## Episode Transcript: " ++ filename ++ nl ++ content ++ nl ++ nl.

(** The page lists the videos [ids]: it has items, and each item names
    its video. *)
Definition page_lists (page : Page) (ids : list pystr) : Prop :=
  items page = Some (Some <$> ids).

(** The page carries no continuation token: none, or the empty one that
    [not token] takes for none. *)
Definition last_page (page : Page) : Prop :=
  nextPageToken page = None \/ nextPageToken page = Some [].

(** How the specification describes the paging of the resolver: from the
    [n]-th request on, with [video_ids] collected so far and the
    continuation token [token], the listing ends with [result].
    - a request that fails, or a page that lacks an expected key, ends
      the listing with what was collected before it;
    - a page without continuation token ends it with the page included;
    - any other page is included and the listing goes on from its token. *)
Inductive paging (youtube : YouTubeData) (playlist_id : pystr)
  : nat -> list pystr -> option pystr -> list pystr -> Prop :=
| paging_fetch_error n video_ids token e :
    playlistItems_list youtube n playlist_id token = Fails e ->
    paging youtube playlist_id n video_ids token video_ids
| paging_page_error n video_ids token page :
    playlistItems_list youtube n playlist_id token = Reply page ->
    (forall ids, ~ page_lists page ids) ->
    paging youtube playlist_id n video_ids token video_ids
| paging_last n video_ids token page ids :
    playlistItems_list youtube n playlist_id token = Reply page ->
    page_lists page ids ->
    last_page page ->
    paging youtube playlist_id n video_ids token (video_ids ++ ids)
| paging_next n video_ids token page ids next result :
    playlistItems_list youtube n playlist_id token = Reply page ->
    page_lists page ids ->
    nextPageToken page = Some next ->
    next <> [] ->
    paging youtube playlist_id (S n) (video_ids ++ ids) (Some next)
      result ->
    paging youtube playlist_id n video_ids token result.

(** The uploads playlist of a channel, when the channel can be resolved. *)
Definition resolve_channel (youtube : YouTubeData) (channel_id : pystr)
  : option pystr :=
  match channels_list youtube channel_id with
  | Fails _ => None
  | Reply channel =>
      match uploads_playlist channel with
      | Fails _ => None
      | Reply playlist_id => Some playlist_id
      end
  end.

(** The channel is found, and the first item of the answer names
    [playlist_id] as its uploads playlist. *)
Definition channel_uploads (youtube : YouTubeData)
    (channel_id playlist_id : pystr) : Prop :=
  exists others,
    channels_list youtube channel_id
    = Reply (Some (Some playlist_id :: others)).

(** What the resolver is specified to return: nothing for a channel that
    cannot be resolved, and what the paging of its uploads collects
    otherwise. *)
Inductive resolves (youtube : YouTubeData) (channel_id : pystr)
  : list pystr -> Prop :=
| resolves_unknown :
    (forall playlist_id, ~ channel_uploads youtube channel_id playlist_id) ->
    resolves youtube channel_id []
| resolves_listed playlist_id video_ids :
    channel_uploads youtube channel_id playlist_id ->
    paging youtube playlist_id 0 [] None video_ids ->
    resolves youtube channel_id video_ids.

(** An exception that the [except] clauses of
    [download_and_save_transcript] cannot report: a [CalledProcessError]
    whose captured [stderr] is not empty and not valid UTF-8. *)
Definition undecodable (e : exc) : bool :=
  match e with
  | CalledProcessError stderr =>
      truthy stderr
      && bool_decide (decode_utf8 (default [] stderr) = None)
  | _ => false
  end.

(** No failure of a collaborator is of that kind. *)
Definition printable_failures (env : Env) : Prop :=
  (forall n argv files code stderr files',
      subprocess_run env n argv files = Exited code stderr files' ->
      code <> 0%Z ->
      undecodable (CalledProcessError (Some stderr)) = false)
  /\ (forall n argv files e,
        subprocess_run env n argv files = NotStarted e ->
        undecodable e = false)
  /\ (forall n vid e,
        video_title env n vid = Fails e -> undecodable e = false)
  /\ (forall n vid e,
        get_transcript env n vid = Fails e -> undecodable e = false).

(** The combined handle is in [w'] as it is in [w]. *)
Definition same_handle (w w' : World) : Prop :=
  pending w' = pending w /\ buffered w' = buffered w
  /\ target w' = target w.

(** From [w] to [w'], [text] has been written to the combined handle and
    nothing else has happened: some of what the handle held has reached
    its file, the rest is in its buffers. *)
Definition appended (w w' : World) (text : pystr) : Prop :=
  pending w' = pending w ++ text
  /\ calls w' = calls w
  /\ stdout w' = stdout w
  /\ target w' = target w
  /\ exists flushed,
       fs w' = flush_to (target w) flushed (fs w)
       /\ buffered w ++ text = flushed ++ buffered w'.

(** The combined handle is open on [out], which held [old] when it was
    opened: the file now holds [old] and what has left the buffers. *)
Definition logging (out old : pystr) (w : World) : Prop :=
  target w = Some out
  /\ exists flushed,
       fs w !! out = Some (File (Some (old ++ flushed)))
       /\ pending w = flushed ++ buffered w.

(** *** Computations that leave the combined handle and the diagnostics
    alone, raise only exceptions derived from [Exception], and only add
    to the calls. *)
Definition quiet (env : Env) {A} (m : M World A) : Prop :=
  forall w,
    same_handle w (m w).2
    /\ stdout (m w).2 = stdout w
    /\ (forall e, (m w).1 = Raises e ->
          exists x, e = Exc x
                    /\ (printable_failures env -> undecodable x = false))
    /\ exists cs, calls (m w).2 = calls w ++ cs.

(** Computations that call no collaborator. *)
Definition silent {A} (m : M World A) : Prop :=
  forall w, calls (m w).2 = calls w.


(** [new + skipped + error]. *)
Definition total (stats : Stats) : nat :=
  (new stats + skipped stats + error stats)%nat.

(** The names in the directory that [combine_local_files] selects. *)
Definition transcripts (w : World) : list pystr :=
  List.filter is_transcript_name (listdir w).

(** The entry [combine_local_files] writes for [filename] when it reads
    it in the directory [d]: none when the file cannot be read. *)
Definition entry_of (d : gmap pystr node) (filename : pystr) : pystr :=
  match d !! filename with
  | Some (File (Some text)) =>
      combine_entry filename (universal_newlines text)
  | _ => []
  end.

(** The entries of a combined output that is rebuilt as [out] from the
    files [names] of the directory [d], after [written] has been written
    to it: a file other than [out] gives the entry of its content in
    [d]; [out] itself, which was truncated and is being written, gives
    an entry with what of [written] has reached it by then. *)
Inductive recombined (d : gmap pystr node) (out : pystr)
  : pystr -> list pystr -> pystr -> Prop :=
| recombined_nil written :
    recombined d out written [] []
| recombined_other written name names entries :
    name <> out ->
    recombined d out (written ++ entry_of d name) names entries ->
    recombined d out written (name :: names) (entry_of d name ++ entries)
| recombined_self written names seen entries :
    seen `prefix_of` written ->
    recombined d out
      (written ++ combine_entry out (universal_newlines seen)) names
      entries ->
    recombined d out written (out :: names)
      (combine_entry out (universal_newlines seen) ++ entries).

End TranscriptTool.

(* ===================================================================== *)
(** ** [transcript_tool.py]: the command line                             *)
(* ===================================================================== *)

Module TranscriptToolMain.
Import Python TranscriptTool.

(** The dictionary [CHANNELS], in the order of its items. *)
Definition CHANNELS : list (pystr * pystr) :=
  [(str "botbs", str "UCpwXkp5XwIw_WVswz9bzBUw");
   (str "swh", str "UCyUA6TXPI48F6JLXc6I41xw")].

(** [CHANNELS[name]]. *)
Definition channels_getitem (name : pystr) : reply pystr :=
  match List.find (fun item => bool_decide (item.1 = name)) CHANNELS with
  | Some item => Reply item.2
  | None => Fails KeyError
  end.

(** What [parser.parse_args()] returns: an option that was not given is
    [None] when it takes a value and [False] when it is a flag;
    [api_key] defaults to the environment variable [YOUTUBE_API_KEY],
    which may be unset, and [output_file] to [master-transcript.txt]. *)
Record Namespace : Type := {
  channel : option pystr;
  video_id : option pystr;
  combine_only : bool;
  list_channels : bool;
  api_key : option pystr;
  output_file : pystr;
  use_whisper : bool;
  use_api : bool
}.

(** The lines [main] prints itself. *)
Inductive line : Type :=
| ChannelLine (name channel_id : pystr)
| SingleOperation (success : bool).

(** The state of [main]: that of the functions it calls, and its own
    lines on standard output. *)
Record Console : Type := {
  world : World;
  printed : list line
}.

Definition in_world {A} (m : M World A) : M Console A :=
  fun c =>
    ((m (world c)).1, {| world := (m (world c)).2; printed := printed c |}).

Definition print (l : line) : M Console unit :=
  modify (fun c => {| world := world c; printed := printed c ++ [l] |}).

(** [parser.error(message)]: the usage on standard error, and exit
    status 2. *)
Definition parser_error {A} : M Console A := sys_exit 2.

(** [for item in items: body item] in [main]. *)
Fixpoint for_each_item {A} (items : list A) (body : A -> M Console unit)
  : M Console unit :=
  match items with
  | [] => mret tt
  | item :: rest => body item;; for_each_item rest body
  end.

Section Main.
Context (ucd : Unicode) (env : Env).

(** [main], from the parsed arguments on. [fuel] bounds the loop of
    [get_channel_videos], which only the channel mode reaches. *)
Definition main (fuel : nat) (args : Namespace) : option (M Console unit) :=
  if list_channels args then
    Some (for_each_item CHANNELS
            (fun item => print (ChannelLine item.1 item.2)))
  else if combine_only args then
    Some (in_world (combine_local_files env (output_file args)))
  else if (truthy (channel args) || truthy (video_id args))
          && negb (truthy (api_key args)) then
    Some parser_error
  else
    channel_mode ←
      (if truthy (channel args) then
         match channels_getitem (default [] (channel args)) with
         | Reply channel_id =>
             in_world
               <$> process_channel ucd env fuel (default [] (api_key args))
                     channel_id (output_file args) (use_whisper args)
                     (use_api args)
         | Fails e => Some (raise (Exc e))
         end
       else Some (mret tt));
    Some (channel_mode;;
          if truthy (video_id args) then
            r ← in_world
                  (download_and_save_transcript ucd env
                     (default [] (video_id args)) (use_whisper args)
                     (use_api args) None);
            print (SingleOperation r.1)
          else mret tt).
End Main.

End TranscriptToolMain.

(* ===================================================================== *)
(** ** Sample inputs                                                      *)
(* ===================================================================== *)

Module Examples.
Import Python.

(** [transcribe_audio.py downloads/abc123.mp3 --gcs-bucket bucket
    --output-file out.txt]. *)
Definition cli : TranscribeAudio.Args :=
  {| TranscribeAudio.audio_file := str "downloads/abc123.mp3";
     TranscribeAudio.output_file := Some (str "out.txt");
     TranscribeAudio.gcs_bucket := str "bucket";
     TranscribeAudio.project_id := str "ucr-research-computing" |}.

(** Every service answers. *)
Definition working_cloud : TranscribeAudio.Env :=
  {| TranscribeAudio.clock := Returns (str "20251118_093000");
     TranscribeAudio.storage_upload := Returns tt;
     TranscribeAudio.speech_recognize :=
       Returns [[str "hello"; str "hullo"]; [str "world"]];
     TranscribeAudio.file_write := Returns tt;
     TranscribeAudio.storage_delete := Returns tt |}.

(** The upload fails, and so the staged object is absent when the cleanup
    asks for its deletion. *)
Definition failing_cloud : TranscribeAudio.Env :=
  {| TranscribeAudio.clock := Returns (str "20251118_093000");
     TranscribeAudio.storage_upload :=
       Raises (Exc (OtherError "ConnectionError"));
     TranscribeAudio.speech_recognize := Returns [];
     TranscribeAudio.file_write := Returns tt;
     TranscribeAudio.storage_delete := Raises (Exc NotFound) |}.

(** The upload succeeds and the speech service fails. *)
Definition failing_speech : TranscribeAudio.Env :=
  {| TranscribeAudio.clock := Returns (str "20251118_093000");
     TranscribeAudio.storage_upload := Returns tt;
     TranscribeAudio.speech_recognize := Raises (Exc GoogleAPICallError);
     TranscribeAudio.file_write := Returns tt;
     TranscribeAudio.storage_delete := Returns tt |}.

(** The user interrupts the script while it waits for the transcription. *)
Definition interrupted_cloud : TranscribeAudio.Env :=
  {| TranscribeAudio.clock := Returns (str "20251118_093000");
     TranscribeAudio.storage_upload := Returns tt;
     TranscribeAudio.speech_recognize := Raises KeyboardInterrupt;
     TranscribeAudio.file_write := Returns tt;
     TranscribeAudio.storage_delete := Returns tt |}.

(** A Data API client whose requests all fail. *)
Definition no_listing : TranscriptTool.YouTubeData :=
  {| TranscriptTool.channels_list := fun _ => Fails (OtherError "HttpError");
     TranscriptTool.playlistItems_list :=
       fun _ _ _ => Fails (OtherError "HttpError") |}.

(** A channel whose uploads are the two videos of the specification's
    scenario, listed on one page. *)
Definition two_uploads : TranscriptTool.YouTubeData :=
  {| TranscriptTool.channels_list :=
       fun _ => Reply (Some [Some (str "UUuploads")]);
     TranscriptTool.playlistItems_list :=
       fun _ _ _ =>
         Reply {| TranscriptTool.items :=
                    Some [Some (str "abc123"); Some (str "def456")];
                  TranscriptTool.nextPageToken := None |} |}.

(** A channel whose listing never ends: every page carries a
    continuation token. *)
Definition endless_uploads : TranscriptTool.YouTubeData :=
  {| TranscriptTool.channels_list :=
       fun _ => Reply (Some [Some (str "UUuploads")]);
     TranscriptTool.playlistItems_list :=
       fun _ _ _ =>
         Reply {| TranscriptTool.items := Some [Some (str "abc123")];
                  TranscriptTool.nextPageToken := Some (str "CAUQAA") |} |}.

(** A channel whose listing breaks off: the first page carries a
    continuation token, and the request for the second page fails. *)
Definition interrupted_uploads : TranscriptTool.YouTubeData :=
  {| TranscriptTool.channels_list :=
       fun _ => Reply (Some [Some (str "UUuploads")]);
     TranscriptTool.playlistItems_list :=
       fun n _ _ =>
         match n with
         | O => Reply {| TranscriptTool.items := Some [Some (str "abc123")];
                         TranscriptTool.nextPageToken :=
                           Some (str "CAUQAA") |}
         | _ => Fails (OtherError "HttpError")
         end |}.

(** A channel whose second page has an item without video identifier. *)
Definition malformed_uploads : TranscriptTool.YouTubeData :=
  {| TranscriptTool.channels_list :=
       fun _ => Reply (Some [Some (str "UUuploads")]);
     TranscriptTool.playlistItems_list :=
       fun n _ _ =>
         match n with
         | O => Reply {| TranscriptTool.items := Some [Some (str "abc123")];
                         TranscriptTool.nextPageToken :=
                           Some (str "CAUQAA") |}
         | _ => Reply {| TranscriptTool.items :=
                           Some [Some (str "def456"); None];
                         TranscriptTool.nextPageToken := None |}
         end |}.

(** A handle that lets its buffer through to the file once it holds more
    than 8192 characters. *)
Definition block_buffered (written buffer : pystr) : nat :=
  if (8192 <? N.of_nat (length buffer))%N then length buffer else 0%nat.


(** The video [id] is titled "Episode [id]"; the captions service answers
    with the two fragments of the specification's scenario; no external
    tool is installed. *)
Definition captions_env : TranscriptTool.Env :=
  {| TranscriptTool.build := fun _ => no_listing;
     TranscriptTool.video_title := fun _ id => Reply (str "Episode " ++ id);
     TranscriptTool.get_transcript :=
       fun _ _ => Reply [str "Hello "; str "world"];
     TranscriptTool.subprocess_run :=
       fun _ _ _ => TranscriptTool.NotStarted FileNotFoundError;
     TranscriptTool.strftime_now := fun _ => str "2025-11-18 09:30:00";
     TranscriptTool.buffer_flush := block_buffered |}.


(** As [captions_env], for the channel whose listing breaks off. *)
Definition interrupted_env : TranscriptTool.Env :=
  {| TranscriptTool.build := fun _ => interrupted_uploads;
     TranscriptTool.video_title := fun _ id => Reply (str "Episode " ++ id);
     TranscriptTool.get_transcript :=
       fun _ _ => Reply [str "Hello "; str "world"];
     TranscriptTool.subprocess_run :=
       fun _ _ _ => TranscriptTool.NotStarted FileNotFoundError;
     TranscriptTool.strftime_now := fun _ => str "2025-11-18 09:30:00";
     TranscriptTool.buffer_flush := block_buffered |}.

(** As [captions_env], for the channel whose second page is malformed. *)
Definition malformed_env : TranscriptTool.Env :=
  {| TranscriptTool.build := fun _ => malformed_uploads;
     TranscriptTool.video_title := fun _ id => Reply (str "Episode " ++ id);
     TranscriptTool.get_transcript :=
       fun _ _ => Reply [str "Hello "; str "world"];
     TranscriptTool.subprocess_run :=
       fun _ _ _ => TranscriptTool.NotStarted FileNotFoundError;
     TranscriptTool.strftime_now := fun _ => str "2025-11-18 09:30:00";
     TranscriptTool.buffer_flush := block_buffered |}.

(** As [captions_env], for the channel whose listing never ends. *)
Definition endless_env : TranscriptTool.Env :=
  {| TranscriptTool.build := fun _ => endless_uploads;
     TranscriptTool.video_title := fun _ id => Reply (str "Episode " ++ id);
     TranscriptTool.get_transcript :=
       fun _ _ => Reply [str "Hello "; str "world"];
     TranscriptTool.subprocess_run :=
       fun _ _ _ => TranscriptTool.NotStarted FileNotFoundError;
     TranscriptTool.strftime_now := fun _ => str "2025-11-18 09:30:00";
     TranscriptTool.buffer_flush := block_buffered |}.

(** As [captions_env], but the captions service returns no fragment. *)
Definition no_fragments_env : TranscriptTool.Env :=
  {| TranscriptTool.build := fun _ => no_listing;
     TranscriptTool.video_title := fun _ id => Reply (str "Episode " ++ id);
     TranscriptTool.get_transcript := fun _ _ => Reply [];
     TranscriptTool.subprocess_run :=
       fun _ _ _ => TranscriptTool.NotStarted FileNotFoundError;
     TranscriptTool.strftime_now := fun _ => str "2025-11-18 09:30:00";
     TranscriptTool.buffer_flush := block_buffered |}.

(** As [captions_env], but the video has no captions. *)
Definition no_captions_env : TranscriptTool.Env :=
  {| TranscriptTool.build := fun _ => no_listing;
     TranscriptTool.video_title := fun _ id => Reply (str "Episode " ++ id);
     TranscriptTool.get_transcript :=
       fun _ _ => Fails (OtherError "TranscriptsDisabled");
     TranscriptTool.subprocess_run :=
       fun _ _ _ => TranscriptTool.NotStarted FileNotFoundError;
     TranscriptTool.strftime_now := fun _ => str "2025-11-18 09:30:00";
     TranscriptTool.buffer_flush := block_buffered |}.

(** The channel lists the two videos; every external tool exits with
    status 1, leaves the directory as it was, and has written the single
    byte 0xFF to its standard error. *)
Definition garbled_stderr_env : TranscriptTool.Env :=
  {| TranscriptTool.build := fun _ => two_uploads;
     TranscriptTool.video_title := fun _ id => Reply (str "Episode " ++ id);
     TranscriptTool.get_transcript :=
       fun _ _ => Reply [str "Hello "; str "world"];
     TranscriptTool.subprocess_run :=
       fun _ _ files => TranscriptTool.Exited 1 [255] files;
     TranscriptTool.strftime_now := fun _ => str "2025-11-18 09:30:00";
     TranscriptTool.buffer_flush := block_buffered |}.

(** The tools of the local strategy at work on the video abc123: yt-dlp
    leaves its audio, whisper the text and the subtitles. *)
Definition local_tools_env : TranscriptTool.Env :=
  {| TranscriptTool.build := fun _ => no_listing;
     TranscriptTool.video_title := fun _ id => Reply (str "Episode " ++ id);
     TranscriptTool.get_transcript :=
       fun _ _ => Fails (OtherError "TranscriptsDisabled");
     TranscriptTool.subprocess_run :=
       fun _ argv files =>
         match argv with
         | prog :: _ =>
             if bool_decide (prog = str "yt-dlp")
             then TranscriptTool.Exited 0 []
                    (<[str "abc123.mp3" := TranscriptTool.File (Some [])]>
                       files)
             else TranscriptTool.Exited 0 []
                    (<[str "abc123.txt"
                       := TranscriptTool.File (Some (str "hello world"))]>
                       (<[str "abc123.srt"
                          := TranscriptTool.File (Some (str "1"))]> files))
         | [] => TranscriptTool.NotStarted FileNotFoundError
         end;
     TranscriptTool.strftime_now := fun _ => str "2025-11-18 09:30:00";
     TranscriptTool.buffer_flush := block_buffered |}.


(** The tools of the cloud strategy at work on the video abc123: yt-dlp
    leaves its audio, and [transcribe_audio.py] writes a transcript that
    is not valid UTF-8. *)
Definition unreadable_output_env : TranscriptTool.Env :=
  {| TranscriptTool.build := fun _ => no_listing;
     TranscriptTool.video_title := fun _ id => Reply (str "Episode " ++ id);
     TranscriptTool.get_transcript :=
       fun _ _ => Fails (OtherError "TranscriptsDisabled");
     TranscriptTool.subprocess_run :=
       fun _ argv files =>
         match argv with
         | prog :: _ =>
             if bool_decide (prog = str "yt-dlp")
             then TranscriptTool.Exited 0 []
                    (<[str "abc123.mp3" := TranscriptTool.File (Some [])]>
                       files)
             else TranscriptTool.Exited 0 []
                    (<[str "episode_abc123-abc123-transcript.txt"
                       := TranscriptTool.File None]> files)
         | [] => TranscriptTool.NotStarted FileNotFoundError
         end;
     TranscriptTool.strftime_now := fun _ => str "2025-11-18 09:30:00";
     TranscriptTool.buffer_flush := block_buffered |}.

(** [transcript_tool.py --video-id def456 --use-api], with or without an
    API key in the environment. *)
Definition single_video (key : option pystr) : TranscriptToolMain.Namespace :=
  {| TranscriptToolMain.channel := None;
     TranscriptToolMain.video_id := Some (str "def456");
     TranscriptToolMain.combine_only := false;
     TranscriptToolMain.list_channels := false;
     TranscriptToolMain.api_key := key;
     TranscriptToolMain.output_file := str "master-transcript.txt";
     TranscriptToolMain.use_whisper := false;
     TranscriptToolMain.use_api := true |}.

(** [transcript_tool.py --combine-only], without an API key. *)
Definition combine_only_args : TranscriptToolMain.Namespace :=
  {| TranscriptToolMain.channel := None;
     TranscriptToolMain.video_id := None;
     TranscriptToolMain.combine_only := true;
     TranscriptToolMain.list_channels := false;
     TranscriptToolMain.api_key := None;
     TranscriptToolMain.output_file := str "master-transcript.txt";
     TranscriptToolMain.use_whisper := false;
     TranscriptToolMain.use_api := false |}.

(** A fresh run in a directory that holds the given entries. *)
Definition directory (entries : list (pystr * TranscriptTool.node))
  : TranscriptTool.World :=
  {| TranscriptTool.fs := list_to_map entries;
     TranscriptTool.pending := [];
     TranscriptTool.calls := [];
     TranscriptTool.stdout := [];
     TranscriptTool.buffered := [];
     TranscriptTool.target := None |}.

(** The transcript of the video abc123 is there already. *)
Definition abc123_saved : TranscriptTool.World :=
  directory [(str "episode_abc123-abc123-transcript.txt",
              TranscriptTool.File (Some (str "an earlier transcript")))].




End Examples.

(* ===================================================================== *)
(** ** Properties of the staging adapter                                  *)
(* ===================================================================== *)

Section StagingAdapter.
Import Python TranscribeAudio.

Lemma gcs_uri_nonempty (bucket blob : pystr) :
  nonempty (str "gs://" ++ bucket ++ str "/" ++ blob) = true.
Proof. reflexivity. Qed.

Lemma remote_name_truthy (timestamp : pystr) (args : Args) :
  truthy (Some (remote_name timestamp args)) = true.
Proof. reflexivity. Qed.

Ltac script_unfold :=
  unfold run, main, upload_blob, transcribe_gcs_long_running, delete_blob,
    try_finally, try_except, emit, set_gcs_blob_name, sys_exit, raise, lift,
    modify, get_state, initial, with_storage_delete, of_reply,
    mbind, mret, M_bind, M_ret.

(** Case analysis on whatever the script inspects next. *)
Ltac script_cases :=
  repeat (first
    [ rewrite gcs_uri_nonempty
    | match goal with
      | |- context [match ?x with _ => _ end] =>
          match x with
          | context [match _ with _ => _ end] => fail 1
          | _ => destruct x
          end
      end ]; cbn).

(** The staged object's name is folded and taken apart into its first
    character and the rest, so that its truth value computes. *)
Ltac name_the_blob timestamp args :=
  change (str "audio_transcription/" ++ timestamp ++ str "_"
            ++ basename (audio_file args))
    with (remote_name timestamp args);
  generalize (remote_name_truthy timestamp args);
  generalize (remote_name timestamp args);
  let name := fresh "name" in
  intros name; destruct name; [discriminate | intros _].

#[local] Opaque str.

(** [delete_blob] issues one request and returns unless the request ends
    with an exception that does not derive from [Exception]. *)
Lemma delete_blob_run (env : Env) (bucket blob : pystr) (s : St) :
  delete_blob env bucket blob s
  = (match storage_delete env with
     | Raises KeyboardInterrupt => Raises KeyboardInterrupt
     | Raises (SystemExit c) => Raises (SystemExit c)
     | _ => Returns tt
     end,
     {| gcs_blob_name := gcs_blob_name s;
        trace := trace s ++ [Delete bucket blob] |}).
Proof.
  script_unfold. cbn. destruct (storage_delete env) as [[]|[[]| |]];
    reflexivity.
Qed.

(** Without a timestamp no name is built, nothing is uploaded and nothing
    is deleted. *)
Lemma no_name_no_requests (env : Env) (args : Args) (e : exn) :
  clock env = Raises e ->
  trace (run env args).2 = [] /\ gcs_blob_name (run env args).2 = None.
Proof.
  intros Hc. script_unfold. rewrite Hc. cbn. destruct e; cbn; split;
    reflexivity.
Qed.

(** C2. Once [main] has built the name of the staged object, its requests
    contain exactly one delete, for the bucket and name of the one upload,
    and it is the last request, whatever the upload, the transcription,
    the writing of the result and the delete itself do (return, raise, or
    be interrupted). When the object is already gone ([NotFound]) the run
    ends as it does when the delete succeeds. *)
Theorem staging_cleanup_exactly_once
    (env : Env) (args : Args) (timestamp : pystr) :
  clock env = Returns timestamp ->
  deletes (trace (run env args).2)
    = [(gcs_bucket args, remote_name timestamp args)]
  /\ uploads (trace (run env args).2)
    = [(gcs_bucket args, remote_name timestamp args)]
  /\ last (trace (run env args).2)
    = Some (Delete (gcs_bucket args) (remote_name timestamp args))
  /\ (storage_delete env = Raises (Exc NotFound) ->
      (run env args).1
      = (run (with_storage_delete env (Returns tt)) args).1).
Proof.
  intros Hc. repeat split.
  - script_unfold. rewrite Hc. name_the_blob timestamp args. cbn.
    script_cases; reflexivity.
  - script_unfold. rewrite Hc. name_the_blob timestamp args. cbn.
    script_cases; reflexivity.
  - script_unfold. rewrite Hc. name_the_blob timestamp args. cbn.
    script_cases; reflexivity.
  - intros Hd. script_unfold. cbn. rewrite Hc, Hd.
    name_the_blob timestamp args. cbn. script_cases; reflexivity.
Qed.

(** C10. [delete_blob] returns normally whether the storage service
    deletes the object, reports [NotFound] or fails with any other
    exception, and the way [main] ends is the same in all these cases: a
    run that ends normally when the delete succeeds ends normally when it
    fails. *)
Theorem cleanup_failure_is_swallowed
    (env : Env) (answer : reply unit) (args : Args) (bucket blob : pystr)
    (s : St) :
  (delete_blob (with_storage_delete env (of_reply answer)) bucket blob s).1
    = Returns tt
  /\ (run (with_storage_delete env (of_reply answer)) args).1
    = (run (with_storage_delete env (Returns tt)) args).1
  /\ (forall timestamp results transcript,
        clock env = Returns timestamp ->
        storage_upload env = Returns tt ->
        speech_recognize env = Returns results ->
        best_alternatives results = Returns transcript ->
        file_write env = Returns tt ->
        (run (with_storage_delete env (of_reply answer)) args).1
        = Returns tt).
Proof.
  split; [|split].
  - rewrite delete_blob_run. destruct answer as [[]|e]; reflexivity.
  - script_unfold. cbn. destruct (clock env) as [timestamp|e].
    + name_the_blob timestamp args. cbn.
      destruct answer as [[]|e]; script_cases; reflexivity.
    + destruct answer as [[]|e']; script_cases; reflexivity.
  - intros timestamp results transcript Hc Hu Hr Hb Hw.
    script_unfold. cbn. rewrite Hc, Hu, Hr. cbn. rewrite Hb, Hw.
    name_the_blob timestamp args. cbn.
    destruct answer as [[]|e]; script_cases; reflexivity.
Qed.

(** *** What [main] does with each answer of the services *)

Lemma best_alternatives_heads (results : list (list pystr)) :
  best_alternatives results
  = match mapM head results with
    | Some transcript => Returns transcript
    | None => Raises (Exc IndexError)
    end.
Proof.
  induction results as [|alternatives rest IH]; [done|].
  cbn. destruct alternatives as [|best others]; [done|].
  rewrite IH. cbn. by destruct (mapM head rest).
Qed.

(** X1. [transcribe_gcs_long_running] raises no exception derived from
    [Exception]. It issues one recognition request and returns the first
    alternatives of the results, joined by spaces; it returns [None] when
    the service fails, and also when one of the results has no
    alternative. *)
Theorem transcribe_gcs_long_running_returns (env : Env)
    (answer : reply (list (list pystr))) (project uri : pystr) (s : St) :
  speech_recognize env = of_reply answer ->
  transcribe_gcs_long_running env project uri s
  = (Returns
       match answer with
       | Reply results => join (str " ") <$> mapM head results
       | Fails _ => None
       end,
     {| gcs_blob_name := gcs_blob_name s;
        trace := trace s ++ [Recognize uri] |}).
Proof.
  intros Hs. destruct env; cbn in Hs; subst. script_unfold. cbn.
  destruct answer as [results|e]; cbn.
  - rewrite best_alternatives_heads.
    destruct (mapM head results); reflexivity.
  - destruct e; reflexivity.
Qed.

(** X2. A failed upload is not caught. [main] ends with the exception of
    the upload, after one upload request and one delete request for the
    object that was never stored: no recognition is requested and nothing
    is written. *)
Theorem upload_failure_propagates (env : Env) (args : Args)
    (timestamp : pystr) (e : exc) (d : reply unit) :
  clock env = Returns timestamp ->
  storage_upload env = Raises (Exc e) ->
  storage_delete env = of_reply d ->
  run env args
  = (Raises (Exc e),
     {| gcs_blob_name := Some (remote_name timestamp args);
        trace := [Upload (gcs_bucket args) (audio_file args)
                    (remote_name timestamp args);
                  Delete (gcs_bucket args) (remote_name timestamp args)] |}).
Proof.
  intros Hc Hu Hd. destruct env; cbn in Hc, Hu, Hd; subst.
  script_unfold. cbn. name_the_blob timestamp args. cbn.
  destruct d as [[]|x]; script_cases; reflexivity.
Qed.

(** X3. When the upload succeeds and the transcription does not (the
    speech service fails, or a result has no alternative), [main] ends
    with [sys.exit(1)] after the requests upload, recognize, delete:
    nothing is written to the output file or to standard output. *)
Theorem recognition_failure_exits_1 (env : Env) (args : Args)
    (timestamp : pystr) (answer : reply (list (list pystr)))
    (d : reply unit) :
  clock env = Returns timestamp ->
  storage_upload env = Returns tt ->
  speech_recognize env = of_reply answer ->
  match answer with
  | Reply results => mapM head results = None
  | Fails _ => True
  end ->
  storage_delete env = of_reply d ->
  run env args
  = (Raises (SystemExit 1),
     {| gcs_blob_name := Some (remote_name timestamp args);
        trace := [Upload (gcs_bucket args) (audio_file args)
                    (remote_name timestamp args);
                  Recognize (str "gs://" ++ gcs_bucket args ++ str "/"
                             ++ remote_name timestamp args);
                  Delete (gcs_bucket args) (remote_name timestamp args)] |}).
Proof.
  intros Hc Hu Hs Hnone Hd. destruct env; cbn in Hc, Hu, Hs, Hd; subst.
  script_unfold. cbn. name_the_blob timestamp args. cbn.
  destruct answer as [results|x]; cbn.
  - rewrite best_alternatives_heads, Hnone. cbn.
    destruct d as [[]|y]; script_cases; reflexivity.
  - destruct d as [[]|y]; script_cases; reflexivity.
Qed.

(** X4. When every service answers, [main] returns after the requests
    upload, recognize, output, delete, in this order. The output is the
    first alternatives joined by spaces; it goes to the file given by
    [--output-file], and to standard output when that option is absent or
    empty. *)
Theorem success_writes_output (env : Env) (args : Args)
    (timestamp : pystr) (results : list (list pystr))
    (transcript : list pystr) (d : reply unit) :
  clock env = Returns timestamp ->
  storage_upload env = Returns tt ->
  speech_recognize env = Returns results ->
  mapM head results = Some transcript ->
  (truthy (output_file args) = true -> file_write env = Returns tt) ->
  storage_delete env = of_reply d ->
  run env args
  = (Returns tt,
     {| gcs_blob_name := Some (remote_name timestamp args);
        trace := [Upload (gcs_bucket args) (audio_file args)
                    (remote_name timestamp args);
                  Recognize (str "gs://" ++ gcs_bucket args ++ str "/"
                             ++ remote_name timestamp args);
                  if truthy (output_file args)
                  then WriteFile (default [] (output_file args))
                         (join (str " ") transcript)
                  else Stdout (join (str " ") transcript);
                  Delete (gcs_bucket args) (remote_name timestamp args)] |}).
Proof.
  intros Hc Hu Hs Hsome Hw Hd.
  destruct env; cbn in Hc, Hu, Hs, Hw, Hd; subst.
  script_unfold. cbn. name_the_blob timestamp args. cbn.
  rewrite best_alternatives_heads, Hsome. cbn.
  destruct (truthy (output_file args)) eqn:Hout; cbn.
  - rewrite (Hw eq_refl). cbn.
    destruct d as [[]|y]; script_cases; reflexivity.
  - destruct d as [[]|y]; script_cases; reflexivity.
Qed.

(** X5. An interruption by the user ([KeyboardInterrupt]) while [main]
    reads the clock, uploads, waits for the transcription or writes the
    output ends the script with [sys.exit(0)], the status of a successful
    run. *)
Theorem interrupt_exits_0 (env : Env) (args : Args) (d : reply unit) :
  storage_delete env = of_reply d ->
  clock env = Raises KeyboardInterrupt
  \/ (exists timestamp,
        clock env = Returns timestamp
        /\ (storage_upload env = Raises KeyboardInterrupt
            \/ (storage_upload env = Returns tt
                /\ (speech_recognize env = Raises KeyboardInterrupt
                    \/ exists results transcript,
                         speech_recognize env = Returns results
                         /\ mapM head results = Some transcript
                         /\ truthy (output_file args) = true
                         /\ file_write env = Raises KeyboardInterrupt)))) ->
  (run env args).1 = Raises (SystemExit 0).
Proof.
  intros Hd [Hc|(timestamp & Hc & [Hu|(Hu & [Hs|Hw])])];
    destruct env; cbn in *; subst.
  - script_unfold. reflexivity.
  - script_unfold. cbn. name_the_blob timestamp args. cbn.
    destruct d as [[]|y]; script_cases; reflexivity.
  - script_unfold. cbn. name_the_blob timestamp args. cbn.
    destruct d as [[]|y]; script_cases; reflexivity.
  - destruct Hw as (results & transcript & -> & Hsome & Hout & ->).
    script_unfold. cbn. name_the_blob timestamp args. cbn.
    rewrite best_alternatives_heads, Hsome. cbn. rewrite Hout. cbn.
    destruct d as [[]|y]; script_cases; reflexivity.
Qed.

(** *** The name of the staged object *)

Lemma basename_join (dir file : pystr) :
  47 ∉ file -> basename (dir ++ str "/" ++ file) = file.
Proof.
  intros Hfile.
  assert (Hno : existsb (N.eqb 47) file = false).
  { clear -Hfile. induction file as [|c r IH]; [done|]. cbn [existsb].
    apply not_elem_of_cons in Hfile as [Hc Hr].
    rewrite (IH Hr), orb_false_r. by apply N.eqb_neq. }
  change (str "/" ++ file) with (47 :: file).
  induction dir as [|c d IH]; cbn [basename app].
  - by rewrite Hno, N.eqb_refl.
  - rewrite IH.
    assert (Hyes : existsb (N.eqb 47) (d ++ 47 :: file) = true).
    { rewrite existsb_app. cbn [existsb].
      by rewrite N.eqb_refl, orb_true_r. }
    by rewrite Hyes.
Qed.

(** X6. The staged object is named after the time and the base name of
    the audio file only: the directory of the file is dropped. Two files
    of the same name in different directories, staged in the same second,
    get the same remote location. *)
Theorem staged_name_drops_directory (env : Env) (args : Args)
    (timestamp dir file : pystr) :
  clock env = Returns timestamp ->
  audio_file args = dir ++ str "/" ++ file ->
  47 ∉ file ->
  head (trace (run env args).2)
  = Some (Upload (gcs_bucket args) (audio_file args)
            (str "audio_transcription/" ++ timestamp ++ str "_" ++ file)).
Proof.
  intros Hc Haudio Hfile.
  rewrite <- (basename_join dir file Hfile), <- Haudio.
  destruct env; cbn in Hc; subst.
  script_unfold. cbn. name_the_blob timestamp args. cbn.
  script_cases; reflexivity.
Qed.

#[local] Transparent str.

Lemma staging_cleanup_exactly_once_witness :
  deletes (trace (run Examples.failing_cloud Examples.cli).2)
    = [(str "bucket", str "audio_transcription/20251118_093000_abc123.mp3")]
  /\ uploads (trace (run Examples.failing_cloud Examples.cli).2)
    = [(str "bucket", str "audio_transcription/20251118_093000_abc123.mp3")]
  /\ last (trace (run Examples.failing_cloud Examples.cli).2)
    = Some (Delete (str "bucket")
              (str "audio_transcription/20251118_093000_abc123.mp3"))
  /\ (storage_delete Examples.failing_cloud = Raises (Exc NotFound) ->
      (run Examples.failing_cloud Examples.cli).1
      = (run (with_storage_delete Examples.failing_cloud (Returns tt))
           Examples.cli).1).
Proof.
  apply (staging_cleanup_exactly_once Examples.failing_cloud Examples.cli
           (str "20251118_093000")).
  reflexivity.
Defined.

Lemma cleanup_failure_is_swallowed_witness :
  (run (with_storage_delete Examples.working_cloud
          (Raises (Exc (OtherError "ServiceUnavailable")))) Examples.cli).1
  = Returns tt.
Proof.
  apply (cleanup_failure_is_swallowed Examples.working_cloud
           (Fails (OtherError "ServiceUnavailable")) Examples.cli [] []
           initial)
    with (timestamp := str "20251118_093000")
         (results := [[str "hello"; str "hullo"]; [str "world"]])
         (transcript := [str "hello"; str "world"]);
    reflexivity.
Defined.

Lemma transcribe_gcs_long_running_returns_witness :
  (transcribe_gcs_long_running Examples.working_cloud
     (str "ucr-research-computing") (str "gs://bucket/abc123.mp3")
     initial).1
  = Returns (Some (str "hello world")).
Proof.
  rewrite (transcribe_gcs_long_running_returns Examples.working_cloud
             (Reply [[str "hello"; str "hullo"]; [str "world"]])
             (str "ucr-research-computing") (str "gs://bucket/abc123.mp3")
             initial eq_refl).
  reflexivity.
Defined.

Lemma upload_failure_propagates_witness :
  (run Examples.failing_cloud Examples.cli).1
  = Raises (Exc (OtherError "ConnectionError")).
Proof.
  rewrite (upload_failure_propagates Examples.failing_cloud Examples.cli
             (str "20251118_093000") (OtherError "ConnectionError")
             (Fails NotFound) eq_refl eq_refl eq_refl).
  reflexivity.
Defined.

Lemma recognition_failure_exits_1_witness :
  (run Examples.failing_speech Examples.cli).1 = Raises (SystemExit 1).
Proof.
  rewrite (recognition_failure_exits_1 Examples.failing_speech Examples.cli
             (str "20251118_093000") (Fails GoogleAPICallError) (Reply tt)
             eq_refl eq_refl eq_refl I eq_refl).
  reflexivity.
Defined.

Lemma success_writes_output_witness :
  trace (run Examples.working_cloud Examples.cli).2
  = [Upload (str "bucket") (str "downloads/abc123.mp3")
       (str "audio_transcription/20251118_093000_abc123.mp3");
     Recognize
       (str "gs://bucket/audio_transcription/20251118_093000_abc123.mp3");
     WriteFile (str "out.txt") (str "hello world");
     Delete (str "bucket")
       (str "audio_transcription/20251118_093000_abc123.mp3")].
Proof.
  rewrite (success_writes_output Examples.working_cloud Examples.cli
             (str "20251118_093000")
             [[str "hello"; str "hullo"]; [str "world"]]
             [str "hello"; str "world"] (Reply tt)
             eq_refl eq_refl eq_refl eq_refl (fun _ => eq_refl) eq_refl).
  reflexivity.
Defined.

Lemma interrupt_exits_0_witness :
  (run Examples.interrupted_cloud Examples.cli).1 = Raises (SystemExit 0).
Proof.
  apply (interrupt_exits_0 Examples.interrupted_cloud Examples.cli
           (Reply tt) eq_refl).
  right. exists (str "20251118_093000"). split; [reflexivity|].
  right. split; [reflexivity|]. left. reflexivity.
Defined.

Lemma staged_name_drops_directory_witness :
  head (trace (run Examples.working_cloud Examples.cli).2)
  = Some (Upload (str "bucket") (str "downloads/abc123.mp3")
            (str "audio_transcription/20251118_093000_abc123.mp3")).
Proof.
  apply (staged_name_drops_directory Examples.working_cloud Examples.cli
           (str "20251118_093000") (str "downloads") (str "abc123.mp3")).
  - reflexivity.
  - reflexivity.
  - vm_compute. intros H. by repeat (apply elem_of_cons in H as [H|H];
      [discriminate|]); apply elem_of_nil in H.
Defined.

End StagingAdapter.

(* ===================================================================== *)
(** ** Properties of the slug generator                                   *)
(* ===================================================================== *)

Section SlugGenerator.
Import Python TranscriptTool.
Context (ucd : Unicode).

(** Facts about one character: the tests are unfolded to comparisons and
    [lia] decides. *)
Ltac char_facts :=
  unfold slug_char, not_underscore, ascii_kept, alnum_or_hyphen, kept,
    re_word, re_space, ascii_lower, ascii_isalnum, ascii_isspace,
    ascii_isupper, ascii_islower, ascii_isdigit, is_ascii, between in *;
  repeat match goal with
  | |- context [if ?b then _ else _] => destruct b eqn:?
  | H : context [if ?b then _ else _] |- _ => destruct b eqn:?
  end;
  repeat match goal with
  | H : _ = false |- _ => apply not_true_iff_false in H
  | |- _ = false => apply not_true_iff_false
  | |- false = _ => symmetry; apply not_true_iff_false
  | |- true = _ => symmetry
  end;
  try match goal with
  | |- ?a = true => idtac
  | |- ~ _ => idtac
  | |- @eq bool _ _ => apply eq_iff_eq_true
  end;
  repeat progress
    (rewrite ?andb_true_iff, ?orb_true_iff, ?negb_true_iff, ?N.leb_le,
       ?N.ltb_lt, ?N.eqb_eq, ?N.eqb_neq in * );
  try lia.

Lemma lstrip_split (ch : N) (s : pystr) :
  exists k, s = replicate k ch ++ lstrip ch s.
Proof.
  induction s as [|c r [k IH]]; [by exists 0%nat|].
  cbn. destruct (N.eqb_spec c ch) as [->|Hne].
  - exists (S k). cbn. by rewrite <- IH.
  - by exists 0%nat.
Qed.

Lemma lstrip_head (ch : N) (s : pystr) : head (lstrip ch s) <> Some ch.
Proof.
  induction s as [|c r IH]; [done|].
  cbn. destruct (N.eqb_spec c ch); [done|]. cbn. congruence.
Qed.

Lemma rstrip_split (ch : N) (s : pystr) :
  exists k, s = rstrip ch s ++ replicate k ch.
Proof.
  unfold rstrip. destruct (lstrip_split ch (rev s)) as [k Hk]. exists k.
  rewrite <- (rev_involutive s) at 1. rewrite Hk at 1.
  rewrite rev_app_distr. f_equal.
  clear Hk. induction k as [|k IH]; [done|].
  cbn [replicate rev]. rewrite IH. clear IH.
  induction k as [|k IH]; [done|]. cbn. by rewrite IH.
Qed.

Lemma last_rev_head (s : pystr) : last (rev s) = head s.
Proof. destruct s as [|c r]; [done|]. cbn. apply last_snoc. Qed.

Lemma rstrip_last (ch : N) (s : pystr) : last (rstrip ch s) <> Some ch.
Proof.
  unfold rstrip. rewrite last_rev_head. apply lstrip_head.
Qed.

Lemma rstrip_head (ch : N) (s : pystr) :
  head s <> Some ch -> head (rstrip ch s) <> Some ch.
Proof.
  intros Hs. destruct (rstrip_split ch s) as [k Hk].
  destruct (rstrip ch s) as [|c r] eqn:E; [done|].
  rewrite Hk in Hs. exact Hs.
Qed.

(** [strip] removes underscores only, and only at the two ends. *)
Lemma strip_split (ch : N) (s : pystr) :
  exists j k, s = replicate j ch ++ strip ch s ++ replicate k ch.
Proof.
  unfold strip. destruct (lstrip_split ch s) as [j Hj].
  destruct (rstrip_split ch (lstrip ch s)) as [k Hk].
  exists j, k. by rewrite <- Hk.
Qed.

Lemma filter_replicate_underscore (k : nat) :
  List.filter not_underscore (replicate k 95) = [].
Proof. induction k; [done|]. exact IHk. Qed.

Lemma strip_filter (s : pystr) :
  List.filter not_underscore (strip 95 s) = List.filter not_underscore s.
Proof.
  destruct (strip_split 95 s) as (j & k & H). rewrite H at 2.
  rewrite !List.filter_app, !filter_replicate_underscore.
  by rewrite app_nil_r.
Qed.

Lemma strip_forallb (P : N -> bool) (s : pystr) :
  forallb P s = true -> forallb P (strip 95 s) = true.
Proof.
  destruct (strip_split 95 s) as (j & k & H). rewrite H at 1.
  rewrite !forallb_app. intros [_ [? _]%andb_prop]%andb_prop. done.
Qed.

Lemma filter_kept_ascii (T : pystr) :
  forallb is_ascii T = true ->
  forallb ascii_kept (List.filter (kept ucd) T) = true.
Proof.
  induction T as [|c r IH]; [done|]. cbn.
  intros [Hc Hr]%andb_prop. specialize (IH Hr).
  destruct (kept ucd c) eqn:Hk; [|done]. cbn. rewrite IH, andb_true_r.
  clear -Hc Hk. char_facts.
Qed.

Lemma filter_kept_alnum (T : pystr) :
  List.filter alnum_or_hyphen (List.filter (kept ucd) T)
  = List.filter alnum_or_hyphen T.
Proof.
  induction T as [|c r IH]; [done|]. cbn.
  destruct (kept ucd c) eqn:Hk; cbn; rewrite IH; [done|].
  replace (alnum_or_hyphen c) with false; [done|].
  clear -Hk. char_facts.
Qed.

(** After the second substitution: alphanumerics, hyphens, underscores. *)
Lemma underscore_runs_chars (b : bool) (F : pystr) :
  forallb ascii_kept F = true ->
  forallb (fun c => alnum_or_hyphen c || (c =? 95))
    (underscore_runs ucd b F) = true.
Proof.
  revert b. induction F as [|c r IH]; [done|]. intros b. cbn.
  intros [Hc Hr]%andb_prop.
  destruct (re_space ucd c || (c =? 58)) eqn:Hs.
  - destruct b; cbn; by rewrite IH.
  - cbn. rewrite (IH false Hr), andb_true_r.
    clear -Hc Hs. char_facts.
Qed.

Lemma underscore_runs_filter (b : bool) (F : pystr) :
  forallb ascii_kept F = true ->
  List.filter not_underscore (underscore_runs ucd b F)
  = List.filter alnum_or_hyphen F.
Proof.
  revert b. induction F as [|c r IH]; [done|]. intros b. cbn.
  intros [Hc Hr]%andb_prop.
  destruct (re_space ucd c || (c =? 58)) eqn:Hs.
  - replace (alnum_or_hyphen c) with false
      by (clear -Hc Hs; char_facts).
    destruct b; cbn; by rewrite IH.
  - cbn. rewrite (IH false Hr).
    replace (not_underscore c) with (alnum_or_hyphen c); [done|].
    clear -Hc Hs. char_facts.
Qed.


Lemma lower_ascii (s : pystr) :
  forallb (fun c => alnum_or_hyphen c || (c =? 95)) s = true ->
  lower ucd s = map ascii_lower s.
Proof.
  intros H. unfold lower.
  replace (forallb is_ascii s) with true; [done|]. symmetry.
  induction s as [|c r IH]; [done|]. cbn in *.
  apply andb_prop in H as [Hc Hr]. rewrite (IH Hr), andb_true_r.
  clear -Hc. char_facts.
Qed.

Lemma map_lower_chars (s : pystr) :
  forallb (fun c => alnum_or_hyphen c || (c =? 95)) s = true ->
  forallb slug_char (map ascii_lower s) = true.
Proof.
  induction s as [|c r IH]; [done|]. cbn.
  intros [Hc Hr]%andb_prop. rewrite (IH Hr), andb_true_r.
  clear -Hc. char_facts.
Qed.

Lemma map_lower_filter (s : pystr) :
  List.filter not_underscore (map ascii_lower s)
  = map ascii_lower (List.filter not_underscore s).
Proof.
  induction s as [|c r IH]; [done|]. cbn. rewrite IH.
  replace (not_underscore (ascii_lower c)) with (not_underscore c);
    [by destruct (not_underscore c)|].
  char_facts.
Qed.






(** Colons never reach the second substitution: the first one removes
    them, so a colon between two words leaves no underscore. *)
Example slugify_colon :
  slugify ucd (str "a:b") = str "ab" /\ slugify ucd (str "a: b") = str "a_b".
Proof. split; reflexivity. Qed.

(** *** Slugs of slugs, empty slugs, file names *)

Lemma slugify_ascii_chars (T : pystr) :
  forallb is_ascii T = true -> forallb slug_char (slugify ucd T) = true.
Proof.
  intros H. unfold slugify.
  pose proof (underscore_runs_chars false _ (filter_kept_ascii T H)) as Hu.
  rewrite (lower_ascii _ Hu). by apply strip_forallb, map_lower_chars.
Qed.

Lemma slugify_ends (T : pystr) :
  head (slugify ucd T) <> Some 95 /\ last (slugify ucd T) <> Some 95.
Proof.
  unfold slugify. split; [apply rstrip_head, lstrip_head|apply rstrip_last].
Qed.

Lemma slugify_letters (T : pystr) :
  forallb is_ascii T = true ->
  List.filter not_underscore (slugify ucd T)
  = map ascii_lower (List.filter alnum_or_hyphen T).
Proof.
  intros H. unfold slugify.
  pose proof (filter_kept_ascii T H) as Hk.
  pose proof (underscore_runs_chars false _ Hk) as Hu.
  rewrite (lower_ascii _ Hu), strip_filter, map_lower_filter.
  by rewrite underscore_runs_filter, filter_kept_alnum.
Qed.

Lemma lstrip_id (ch : N) (s : pystr) :
  head s <> Some ch -> lstrip ch s = s.
Proof.
  destruct s as [|c r]; [done|]. cbn.
  destruct (N.eqb_spec c ch) as [->|]; [by intros []|done].
Qed.

Lemma strip_id (ch : N) (s : pystr) :
  head s <> Some ch -> last s <> Some ch -> strip ch s = s.
Proof.
  intros Hh Hl. unfold strip, rstrip. rewrite (lstrip_id ch s Hh).
  rewrite lstrip_id; [apply rev_involutive|].
  by rewrite <- (last_rev_head (rev s)), rev_involutive.
Qed.

(** A string of [a-z0-9_-] that neither starts nor ends with an
    underscore is its own slug. *)
Lemma slugify_fixed (S : pystr) :
  forallb slug_char S = true ->
  head S <> Some 95 -> last S <> Some 95 ->
  slugify ucd S = S.
Proof.
  intros Hs Hh Hl. unfold slugify.
  assert (Hf : List.filter (kept ucd) S = S).
  { clear -Hs. induction S as [|c r IH]; [done|]. cbn in *.
    apply andb_prop in Hs as [Hc Hr]. rewrite (IH Hr).
    replace (kept ucd c) with true; [done|]. clear -Hc. char_facts. }
  assert (Hu : forall b, underscore_runs ucd b S = S).
  { clear -Hs. induction S as [|c r IH]; [done|]. intros b. cbn in *.
    apply andb_prop in Hs as [Hc Hr]. rewrite !(IH Hr).
    replace (re_space ucd c || (c =? 58)) with false; [done|].
    clear -Hc. char_facts. }
  assert (Hlow : lower ucd S = S).
  { unfold lower.
    replace (forallb is_ascii S) with true.
    - clear -Hs. induction S as [|c r IH]; [done|]. cbn in *.
      apply andb_prop in Hs as [Hc Hr]. rewrite (IH Hr). f_equal.
      clear -Hc. char_facts.
    - symmetry. clear -Hs. induction S as [|c r IH]; [done|]. cbn in *.
      apply andb_prop in Hs as [Hc Hr]. rewrite (IH Hr), andb_true_r.
      clear -Hc. char_facts. }
  rewrite Hf, Hu, Hlow. by apply strip_id.
Qed.

(** X7. On titles of ASCII characters [slugify] is idempotent: the slug of
    a slug is that slug. *)
Theorem slugify_idempotent (T : pystr) :
  forallb is_ascii T = true ->
  slugify ucd (slugify ucd T) = slugify ucd T.
Proof.
  intros H. destruct (slugify_ends T) as [Hh Hl].
  by apply slugify_fixed; [apply slugify_ascii_chars|..].
Qed.

(** X8. The slug of a title of ASCII characters is empty exactly when the
    title has no letter, no digit and no hyphen: punctuation, whitespace
    and underscores alone leave nothing, and the transcript is then named
    [-<id>-transcript.txt]. *)
Theorem slugify_empty_iff (T : pystr) (video_id : pystr) :
  forallb is_ascii T = true ->
  (slugify ucd T = [] <-> List.filter alnum_or_hyphen T = [])
  /\ (List.filter alnum_or_hyphen T = [] ->
      transcript_filename ucd T video_id
      = str "-" ++ video_id ++ str "-transcript.txt").
Proof.
  intros H.
  assert (Hiff : slugify ucd T = [] <-> List.filter alnum_or_hyphen T = []).
  { pose proof (slugify_letters T H) as Heq. split.
    - intros Hs. rewrite Hs in Heq. cbn in Heq.
      by destruct (List.filter alnum_or_hyphen T).
    - intros Hn. rewrite Hn in Heq. cbn in Heq.
      destruct (slugify_ends T) as [Hh _].
      destruct (slugify ucd T) as [|c r]; [done|]. exfalso.
      cbn in Heq. destruct (not_underscore c) eqn:Hc; [done|].
      apply Hh. cbn. f_equal. clear -Hc. char_facts. }
  split; [done|]. intros Hn. unfold transcript_filename.
  by rewrite (proj2 Hiff Hn).
Qed.

(** X9. Two videos whose identifiers have the same length get the same
    transcript file name only when they have the same identifier and
    their titles the same slug. *)
Theorem transcript_filename_injective (title1 title2 id1 id2 : pystr) :
  length id1 = length id2 ->
  transcript_filename ucd title1 id1 = transcript_filename ucd title2 id2 ->
  id1 = id2 /\ slugify ucd title1 = slugify ucd title2.
Proof.
  intros Hlen Heq. unfold transcript_filename in Heq.
  apply app_inj_2 in Heq as [Hslug Hrest].
  - split; [|done]. cbn in Hrest. injection Hrest as Hrest.
    by apply app_inj_1 in Hrest as [-> _].
  - rewrite !length_app. cbn. lia.
Qed.
End SlugGenerator.



Lemma slugify_idempotent_witness :
  TranscriptTool.slugify Python.latin1
    (TranscriptTool.slugify Python.latin1
       (Python.str "  Re: Hello,   World - part_2 "))
  = TranscriptTool.slugify Python.latin1
      (Python.str "  Re: Hello,   World - part_2 ").
Proof.
  apply (slugify_idempotent Python.latin1
           (Python.str "  Re: Hello,   World - part_2 ")).
  reflexivity.
Defined.

Lemma slugify_empty_iff_witness :
  TranscriptTool.transcript_filename Python.latin1 (Python.str "?! ... _")
    (Python.str "abc123")
  = Python.str "-abc123-transcript.txt".
Proof.
  destruct (slugify_empty_iff Python.latin1 (Python.str "?! ... _")
              (Python.str "abc123")) as [_ Hname]; [reflexivity|].
  apply Hname. reflexivity.
Defined.

Lemma transcript_filename_injective_witness :
  Python.str "abc123" = Python.str "abc123"
  /\ TranscriptTool.slugify Python.latin1 (Python.str "Episode One")
     = TranscriptTool.slugify Python.latin1 (Python.str "episode: one").
Proof.
  apply (transcript_filename_injective Python.latin1
           (Python.str "Episode One") (Python.str "episode: one")
           (Python.str "abc123") (Python.str "abc123"));
    reflexivity.
Defined.

(* ===================================================================== *)
(** ** Properties of the identifier resolver                              *)
(* ===================================================================== *)

Section IdentifierResolver.
Import Python TranscriptTool.
Context (env : Env).

(** More fuel does not change a result. *)
Lemma fetch_pages_fuel (fuel fuel' : nat) youtube playlist_id n video_ids
    token result :
  fetch_pages fuel youtube playlist_id n video_ids token = Some result ->
  (fuel <= fuel')%nat ->
  fetch_pages fuel' youtube playlist_id n video_ids token = Some result.
Proof.
  revert fuel' n video_ids token.
  induction fuel as [|fuel IH]; intros fuel' n video_ids token; [done|].
  destruct fuel' as [|fuel']; [lia|]. cbn.
  destruct (playlistItems_list youtube n playlist_id token) as [page|];
    [|done].
  destruct (page_video_ids page) as [ids|]; [|done].
  destruct (truthy (nextPageToken page)); cbn; [|done].
  intros H ?. apply IH; [done|lia].
Qed.

(** The two comprehensions of the resolver, in the words of the
    specification. *)
Lemma page_video_ids_lists (page : Page) (ids : list pystr) :
  page_video_ids page = Reply ids <-> page_lists page ids.
Proof.
  unfold page_video_ids, page_lists.
  destruct (items page) as [l|]; [|split; discriminate].
  revert ids. induction l as [|item l IH]; intros ids.
  - cbn. split.
    + by intros [= <-].
    + destruct ids; [done|discriminate].
  - destruct item as [video_id|]; cbn.
    + destruct (mapM id l) as [rest|] eqn:Hrest; cbn.
      * split.
        -- intros [= <-]. cbn. do 2 f_equal.
           specialize (IH rest). destruct IH as [IH _].
           specialize (IH eq_refl). by injection IH.
        -- destruct ids as [|i ids]; [discriminate|]. cbn.
           intros [= -> ->]. specialize (IH ids). destruct IH as [_ IH].
           specialize (IH eq_refl). by injection IH as ->.
      * split; [discriminate|].
        destruct ids as [|i ids]; [discriminate|]. cbn.
        intros [= -> ->]. specialize (IH ids). destruct IH as [_ IH].
        by specialize (IH eq_refl).
    + split; [discriminate|]. destruct ids; discriminate.
Qed.

Lemma uploads_playlist_reply (channel : option (list (option pystr)))
    (playlist_id : pystr) :
  uploads_playlist channel = Reply playlist_id
  <-> exists others, channel = Some (Some playlist_id :: others).
Proof.
  split.
  - destruct channel as [[|[first|] others]|]; cbn; try discriminate.
    intros [= ->]. by exists others.
  - by intros [others ->].
Qed.

Lemma resolve_channel_uploads (youtube : YouTubeData)
    (channel_id playlist_id : pystr) :
  resolve_channel youtube channel_id = Some playlist_id
  <-> channel_uploads youtube channel_id playlist_id.
Proof.
  unfold resolve_channel, channel_uploads. split.
  - destruct (channels_list youtube channel_id) as [channel|e];
      [|discriminate].
    destruct (uploads_playlist channel) as [p|e] eqn:Hu; [|discriminate].
    intros [= ->]. apply uploads_playlist_reply in Hu as [others ->].
    by exists others.
  - by intros [others ->].
Qed.

Lemma truthy_token (token : option pystr) :
  truthy token = true <-> exists next, token = Some next /\ next <> [].
Proof.
  split.
  - destruct token as [[|c next]|]; cbn; try discriminate.
    intros _. by eexists.
  - by intros ([|c next] & -> & Hne).
Qed.

Lemma fetch_pages_sound (fuel : nat) youtube playlist_id n video_ids token
    result :
  fetch_pages fuel youtube playlist_id n video_ids token = Some result ->
  paging youtube playlist_id n video_ids token result.
Proof.
  revert n video_ids token.
  induction fuel as [|fuel IH]; intros n video_ids token; [done|]. cbn.
  destruct (playlistItems_list youtube n playlist_id token) as [page|e]
    eqn:Hpage.
  - destruct (page_video_ids page) as [ids|e] eqn:Hids.
    + apply page_video_ids_lists in Hids.
      destruct (truthy (nextPageToken page)) eqn:Htok; cbn.
      * apply truthy_token in Htok as (next & Hnext & Hne).
        rewrite Hnext. intros H. eapply paging_next; eauto.
      * intros [= <-]. eapply paging_last; eauto.
        unfold last_page.
        destruct (nextPageToken page) as [[|c next]|]; auto; discriminate.
    + intros [= <-]. eapply paging_page_error; eauto.
      intros ids Hids'. apply page_video_ids_lists in Hids'. congruence.
  - intros [= <-]. eapply paging_fetch_error; eauto.
Qed.

Lemma fetch_pages_complete youtube playlist_id n video_ids token result :
  paging youtube playlist_id n video_ids token result ->
  exists fuel,
    fetch_pages fuel youtube playlist_id n video_ids token = Some result.
Proof.
  induction 1 as [n video_ids token e Hp
                 |n video_ids token page Hp Hi
                 |n video_ids token page ids Hp Hi Ht
                 |n video_ids token page ids next result Hp Hi Ht Hne _
                    [fuel IH]].
  - exists 1%nat. cbn. by rewrite Hp.
  - exists 1%nat. cbn. rewrite Hp.
    destruct (page_video_ids page) as [ids|e] eqn:Hids; [|done].
    apply page_video_ids_lists in Hids. by destruct (Hi ids).
  - exists 1%nat. cbn. apply page_video_ids_lists in Hi. rewrite Hp, Hi.
    by destruct Ht as [->| ->].
  - exists (S fuel). cbn. apply page_video_ids_lists in Hi.
    rewrite Hp, Hi, Ht. destruct next; [done|]. exact IH.
Qed.

(** C5. [get_channel_videos] returns [video_ids] (for some number of
    loop iterations) exactly when the specification's description of the
    resolver yields [video_ids]: the empty sequence when the channel
    cannot be resolved; otherwise the identifiers of the pages in order
    up to the first page without continuation token, or, when a request
    fails first, those of the pages that came before it. *)
Theorem get_channel_videos_resolves (api_key channel_id : pystr)
    (video_ids : list pystr) :
  (exists fuel,
     get_channel_videos env fuel api_key channel_id = Some video_ids)
  <-> resolves (build env api_key) channel_id video_ids.
Proof.
  unfold get_channel_videos. split.
  - intros [fuel H].
    destruct (channels_list (build env api_key) channel_id) as [channel|e]
      eqn:Hc.
    + destruct (uploads_playlist channel) as [playlist_id|e] eqn:Hu.
      * eapply resolves_listed; [|by eapply fetch_pages_sound].
        apply resolve_channel_uploads. unfold resolve_channel.
        by rewrite Hc, Hu.
      * injection H as <-. apply resolves_unknown.
        intros p Hp. apply resolve_channel_uploads in Hp.
        unfold resolve_channel in Hp. by rewrite Hc, Hu in Hp.
    + injection H as <-. apply resolves_unknown.
      intros p Hp. apply resolve_channel_uploads in Hp.
      unfold resolve_channel in Hp. by rewrite Hc in Hp.
  - intros [Hr|playlist_id ids Hr Hp].
    + exists 0%nat.
      destruct (channels_list (build env api_key) channel_id) as [channel|e]
        eqn:Hc; [|done].
      destruct (uploads_playlist channel) as [p|e] eqn:Hu; [|done].
      destruct (Hr p). apply resolve_channel_uploads.
      unfold resolve_channel. by rewrite Hc, Hu.
    + destruct (fetch_pages_complete _ _ _ _ _ _ Hp) as [fuel Hf].
      exists fuel. destruct Hr as [others ->]. exact Hf.
Qed.

(** A channel that cannot be resolved costs no loop iteration. *)
Lemma unknown_channel_is_empty (fuel : nat) (api_key channel_id : pystr) :
  resolve_channel (build env api_key) channel_id = None ->
  get_channel_videos env fuel api_key channel_id = Some [].
Proof.
  unfold resolve_channel, get_channel_videos.
  destruct (channels_list (build env api_key) channel_id) as [channel|e];
    [|done].
  by destruct (uploads_playlist channel).
Qed.

(** The resolver is deterministic: two results agree. *)
Lemma get_channel_videos_functional (fuel fuel' : nat)
    (api_key channel_id : pystr) (ids ids' : list pystr) :
  get_channel_videos env fuel api_key channel_id = Some ids ->
  get_channel_videos env fuel' api_key channel_id = Some ids' ->
  ids = ids'.
Proof.
  unfold get_channel_videos.
  destruct (channels_list (build env api_key) channel_id) as [channel|e];
    [|congruence].
  destruct (uploads_playlist channel) as [playlist_id|]; [|congruence].
  intros H H'.
  apply fetch_pages_fuel with (fuel' := (fuel + fuel')%nat) in H; [|lia].
  apply fetch_pages_fuel with (fuel' := (fuel + fuel')%nat) in H'; [|lia].
  congruence.
Qed.
(** *** Listings that do not end, pages that are malformed *)

Lemma fetch_pages_endless (youtube : YouTubeData) (playlist_id : pystr) :
  (forall n token, exists page ids,
      playlistItems_list youtube n playlist_id token = Reply page
      /\ page_video_ids page = Reply ids
      /\ truthy (nextPageToken page) = true) ->
  forall fuel n video_ids token,
    fetch_pages fuel youtube playlist_id n video_ids token = None.
Proof.
  intros Hpages. induction fuel as [|fuel IH]; intros n video_ids token;
    [done|].
  cbn. destruct (Hpages n token) as (page & ids & -> & -> & ->). cbn.
  apply IH.
Qed.

(** X10. The loop of [get_channel_videos] has no bound of its own: when
    every request is answered by a well-formed page that carries a
    continuation token, it never returns, however many iterations it is
    given. *)
Theorem endless_listing_never_returns
    (api_key channel_id playlist_id : pystr) :
  resolve_channel (build env api_key) channel_id = Some playlist_id ->
  (forall n token, exists page ids,
      playlistItems_list (build env api_key) n playlist_id token
        = Reply page
      /\ page_video_ids page = Reply ids
      /\ truthy (nextPageToken page) = true) ->
  forall fuel, get_channel_videos env fuel api_key channel_id = None.
Proof.
  intros Hr Hpages fuel. unfold get_channel_videos.
  unfold resolve_channel in Hr.
  destruct (channels_list (build env api_key) channel_id) as [channel|e];
    [|done].
  destruct (uploads_playlist channel) as [p|e]; [|done].
  injection Hr as ->. by apply fetch_pages_endless.
Qed.

(** X11. A page is taken whole or not at all: when one of its items lacks
    a video identifier, the identifiers of its other items are lost with
    it, and the listing ends with what the pages before it gave. *)
Theorem malformed_item_drops_page (fuel n : nat) (youtube : YouTubeData)
    (playlist_id : pystr) (video_ids : list pystr) (token : option pystr)
    (page : Page) (page_items : list (option pystr)) :
  playlistItems_list youtube n playlist_id token = Reply page ->
  items page = Some page_items ->
  None ∈ page_items ->
  fetch_pages (S fuel) youtube playlist_id n video_ids token
  = Some video_ids.
Proof.
  intros Hpage Hitems Hnone. cbn. rewrite Hpage.
  unfold page_video_ids. rewrite Hitems.
  replace (mapM id page_items) with (@None (list pystr)); [done|].
  symmetry. clear -Hnone.
  induction page_items as [|item rest IH]; [by apply elem_of_nil in Hnone|].
  apply elem_of_cons in Hnone as [<-|Hrest]; [done|].
  cbn. destruct item as [video_id|]; [|done]. cbn.
  by rewrite (IH Hrest).
Qed.
End IdentifierResolver.

(** Four channels: one listed on a single page, one whose second request
    fails, one whose second page is malformed, and one that cannot be
    resolved. In each case the description of the resolver admits one
    result, and it is the one [get_channel_videos] returns. *)
Lemma get_channel_videos_resolves_witness :
  (forall ids,
     TranscriptTool.resolves Examples.two_uploads (Python.str "UCchannel")
       ids
     <-> ids = [Python.str "abc123"; Python.str "def456"])
  /\ (forall ids,
        TranscriptTool.resolves Examples.interrupted_uploads
          (Python.str "UCchannel") ids
        <-> ids = [Python.str "abc123"])
  /\ (forall ids,
        TranscriptTool.resolves Examples.malformed_uploads
          (Python.str "UCchannel") ids
        <-> ids = [Python.str "abc123"])
  /\ (forall ids,
        TranscriptTool.resolves Examples.no_listing (Python.str "UCchannel")
          ids
        <-> ids = []).
Proof.
  split; [|split; [|split]].
  - intros ids. split.
    + intros Hres.
      apply (get_channel_videos_resolves Examples.garbled_stderr_env
               (Python.str "key") (Python.str "UCchannel") ids)
        in Hres as [fuel Hfuel].
      exact (get_channel_videos_functional Examples.garbled_stderr_env fuel 3
               (Python.str "key") (Python.str "UCchannel") ids
               [Python.str "abc123"; Python.str "def456"] Hfuel eq_refl).
    + intros ->.
      apply (get_channel_videos_resolves Examples.garbled_stderr_env
               (Python.str "key") (Python.str "UCchannel")
               [Python.str "abc123"; Python.str "def456"]).
      by exists 3%nat.
  - intros ids. split.
    + intros Hres.
      apply (get_channel_videos_resolves Examples.interrupted_env
               (Python.str "key") (Python.str "UCchannel") ids)
        in Hres as [fuel Hfuel].
      exact (get_channel_videos_functional Examples.interrupted_env fuel 3
               (Python.str "key") (Python.str "UCchannel") ids
               [Python.str "abc123"] Hfuel eq_refl).
    + intros ->.
      apply (get_channel_videos_resolves Examples.interrupted_env
               (Python.str "key") (Python.str "UCchannel")
               [Python.str "abc123"]).
      by exists 3%nat.
  - intros ids. split.
    + intros Hres.
      apply (get_channel_videos_resolves Examples.malformed_env
               (Python.str "key") (Python.str "UCchannel") ids)
        in Hres as [fuel Hfuel].
      exact (get_channel_videos_functional Examples.malformed_env fuel 3
               (Python.str "key") (Python.str "UCchannel") ids
               [Python.str "abc123"] Hfuel eq_refl).
    + intros ->.
      apply (get_channel_videos_resolves Examples.malformed_env
               (Python.str "key") (Python.str "UCchannel")
               [Python.str "abc123"]).
      by exists 3%nat.
  - intros ids. split.
    + intros Hres.
      apply (get_channel_videos_resolves Examples.captions_env
               (Python.str "key") (Python.str "UCchannel") ids)
        in Hres as [fuel Hfuel].
      exact (get_channel_videos_functional Examples.captions_env fuel 3
               (Python.str "key") (Python.str "UCchannel") ids
               [] Hfuel eq_refl).
    + intros ->.
      apply (get_channel_videos_resolves Examples.captions_env
               (Python.str "key") (Python.str "UCchannel")
               []).
      by exists 3%nat.
Defined.

Lemma endless_listing_never_returns_witness :
  TranscriptTool.get_channel_videos Examples.endless_env 1000
    (Python.str "key") (Python.str "UCchannel")
  = None.
Proof.
  apply (endless_listing_never_returns Examples.endless_env
           (Python.str "key") (Python.str "UCchannel")
           (Python.str "UUuploads")).
  - reflexivity.
  - intros n token. eexists _, _. repeat split; reflexivity.
Defined.

Lemma malformed_item_drops_page_witness :
  TranscriptTool.fetch_pages 1 Examples.malformed_uploads
    (Python.str "UUuploads") 1 [Python.str "abc123"]
    (Some (Python.str "CAUQAA"))
  = Some [Python.str "abc123"].
Proof.
  apply (malformed_item_drops_page 0 1 Examples.malformed_uploads
           (Python.str "UUuploads") [Python.str "abc123"]
           (Some (Python.str "CAUQAA"))
           {| TranscriptTool.items := Some [Some (Python.str "def456"); None];
              TranscriptTool.nextPageToken := None |}
           [Some (Python.str "def456"); None]).
  - reflexivity.
  - reflexivity.
  - apply elem_of_cons. right. apply elem_of_cons. by left.
Defined.

(* ===================================================================== *)
(** ** Properties of the strategy executor                                *)
(* ===================================================================== *)

Section StrategyExecutor.
Import Python TranscriptTool.
Context (ucd : Unicode) (env : Env).

#[local] Arguments str : simpl never.
#[local] Arguments transcript_filename : simpl never.
#[local] Arguments decode_utf8 : simpl never.
#[local] Arguments repeat_char : simpl never.
#[local] Arguments nl : simpl never.

Ltac monad_unfold :=
  unfold say, path_exists, fetch_title, fetch_transcript, now in *;
  unfold try_except, try_finally, modify, raise, get_state, lift,
    mbind, mret, M_bind, M_ret in *.

(** *** The combined handle *)

Lemma flush_to_nil (target : option pystr) (d : gmap pystr node) :
  flush_to target [] d = d.
Proof.
  destruct target as [name|]; [|done]. cbn.
  destruct (d !! name) as [[[text|]|]|] eqn:Hd; try done.
  rewrite app_nil_r. by apply insert_id.
Qed.

Lemma flush_to_app (target : option pystr) (data1 data2 : pystr)
    (d : gmap pystr node) :
  flush_to target data2 (flush_to target data1 d)
  = flush_to target (data1 ++ data2) d.
Proof.
  destruct target as [name|]; [|done]. cbn.
  destruct (d !! name) as [[[text|]|]|] eqn:Hd; rewrite ?Hd; try done.
  by rewrite lookup_insert_eq, insert_insert_eq, app_assoc.
Qed.

Lemma flush_to_lookup_ne (target : option pystr) (data name : pystr)
    (d : gmap pystr node) :
  target <> Some name -> flush_to target data d !! name = d !! name.
Proof.
  intros Hne. destruct target as [out|]; [|done]. cbn.
  destruct (d !! out) as [[[text|]|]|]; try done.
  apply lookup_insert_ne. congruence.
Qed.

Lemma flush_to_lookup (out data old : pystr) (d : gmap pystr node) :
  d !! out = Some (File (Some old)) ->
  flush_to (Some out) data d !! out = Some (File (Some (old ++ data))).
Proof. intros Hd. cbn. by rewrite Hd, lookup_insert_eq. Qed.

(** What leaves the buffers creates no file and removes none, and what
    is not a text file stays as it is. *)
Lemma flush_to_None (target : option pystr) (data name : pystr)
    (d : gmap pystr node) :
  flush_to target data d !! name = None <-> d !! name = None.
Proof.
  destruct target as [out|]; [|done]. cbn.
  destruct (d !! out) as [[[text|]|]|] eqn:Hd; try done.
  destruct (decide (out = name)) as [->|Hne].
  - rewrite lookup_insert_eq, Hd. split; discriminate.
  - by rewrite lookup_insert_ne.
Qed.

Lemma appended_refl (w : World) : appended w w [].
Proof.
  unfold appended. rewrite !app_nil_r. repeat split. exists [].
  by rewrite flush_to_nil.
Qed.

Lemma appended_trans (w w1 w2 : World) (text1 text2 : pystr) :
  appended w w1 text1 -> appended w1 w2 text2 ->
  appended w w2 (text1 ++ text2).
Proof.
  intros (Hp1 & Hc1 & Hs1 & Ht1 & f1 & Hf1 & Hb1)
         (Hp2 & Hc2 & Hs2 & Ht2 & f2 & Hf2 & Hb2).
  unfold appended. rewrite Hp2, Hp1, Hc2, Hc1, Hs2, Hs1, Ht2, Ht1.
  rewrite app_assoc. repeat split. exists (f1 ++ f2). split.
  - by rewrite Hf2, Ht1, Hf1, flush_to_app.
  - by rewrite (app_assoc (buffered w)), Hb1, <- !app_assoc, Hb2.
Qed.

Lemma after_write_appended (text : pystr) (w : World) :
  appended w (after_write env text w) text.
Proof.
  unfold appended, after_write. cbn. repeat split.
  eexists. split; [reflexivity|]. by rewrite take_drop.
Qed.

(** The writes to the combined handle never fail; they append the framed
    entry when there is a handle and the text is not empty, and nothing
    otherwise. *)
Lemma write_entry_run (h : option handle) (filename title text : pystr)
    (w : World) :
  (write_entry env h filename title text w).1 = Returns tt
  /\ appended w (write_entry env h filename title text w).2
       (if bool_decide (is_Some h) && nonempty text
        then framed_entry filename title
               (strftime_now env (length (calls w))) text
        else []).
Proof.
  unfold write_entry, framed_entry.
  destruct (bool_decide (is_Some h) && nonempty text);
    [|split; [done|apply appended_refl]].
  split; [done|].
  match goal with |- appended _ ?w' _ => change w' with
    (after_write env (repeat_char 45 40 ++ nl ++ text ++ nl ++ nl)
       (after_write env
          (str "## Retrieved: " ++ strftime_now env (length (calls w)) ++ nl)
          (after_write env (str "## Video Title: " ++ title ++ nl)
             (after_write env (str "## Transcript File: " ++ filename ++ nl)
                w)))) end.
  do 3 (eapply appended_trans; [apply after_write_appended|]).
  apply after_write_appended.
Qed.

(** What the writes of an entry leave as they found it. *)
Lemma write_entry_keeps (h : option handle) (filename title text : pystr)
    (w : World) :
  let w' := (write_entry env h filename title text w).2 in
  calls w' = calls w /\ stdout w' = stdout w /\ target w' = target w
  /\ (forall name, fs w' !! name = None <-> fs w !! name = None)
  /\ (forall name, target w <> Some name -> fs w' !! name = fs w !! name).
Proof.
  destruct (write_entry_run h filename title text w)
    as (_ & _ & Hc & Hs & Ht & flushed & Hf & _).
  cbn zeta. rewrite Hf. split; [done|]. split; [done|]. split; [done|].
  split; intros name.
  - apply flush_to_None.
  - apply flush_to_lookup_ne.
Qed.

Lemma on_failure_run (vid : pystr) (e : exc) (w : World) :
  exists h, on_failure vid (Exc e) = Some h
  /\ if undecodable e
     then h w = (Raises (Exc UnicodeDecodeError), w)
     else exists m, h w = (Returns (false, Error), add_message m w).
Proof.
  destruct e; cbn; eexists; (split; [reflexivity|]); monad_unfold; cbn;
    try by eexists.
  destruct (truthy stderr); cbn; [|by eexists].
  destruct (decode_utf8 (default [] stderr)) eqn:Hd; cbn;
    [by eexists | done].
Qed.

(** *** Sequencing *)

Lemma bind_run {A B} (m : M World A) (k : A -> M World B) (w : World) :
  (m ≫= k) w
  = match m w with
    | (Returns a, w') => k a w'
    | (Raises e, w') => (Raises e, w')
    end.
Proof. reflexivity. Qed.

Lemma bind_returns {A B} (m : M World A) (k : A -> M World B)
    (w w' : World) (b : B) :
  (m ≫= k) w = (Returns b, w') ->
  exists a w1, m w = (Returns a, w1) /\ k a w1 = (Returns b, w').
Proof.
  rewrite bind_run. destruct (m w) as [[a|e] w1]; [|done]. by exists a, w1.
Qed.

Ltac quiet_case :=
  split; [done|]; split; [done|]; split;
    [ first [ done
            | intros ? [= <-]; eexists; split; [reflexivity | by intros] ]
    | first [ by exists []; rewrite app_nil_r | by eexists ] ].

Lemma quiet_ret {A} (a : A) : quiet env (mret a : M World A).
Proof. intros w. quiet_case. Qed.

Lemma quiet_bind {A B} (m : M World A) (k : A -> M World B) :
  quiet env m -> (forall a, quiet env (k a)) -> quiet env (m ≫= k).
Proof.
  intros Hm Hk w. rewrite bind_run.
  destruct (Hm w) as ((Hp & Hb & Ht) & Hs & He & cs & Hc).
  destruct (m w) as [[a|e] w1]; cbn in *.
  - destruct (Hk a w1) as ((Hp' & Hb' & Ht') & Hs' & He' & cs' & Hc').
    split; [repeat split; congruence|]. split; [congruence|].
    split; [exact He'|].
    exists (cs ++ cs'). by rewrite Hc', Hc, app_assoc.
  - split; [done|]. split; [done|]. split; [|by exists cs].
    intros e' [= <-]. by apply He.
Qed.

Lemma quiet_if {A} (b : bool) (m1 m2 : M World A) :
  quiet env m1 -> quiet env m2 -> quiet env (if b then m1 else m2).
Proof. by destruct b. Qed.

Lemma quiet_path_exists (name : pystr) : quiet env (path_exists name).
Proof. intros w. quiet_case. Qed.

Lemma quiet_read_text (name : pystr) : quiet env (read_text name).
Proof.
  intros w. unfold read_text.
  destruct (fs w !! name) as [[[text|]|]|]; cbn; quiet_case.
Qed.

Lemma quiet_write_text (name text : pystr) : quiet env (write_text name text).
Proof.
  intros w. unfold write_text.
  destruct (name_too_long name); [cbn; quiet_case|].
  destruct (fs w !! name) as [[|]|]; cbn; quiet_case.
Qed.

Lemma quiet_os_remove (name : pystr) : quiet env (os_remove name).
Proof.
  intros w. unfold os_remove.
  destruct (fs w !! name) as [[|]|]; cbn; quiet_case.
Qed.

Lemma quiet_os_rename (src dst : pystr) : quiet env (os_rename src dst).
Proof.
  intros w. unfold os_rename.
  destruct (fs w !! src) as [[|]|];
    [destruct (name_too_long dst); [|destruct (fs w !! dst) as [[|]|]]..|];
    cbn; quiet_case.
Qed.

Lemma quiet_run_checked (argv : list pystr) : quiet env (run_checked env argv).
Proof.
  intros w. unfold run_checked.
  destruct (subprocess_run env (length (calls w)) argv (fs w))
    as [code stderr files|e] eqn:Hrun;
    [destruct (code =? 0)%Z eqn:Hcode|]; cbn.
  - quiet_case.
  - split; [done|]. split; [done|]. split; [|by eexists].
    intros ? [= <-]. eexists. split; [done|]. intros (Hp & _).
    apply (Hp _ _ _ _ _ _ Hrun). by apply Z.eqb_neq.
  - split; [done|]. split; [done|]. split; [|by eexists].
    intros ? [= <-]. eexists. split; [done|]. intros (_ & Hp & _).
    by eapply Hp.
Qed.

Lemma quiet_fetch_transcript (vid : pystr) :
  quiet env (fetch_transcript env vid).
Proof.
  intros w. unfold fetch_transcript.
  destruct (get_transcript env (length (calls w)) vid) eqn:Hc; cbn.
  - quiet_case.
  - split; [done|]. split; [done|]. split; [|by eexists].
    intros ? [= <-]. eexists. split; [done|]. intros (_ & _ & _ & Hp).
    by eapply Hp.
Qed.

Lemma quiet_for_each {A} (xs : list A) (body : A -> M World unit) :
  (forall x, quiet env (body x)) -> quiet env (for_each xs body).
Proof.
  intros Hb. induction xs as [|x xs IH]; [apply quiet_ret|].
  cbn. apply quiet_bind; [apply Hb|done].
Qed.

Lemma quiet_transcribe (vid filename : pystr) (uw ua : bool) :
  quiet env (transcribe env vid filename uw ua).
Proof.
  unfold transcribe.
  repeat first
    [ apply quiet_if | apply quiet_bind | intros ? | apply quiet_ret
    | apply quiet_for_each | apply quiet_run_checked
    | apply quiet_read_text | apply quiet_os_rename | apply quiet_os_remove
    | apply quiet_path_exists | apply quiet_fetch_transcript
    | apply quiet_write_text ].
Qed.

(** *** The executor, step by step *)

Lemma download_run (vid : pystr) (uw ua : bool) (h : option handle)
    (w : World) :
  download_and_save_transcript ucd env vid uw ua h w
  = let w1 := add_call (FetchVideoPage vid) w in
    match video_title env (length (calls w)) vid with
    | Fails e =>
        match on_failure vid (Exc e) with
        | Some handler => handler w1
        | None => (Raises (Exc e), w1)
        end
    | Reply title =>
        let filename := transcript_filename ucd title vid in
        if bool_decide (is_Some (fs w !! filename))
        then (Returns (true, Skipped),
              add_message (AlreadyExists filename) w1)
        else
          match transcribe env vid filename uw ua w1 with
          | (Returns text, w2) =>
              (Returns (true, New),
               (write_entry env h filename title text w2).2)
          | (Raises e, w2) =>
              match on_failure vid e with
              | Some handler => handler w2
              | None => (Raises e, w2)
              end
          end
    end.
Proof.
  unfold download_and_save_transcript, try_except.
  rewrite bind_run. unfold fetch_title at 1.
  destruct (video_title env (length (calls w)) vid) as [title|e]; cbn -[on_failure];
    [|done].
  rewrite bind_run. unfold path_exists at 1. cbn -[on_failure].
  destruct (bool_decide (is_Some (fs w !! transcript_filename ucd title vid)));
    [done|].
  rewrite bind_run.
  destruct (transcribe env vid (transcript_filename ucd title vid) uw ua
              (add_call (FetchVideoPage vid) w)) as [[text|e] w2];
    [|done].
  rewrite bind_run.
  destruct (write_entry_run h (transcript_filename ucd title vid) title
              text w2) as [Hw _].
  by destruct (write_entry env h (transcript_filename ucd title vid) title
                 text w2) as [[[]|e] w3]; cbn in *.
Qed.

(** A failure at any point is classified, or escapes as the
    [UnicodeDecodeError] of the first [except] clause; in both cases
    nothing has been written to the combined handle. *)
Lemma failure_run (vid : pystr) (x : exc) (w0 w : World) :
  pending w = pending w0 ->
  (printable_failures env -> undecodable x = false) ->
  exists handler, on_failure vid (Exc x) = Some handler
  /\ ((exists m, handler w = (Returns (false, Error), add_message m w))
      \/ (handler w = (Raises (Exc UnicodeDecodeError), w)
          /\ ~ printable_failures env)).
Proof.
  intros Hp Hx. destruct (on_failure_run vid x w) as (handler & Hh & Hrun).
  exists handler. split; [done|].
  destruct (undecodable x); [right|by left].
  split; [done|]. intros Hpf. by specialize (Hx Hpf).
Qed.

(** The four ways [download_and_save_transcript] ends. *)
Lemma download_cases (vid : pystr) (uw ua : bool) (h : option handle)
    (w : World) :
  let w1 := add_call (FetchVideoPage vid) w in
  let r := download_and_save_transcript ucd env vid uw ua h w in
  (exists title,
      video_title env (length (calls w)) vid = Reply title
      /\ is_Some (fs w !! transcript_filename ucd title vid)
      /\ r = (Returns (true, Skipped),
              add_message
                (AlreadyExists (transcript_filename ucd title vid)) w1))
  \/ (exists title text w2,
        video_title env (length (calls w)) vid = Reply title
        /\ fs w !! transcript_filename ucd title vid = None
        /\ transcribe env vid (transcript_filename ucd title vid) uw ua w1
           = (Returns text, w2)
        /\ r = (Returns (true, New),
                (write_entry env h (transcript_filename ucd title vid)
                   title text w2).2))
  \/ (exists m w2,
        r = (Returns (false, Error), add_message m w2)
        /\ pending w2 = pending w)
  \/ (exists w2,
        r = (Raises (Exc UnicodeDecodeError), w2)
        /\ pending w2 = pending w
        /\ ~ printable_failures env).
Proof.
  intros w1 r. subst r. rewrite download_run. fold w1.
  destruct (video_title env (length (calls w)) vid) as [title|x] eqn:Ht.
  - cbn zeta.
    destruct (bool_decide (is_Some (fs w !! transcript_filename ucd title vid)))
      eqn:Hex.
    + left. exists title. apply bool_decide_eq_true in Hex. done.
    + apply bool_decide_eq_false in Hex.
      assert (Hnone : fs w !! transcript_filename ucd title vid = None)
        by (by apply eq_None_not_Some).
      destruct (quiet_transcribe vid (transcript_filename ucd title vid)
                  uw ua w1) as ((Hp & _) & _ & He & _).
      destruct (transcribe env vid (transcript_filename ucd title vid) uw ua
                  w1) as [[text|e] w2] eqn:Htr; cbn in *.
      * right; left. exists title, text, w2. by rewrite ?Htr.
      * destruct (He e eq_refl) as (x & -> & Hx).
        destruct (failure_run vid x w w2 Hp Hx)
          as (handler & -> & [[m Hm]|[Hm Hn]]).
        -- right; right; left. by exists m, w2.
        -- right; right; right. by exists w2.
  - assert (Hx : printable_failures env -> undecodable x = false)
      by (intros (_ & _ & Hp & _); by eapply Hp).
    destruct (failure_run vid x w w1 eq_refl Hx)
      as (handler & -> & [[m Hm]|[Hm Hn]]).
    + right; right; left. by exists m, w1.
    + right; right; right. by exists w1.
Qed.

(** The run of the executor on a video whose transcript is on disk. *)
Lemma skip_run (vid : pystr) (uw ua : bool) (h : option handle)
    (w : World) (title : pystr) :
  video_title env (length (calls w)) vid = Reply title ->
  is_Some (fs w !! transcript_filename ucd title vid) ->
  download_and_save_transcript ucd env vid uw ua h w
  = (Returns (true, Skipped),
     add_message (AlreadyExists (transcript_filename ucd title vid))
       (add_call (FetchVideoPage vid) w)).
Proof.
  intros Ht Hex. rewrite download_run, Ht. cbn zeta.
  by rewrite bool_decide_eq_true_2.
Qed.

(** C3, as the code has it. When the title of the video can be fetched
    and the file named after it exists, the executor answers [Skipped]
    after that one request for the video's page: no captions request, no
    subprocess, and no change to the directory or to the combined
    handle. *)
Theorem skip_after_title_fetch (vid : pystr) (uw ua : bool)
    (h : option handle) (w : World) (title : pystr) :
  video_title env (length (calls w)) vid = Reply title ->
  is_Some (fs w !! transcript_filename ucd title vid) ->
  (download_and_save_transcript ucd env vid uw ua h w).1
    = Returns (true, Skipped)
  /\ calls (download_and_save_transcript ucd env vid uw ua h w).2
    = calls w ++ [FetchVideoPage vid]
  /\ List.filter is_network
       (calls (download_and_save_transcript ucd env vid uw ua h w).2)
    = List.filter is_network (calls w) ++ [FetchVideoPage vid]
  /\ List.filter is_subprocess
       (calls (download_and_save_transcript ucd env vid uw ua h w).2)
    = List.filter is_subprocess (calls w)
  /\ fs (download_and_save_transcript ucd env vid uw ua h w).2 = fs w
  /\ pending (download_and_save_transcript ucd env vid uw ua h w).2
    = pending w.
Proof.
  intros Ht Hex. rewrite (skip_run vid uw ua h w title) by done.
  cbn. by rewrite !List.filter_app, app_nil_r.
Qed.

(** C4, as the code has it. In the loop of the orchestrator a video that
    ends [New] adds one to [new] and appends to the combined handle the
    framed entry (file name, title, time of retrieval, separator, text)
    when the text is not empty, and nothing when it is empty; a video
    that ends [Skipped] or [Error] leaves [new] and the combined handle
    as they were. *)
Theorem saved_entry_is_framed (vid : pystr) (rest : list pystr)
    (uw ua : bool) (stats : Stats) (w w' : World) (b : bool) (st : status) :
  download_and_save_transcript ucd env vid uw ua (Some Combined) w
    = (Returns (b, st), w') ->
  process_each ucd env (vid :: rest) uw ua stats w
    = process_each ucd env rest uw ua (bump st stats) w'
  /\ match st with
     | New =>
         new (bump st stats) = S (new stats)
         /\ exists title text w2,
             video_title env (length (calls w)) vid = Reply title
             /\ transcribe env vid (transcript_filename ucd title vid) uw ua
                  (add_call (FetchVideoPage vid) w) = (Returns text, w2)
             /\ pending w'
                = pending w
                  ++ (if nonempty text
                      then framed_entry (transcript_filename ucd title vid)
                             title (strftime_now env (length (calls w')))
                             text
                      else [])
     | Skipped | Error =>
         new (bump st stats) = new stats /\ pending w' = pending w
     end.
Proof.
  intros Hd. split.
  - cbn [process_each]. rewrite bind_run, Hd. done.
  - destruct (download_cases vid uw ua (Some Combined) w)
      as [(title & Ht & Hex & Hr)
         |[(title & text & w2 & Ht & Hnone & Htr & Hr)
          |[(m & w2 & Hr & Hp)|(w2 & Hr & _)]]];
      rewrite Hd in Hr; try done.
    + by injection Hr as -> -> ->.
    + injection Hr as -> -> ->. split; [done|].
      exists title, text, w2. split; [done|]. split; [done|].
      destruct (write_entry_run (Some Combined)
                  (transcript_filename ucd title vid) title text w2)
        as (_ & Hp' & Hc' & _).
      rewrite Hp', Hc'.
      destruct (quiet_transcribe vid (transcript_filename ucd title vid)
                  uw ua (add_call (FetchVideoPage vid) w)) as ((Hp & _) & _).
      rewrite Htr in Hp. cbn in Hp. by rewrite Hp.
    + by injection Hr as -> -> ->.
Qed.

(** *** The collaborators a strategy calls *)

Lemma silent_ret {A} (a : A) : silent (mret a : M World A).
Proof. by intros w. Qed.

Lemma silent_bind {A B} (m : M World A) (k : A -> M World B) :
  silent m -> (forall a, silent (k a)) -> silent (m ≫= k).
Proof.
  intros Hm Hk w. rewrite bind_run. specialize (Hm w).
  destruct (m w) as [[a|e] w1]; cbn in *; [|done].
  by rewrite Hk.
Qed.

Lemma silent_if {A} (b : bool) (m1 m2 : M World A) :
  silent m1 -> silent m2 -> silent (if b then m1 else m2).
Proof. by destruct b. Qed.

Lemma silent_path_exists (name : pystr) : silent (path_exists name).
Proof. by intros w. Qed.

Lemma silent_read_text (name : pystr) : silent (read_text name).
Proof.
  intros w. unfold read_text. by destruct (fs w !! name) as [[[text|]|]|].
Qed.

Lemma silent_write_text (name text : pystr) : silent (write_text name text).
Proof.
  intros w. unfold write_text. destruct (name_too_long name); [done|].
  by destruct (fs w !! name) as [[|]|].
Qed.

Lemma silent_os_remove (name : pystr) : silent (os_remove name).
Proof.
  intros w. unfold os_remove. by destruct (fs w !! name) as [[|]|].
Qed.

Lemma silent_os_rename (src dst : pystr) : silent (os_rename src dst).
Proof.
  intros w. unfold os_rename.
  by destruct (fs w !! src) as [[|]|];
    [destruct (name_too_long dst); [|destruct (fs w !! dst) as [[|]|]]..|].
Qed.

Lemma silent_for_each {A} (xs : list A) (body : A -> M World unit) :
  (forall x, silent (body x)) -> silent (for_each xs body).
Proof.
  intros Hb. induction xs as [|x xs IH]; [apply silent_ret|].
  cbn. apply silent_bind; [apply Hb|done].
Qed.

Ltac silent_steps :=
  repeat first
    [ apply silent_if | apply silent_bind | intros ? | apply silent_ret
    | apply silent_for_each | apply silent_read_text
    | apply silent_os_rename | apply silent_os_remove
    | apply silent_path_exists | apply silent_write_text ].

Lemma run_checked_calls (argv : list pystr) (w : World) :
  calls (run_checked env argv w).2 = calls w ++ [RunProcess argv].
Proof.
  unfold run_checked.
  by destruct (subprocess_run env (length (calls w)) argv (fs w)).
Qed.

(** Two tools one after the other, and then only work on files. *)
Lemma two_tools_calls {A} (argv1 argv2 : list pystr) (rest : M World A)
    (w : World) :
  silent rest ->
  exists cs,
    calls ((run_checked env argv1;; run_checked env argv2;; rest) w).2
    = calls w ++ cs
    /\ forallb is_subprocess cs = true
    /\ (1 <= length cs <= 2)%nat.
Proof.
  intros Hrest. rewrite bind_run.
  pose proof (run_checked_calls argv1 w) as H1.
  destruct (run_checked env argv1 w) as [[[]|e] w1]; cbn in H1.
  - rewrite bind_run. pose proof (run_checked_calls argv2 w1) as H2.
    destruct (run_checked env argv2 w1) as [[[]|e] w2]; cbn in H2.
    + exists [RunProcess argv1; RunProcess argv2].
      rewrite Hrest, H2, H1, <- app_assoc. cbn. split; [done|]. split; [done|lia].
    + exists [RunProcess argv1; RunProcess argv2]. cbn.
      rewrite H2, H1, <- app_assoc. cbn. split; [done|]. split; [done|lia].
  - exists [RunProcess argv1]. cbn. split; [done|]. split; [done|lia].
Qed.

Lemma transcribe_calls (vid filename : pystr) (uw ua : bool) (w : World) :
  exists cs,
    calls (transcribe env vid filename uw ua w).2 = calls w ++ cs
    /\ match uw, ua with
       | false, true => cs = [FetchCaptions vid]
       | _, _ =>
           forallb is_subprocess cs = true /\ (1 <= length cs <= 2)%nat
       end.
Proof.
  unfold transcribe. destruct uw; [|destruct ua].
  - destruct (two_tools_calls (yt_dlp vid)
                [str "whisper"; vid ++ str ".mp3"; str "--model";
                 str "base"; str "--output_format"; str "txt"]
                (text ← read_text (vid ++ str ".txt");
                 os_rename (vid ++ str ".txt") filename;;
                 for_each [str "mp3"; str "json"; str "srt"; str "tsv";
                           str "vtt"]
                   (fun ext =>
                      found ← path_exists (vid ++ str "." ++ ext);
                      if (found : bool)
                      then os_remove (vid ++ str "." ++ ext)
                      else mret tt);;
                 mret text) w) as (cs & Hc & Hs); [silent_steps|].
    exists cs. split; [exact Hc|]. by destruct ua.
  - exists [FetchCaptions vid]. split; [|done].
    rewrite bind_run. unfold fetch_transcript at 1.
    destruct (get_transcript env (length (calls w)) vid) as [frags|e];
      cbn; [|done].
    assert (Hs : silent (write_text filename (join (str " ") frags);;
                         mret (join (str " ") frags)))
      by silent_steps.
    by rewrite Hs.
  - apply two_tools_calls. silent_steps.
Qed.

(** What the executor leaves: the directory and the calls are those of
    the fetch of the title, or those of the strategy, where the combined
    handle may have let text through to its file. *)
Lemma download_effects (vid : pystr) (uw ua : bool) (h : option handle)
    (w : World) :
  let w1 := add_call (FetchVideoPage vid) w in
  let r := download_and_save_transcript ucd env vid uw ua h w in
  (fs r.2 = fs w /\ calls r.2 = calls w1 /\ same_handle w r.2)
  \/ (exists title,
        video_title env (length (calls w)) vid = Reply title
        /\ fs w !! transcript_filename ucd title vid = None
        /\ (exists text flushed,
              fs r.2
              = flush_to (target w) flushed
                  (fs (transcribe env vid (transcript_filename ucd title vid)
                         uw ua w1).2)
              /\ pending r.2 = pending w ++ text
              /\ buffered w ++ text = flushed ++ buffered r.2
              /\ target r.2 = target w)
        /\ calls r.2
           = calls (transcribe env vid (transcript_filename ucd title vid)
                      uw ua w1).2).
Proof.
  intros w1 r. subst r. rewrite download_run. fold w1.
  destruct (video_title env (length (calls w)) vid) as [title|x] eqn:Ht.
  - cbn zeta.
    destruct (bool_decide (is_Some (fs w !! transcript_filename ucd title vid)))
      eqn:Hex; [by left|].
    right. exists title. split; [done|].
    apply bool_decide_eq_false in Hex. split; [by apply eq_None_not_Some|].
    destruct (quiet_transcribe vid (transcript_filename ucd title vid)
                uw ua w1) as ((Hpd & Hbf & Htg) & _ & He & _).
    destruct (transcribe env vid (transcript_filename ucd title vid) uw ua
                w1) as [[text|e] w2]; cbn in *.
    + destruct (write_entry_run h (transcript_filename ucd title vid) title
                  text w2) as (_ & Hp & Hc & _ & Ht' & flushed & Hf & Hb).
      split; [|done]. eexists _, flushed.
      rewrite Hf, Hp, Ht', Htg, Hpd, <- Hb, Hbf. done.
    + destruct (He e eq_refl) as (x & -> & _).
      destruct (on_failure_run vid x w2) as (handler & -> & Hrun).
      destruct (undecodable x);
        [rewrite Hrun|destruct Hrun as [m ->]];
        (split; [|done]); exists [], []; cbn;
        by rewrite flush_to_nil, !app_nil_r.
  - cbn zeta. left.
    destruct (on_failure_run vid x w1) as (handler & -> & Hrun).
    destruct (undecodable x); [by rewrite Hrun|].
    destruct Hrun as [m ->]. done.
Qed.

(** X12. One strategy per video, and no fallback. The executor first
    fetches the title, once. With the captions strategy it then makes at
    most one captions request and starts no process; with the two other
    strategies it starts at most two processes and makes no captions
    request. *)
Theorem one_strategy_per_video (vid : pystr) (uw ua : bool)
    (h : option handle) (w : World) :
  exists cs,
    calls (download_and_save_transcript ucd env vid uw ua h w).2
    = calls w ++ FetchVideoPage vid :: cs
    /\ match uw, ua with
       | false, true => cs = [] \/ cs = [FetchCaptions vid]
       | _, _ =>
           forallb is_subprocess cs = true /\ (length cs <= 2)%nat
       end.
Proof.
  destruct (download_effects vid uw ua h w)
    as [[_ [Hc _]]|(title & _ & _ & _ & Hc)].
  - exists []. split; [done|].
    destruct uw, ua; first [by left | split; [done|cbn; lia]].
  - destruct (transcribe_calls vid (transcript_filename ucd title vid) uw ua
                (add_call (FetchVideoPage vid) w)) as (cs & Hcs & Hshape).
    exists cs. split; [by rewrite Hc, Hcs; cbn; rewrite <- app_assoc|].
    destruct uw, ua; first [by right | split; [tauto|lia]].
Qed.

Lemma download_without_handle (vid : pystr) (uw ua : bool) (w : World) :
  pending (download_and_save_transcript ucd env vid uw ua None w).2
    = pending w
  /\ forall b st w',
       download_and_save_transcript ucd env vid uw ua None w
         = (Returns (b, st), w') ->
       (b = true <-> st <> Error).
Proof.
  destruct (download_cases vid uw ua None w)
    as [(title & _ & _ & Hr)
       |[(title & text & w2 & _ & _ & Htr & Hr)
        |[(m & w2 & Hr & Hp)|(w2 & Hr & Hp & _)]]];
    rewrite Hr; (split; [|by intros b st w' [= <- <- _]]);
    cbn [fst snd]; try done.
  destruct (write_entry_run None (transcript_filename ucd title vid) title
              text w2) as (_ & Hp' & _).
  rewrite Hp'. cbn. rewrite app_nil_r.
  destruct (quiet_transcribe vid (transcript_filename ucd title vid)
              uw ua (add_call (FetchVideoPage vid) w)) as ((Hp & _) & _).
  by rewrite Htr in Hp.
Qed.

(** X13. Without a combined handle (the single-video mode) the executor
    writes nothing to the combined output, however it ends; its first
    result is [True] exactly when the status is not ["error"]. *)
Theorem no_handle_no_entry (vid : pystr) (uw ua : bool) (w : World) :
  pending (download_and_save_transcript ucd env vid uw ua None w).2
    = pending w
  /\ forall b st w',
       download_and_save_transcript ucd env vid uw ua None w
         = (Returns (b, st), w') ->
       (b = true <-> st <> Error).
Proof. apply download_without_handle. Qed.
End StrategyExecutor.

Lemma skip_after_title_fetch_counterexample :
  is_Some (TranscriptTool.fs Examples.abc123_saved
             !! Python.str "episode_abc123-abc123-transcript.txt")
  /\ TranscriptTool.calls Examples.abc123_saved = []
  /\ (TranscriptTool.download_and_save_transcript Python.latin1
        Examples.captions_env (Python.str "abc123") false false None
        Examples.abc123_saved).1
     = Python.Returns (true, TranscriptTool.Skipped)
  /\ List.filter TranscriptTool.is_network
       (TranscriptTool.calls
          (TranscriptTool.download_and_save_transcript Python.latin1
             Examples.captions_env (Python.str "abc123") false false None
             Examples.abc123_saved).2)
     = [TranscriptTool.FetchVideoPage (Python.str "abc123")].
Proof.
  split; [by vm_compute; eexists|]. repeat split; vm_compute; reflexivity.
Qed.

Lemma skip_after_title_fetch_witness :
  TranscriptTool.calls
    (TranscriptTool.download_and_save_transcript Python.latin1
       Examples.captions_env (Python.str "abc123") true false None
       Examples.abc123_saved).2
  = [TranscriptTool.FetchVideoPage (Python.str "abc123")].
Proof.
  apply (skip_after_title_fetch Python.latin1 Examples.captions_env
           (Python.str "abc123") true false None Examples.abc123_saved
           (Python.str "Episode abc123")).
  - reflexivity.
  - vm_compute. eexists. reflexivity.
Defined.

(** The captions service returns no fragment: the transcript is saved,
    empty, the video counts as new, and the combined handle receives
    nothing. *)
Lemma saved_entry_is_framed_counterexample :
  (TranscriptTool.download_and_save_transcript Python.latin1
     Examples.no_fragments_env (Python.str "def456") false true
     (Some TranscriptTool.Combined) (Examples.directory [])).1
  = Python.Returns (true, TranscriptTool.New)
  /\ TranscriptTool.pending
       (TranscriptTool.download_and_save_transcript Python.latin1
          Examples.no_fragments_env (Python.str "def456") false true
          (Some TranscriptTool.Combined) (Examples.directory [])).2
     = []
  /\ TranscriptTool.fs
       (TranscriptTool.download_and_save_transcript Python.latin1
          Examples.no_fragments_env (Python.str "def456") false true
          (Some TranscriptTool.Combined) (Examples.directory [])).2
       !! Python.str "episode_def456-def456-transcript.txt"
     = Some (TranscriptTool.File (Some [])).
Proof. repeat split; vm_compute; reflexivity. Qed.

Lemma saved_entry_is_framed_witness :
  TranscriptTool.pending
    (TranscriptTool.download_and_save_transcript Python.latin1
       Examples.captions_env (Python.str "def456") false true
       (Some TranscriptTool.Combined) (Examples.directory [])).2
  = TranscriptTool.framed_entry
      (Python.str "episode_def456-def456-transcript.txt")
      (Python.str "Episode def456") (Python.str "2025-11-18 09:30:00")
      (Python.str "Hello  world").
Proof.
  destruct (saved_entry_is_framed Python.latin1 Examples.captions_env
              (Python.str "def456") [] false true
              {| TranscriptTool.new := 0; TranscriptTool.skipped := 0;
                 TranscriptTool.error := 0 |}
              (Examples.directory [])
              (TranscriptTool.download_and_save_transcript Python.latin1
                 Examples.captions_env (Python.str "def456") false true
                 (Some TranscriptTool.Combined) (Examples.directory [])).2
              true TranscriptTool.New)
    as [_ [_ (title & text & w2 & Ht & Htr & Hp)]].
  - vm_compute. reflexivity.
  - rewrite Hp. injection Ht as <-.
    apply (f_equal fst) in Htr. vm_compute in Htr. injection Htr as <-.
    vm_compute. reflexivity.
Defined.

(* ===================================================================== *)
(** ** Properties of the orchestrator                                     *)
(* ===================================================================== *)

Section Orchestrator.
Import Python TranscriptTool.
Context (ucd : Unicode) (env : Env).

#[local] Arguments str : simpl never.
#[local] Arguments transcript_filename : simpl never.



(** *** A run over videos whose transcripts are all there *)


(** *** A transcript that was acquired is on disk *)

Lemma transcript_filename_length (title vid : pystr) :
  (length vid + 5 < length (transcript_filename ucd title vid))%nat.
Proof.
  unfold transcript_filename, str. rewrite !length_app. cbn. lia.
Qed.

(** Removing the by-products of the tools keeps the transcript. *)
Lemma remove_sibling_keeps (sibling filename : pystr) (w w' : World) :
  sibling <> filename ->
  (found ← path_exists sibling;
   if (found : bool) then os_remove sibling else mret tt) w
    = (Returns tt, w') ->
  is_Some (fs w !! filename) -> is_Some (fs w' !! filename).
Proof.
  intros Hne. rewrite bind_run. unfold path_exists. cbn.
  destruct (bool_decide (is_Some (fs w !! sibling))).
  - unfold os_remove. destruct (fs w !! sibling) as [[t|]|]; try done.
    intros [= <-]. cbn. by rewrite lookup_delete_ne.
  - by intros [= <-].
Qed.

Lemma remove_siblings_keep (vid filename : pystr) (exts : list pystr)
    (w w' : World) :
  Forall (fun ext => vid ++ str "." ++ ext <> filename) exts ->
  for_each exts
    (fun ext =>
       let sibling := vid ++ str "." ++ ext in
       found ← path_exists sibling;
       if (found : bool) then os_remove sibling else mret tt) w
    = (Returns tt, w') ->
  is_Some (fs w !! filename) -> is_Some (fs w' !! filename).
Proof.
  intros Hne. revert w.
  induction Hne as [|ext exts Hext _ IH]; intros w.
  - by intros [= <-].
  - cbn [for_each]. intros ([] & w1 & Hb & Hrest)%bind_returns Hex.
    eapply IH; [done|]. by eapply remove_sibling_keeps.
Qed.

Lemma transcribe_leaves_artifact (vid filename : pystr) (uw ua : bool)
    (w w' : World) (text : pystr) :
  (length vid + 5 < length filename)%nat ->
  transcribe env vid filename uw ua w = (Returns text, w') ->
  is_Some (fs w' !! filename).
Proof.
  intros Hlen. unfold transcribe.
  assert (Hsib : forall ext, (length ext <= 4)%nat ->
                             vid ++ str "." ++ ext <> filename).
  { intros ext ? Heq. apply (f_equal length) in Heq.
    unfold str in Heq. rewrite !length_app in Heq. cbn in Heq. lia. }
  destruct uw; [|destruct ua].
  - intros ([] & w1 & _ & H)%bind_returns.
    apply bind_returns in H as ([] & w2 & _ & H).
    apply bind_returns in H as (t & w3 & _ & H).
    apply bind_returns in H as ([] & w4 & Hren & H).
    apply bind_returns in H as ([] & w5 & Hfor & H).
    injection H as _ <-.
    eapply remove_siblings_keep; [|exact Hfor|].
    + repeat constructor; apply Hsib; vm_compute; lia.
    + clear -Hren. unfold os_rename in Hren.
      destruct (fs w3 !! (vid ++ str ".txt")) as [[t|]|]; [| |done];
        (destruct (name_too_long filename); [done|]);
        destruct (fs w3 !! filename) as [[t'|]|]; try done;
        injection Hren as <-; cbn; by rewrite lookup_insert_eq.
  - intros (frags & w1 & _ & H)%bind_returns.
    apply bind_returns in H as ([] & w2 & Hw & H).
    injection H as _ <-.
    unfold write_text in Hw. destruct (name_too_long filename); [done|].
    destruct (fs w1 !! filename) as [[t|]|]; try done;
      injection Hw as <-; cbn; by rewrite lookup_insert_eq.
  - intros ([] & w1 & _ & H)%bind_returns.
    apply bind_returns in H as ([] & w2 & _ & H).
    apply bind_returns in H as (t & w3 & Hread & H).
    apply bind_returns in H as ([] & w4 & Hrm & H).
    injection H as _ <-.
    unfold read_text in Hread.
    destruct (fs w2 !! filename) as [[[t'|]|]|] eqn:Hf; try done.
    injection Hread as _ <-.
    unfold os_remove in Hrm.
    destruct (fs w2 !! (vid ++ str ".mp3")) as [[t''|]|]; try done.
    injection Hrm as <-. cbn. rewrite lookup_delete_ne; [by rewrite Hf|].
    apply (Hsib (str "mp3")). vm_compute. lia.
Qed.

(** A video that ends [New] or [Skipped] has its transcript on disk,
    under the name derived from its title and identifier. *)
Lemma artifact_after_success (vid : pystr) (uw ua : bool)
    (h : option handle) (w w' : World) (b : bool) (st : status)
    (title : pystr) :
  download_and_save_transcript ucd env vid uw ua h w
    = (Returns (b, st), w') ->
  st <> Error ->
  video_title env (length (calls w)) vid = Reply title ->
  is_Some (fs w' !! transcript_filename ucd title vid).
Proof.
  intros Hd Hst Ht.
  destruct (download_cases ucd env vid uw ua h w)
    as [(title' & Ht' & Hex & Hr)
       |[(title' & text & w2 & Ht' & Hnone & Htr & Hr)
        |[(m & w2 & Hr & Hp)|(w2 & Hr & _)]]];
    rewrite Hd in Hr; try done.
  - injection Hr as _ _ ->. rewrite Ht in Ht'. by injection Ht' as <-.
  - injection Hr as _ _ ->. rewrite Ht in Ht'. injection Ht' as <-.
    destruct (write_entry_keeps env h (transcript_filename ucd title vid)
                title text w2) as (_ & _ & _ & Hnone' & _).
    apply not_eq_None_Some. rewrite Hnone'. apply not_eq_None_Some.
    eapply transcribe_leaves_artifact; [|exact Htr].
    apply transcript_filename_length.
  - by injection Hr as _ -> _.
Qed.





(** *** The captions strategy *)


(** The file system refuses a name of more than 255 bytes, and the
    captions strategy ends in an error that leaves no file. *)
Lemma transcribe_captions_name_too_long (vid filename : pystr) (w : World)
    (fragments : list pystr) :
  get_transcript env (length (calls w)) vid = Reply fragments ->
  name_too_long filename = true ->
  transcribe env vid filename false true w
  = (Raises (Exc (OtherError "OSError")), add_call (FetchCaptions vid) w).
Proof.
  intros Hg Hname. unfold transcribe. rewrite bind_run.
  unfold fetch_transcript. rewrite Hg. cbn.
  rewrite bind_run. unfold write_text. by rewrite Hname.
Qed.


(** *** Batches that run to completion *)



(** *** What a saved transcript leaves behind *)

Lemma remove_sibling_absent (sibling : pystr) (w w' : World) :
  (found ← path_exists sibling;
   if (found : bool) then os_remove sibling else mret tt) w
    = (Returns tt, w') ->
  fs w' !! sibling = None
  /\ forall name, fs w !! name = None -> fs w' !! name = None.
Proof.
  rewrite bind_run. unfold path_exists. cbn.
  destruct (bool_decide (is_Some (fs w !! sibling))) eqn:Hex.
  - unfold os_remove. destruct (fs w !! sibling) as [[t|]|]; try done.
    intros [= <-]. cbn. split; [by rewrite lookup_delete_eq|].
    intros name Hname. destruct (decide (sibling = name)) as [->|Hne].
    + by rewrite lookup_delete_eq.
    + by rewrite lookup_delete_ne.
  - intros [= <-]. split; [|done].
    apply bool_decide_eq_false in Hex. by apply eq_None_not_Some.
Qed.

Lemma remove_siblings_absent (vid : pystr) (exts : list pystr)
    (w w' : World) :
  for_each exts
    (fun ext =>
       let sibling := vid ++ str "." ++ ext in
       found ← path_exists sibling;
       if (found : bool) then os_remove sibling else mret tt) w
    = (Returns tt, w') ->
  (forall name, fs w !! name = None -> fs w' !! name = None)
  /\ Forall (fun ext => fs w' !! (vid ++ str "." ++ ext) = None) exts.
Proof.
  revert w. induction exts as [|ext exts IH]; intros w.
  - by intros [= <-].
  - cbn [for_each]. intros ([] & w1 & Hb & Hrest)%bind_returns.
    apply remove_sibling_absent in Hb as [Hext Hkeep].
    destruct (IH w1 Hrest) as [Hkeep' Hexts].
    split; [by intros name Hname; apply Hkeep', Hkeep|].
    constructor; [by apply Hkeep'|done].
Qed.

(** X14. A video that ends ["new"] leaves no by-product of the tools.
    After the local strategy the output of whisper has been renamed, so
    [<id>.txt] is gone, and so are [<id>.mp3], [<id>.json], [<id>.srt],
    [<id>.tsv] and [<id>.vtt]; after the cloud strategy [<id>.mp3] is
    gone. *)
Theorem new_transcript_leaves_no_intermediate (vid : pystr) (uw ua : bool)
    (h : option handle) (w w' : World) (b : bool) :
  download_and_save_transcript ucd env vid uw ua h w
    = (Returns (b, New), w') ->
  (uw = true ->
   fs w' !! (vid ++ str ".txt") = None
   /\ Forall (fun ext => fs w' !! (vid ++ str "." ++ ext) = None)
        [str "mp3"; str "json"; str "srt"; str "tsv"; str "vtt"])
  /\ (uw = false -> ua = false -> fs w' !! (vid ++ str ".mp3") = None).
Proof.
  intros Hd.
  destruct (download_cases ucd env vid uw ua h w)
    as [(title & _ & _ & Hr)
       |[(title & text & w2 & _ & _ & Htr & Hr)
        |[(m & w2 & Hr & _)|(w2 & Hr & _)]]];
    rewrite Hd in Hr; try done.
  injection Hr as _ ->.
  destruct (write_entry_keeps env h (transcript_filename ucd title vid)
              title text w2) as (_ & _ & _ & Hnone & _).
  cut ((uw = true ->
        fs w2 !! (vid ++ str ".txt") = None
        /\ Forall (fun ext => fs w2 !! (vid ++ str "." ++ ext) = None)
             [str "mp3"; str "json"; str "srt"; str "tsv"; str "vtt"])
       /\ (uw = false -> ua = false -> fs w2 !! (vid ++ str ".mp3") = None)).
  { intros [H1 H2]. split.
    - intros Hu. destruct (H1 Hu) as [Ha Hb]. split; [by apply Hnone|].
      eapply Forall_impl; [exact Hb|]. intros ext He. by apply Hnone.
    - intros Hu Ha. apply Hnone. by apply H2. }
  clear Hnone.
  pose proof (transcript_filename_length title vid) as Hlen.
  revert Htr Hlen.
  generalize (transcript_filename ucd title vid) as filename,
    (add_call (FetchVideoPage vid) w) as w1.
  intros filename w1 Htr Hlen. unfold transcribe in Htr. split.
  - intros ->.
    apply bind_returns in Htr as ([] & wa & _ & H).
    apply bind_returns in H as ([] & wb & _ & H).
    apply bind_returns in H as (t & wc & _ & H).
    apply bind_returns in H as ([] & wd & Hren & H).
    apply bind_returns in H as ([] & we & Hfor & H).
    injection H as _ <-.
    apply remove_siblings_absent in Hfor as [Hkeep Hexts].
    split; [|done]. apply Hkeep. clear -Hren Hlen.
    assert (Hne : filename <> vid ++ str ".txt").
    { intros ->. unfold str in Hlen. rewrite length_app in Hlen.
      cbn in Hlen. lia. }
    unfold os_rename in Hren.
    destruct (fs wc !! (vid ++ str ".txt")) as [[t|]|]; [| |done];
      (destruct (name_too_long filename); [done|]);
      destruct (fs wc !! filename) as [[t'|]|]; try done;
      injection Hren as <-; cbn;
      by rewrite lookup_insert_ne, lookup_delete_eq.
  - intros -> ->.
    apply bind_returns in Htr as ([] & wa & _ & H).
    apply bind_returns in H as ([] & wb & _ & H).
    apply bind_returns in H as (t & wc & _ & H).
    apply bind_returns in H as ([] & wd & Hrm & H).
    injection H as _ <-.
    unfold os_remove in Hrm.
    destruct (fs wc !! (vid ++ str ".mp3")) as [[t'|]|]; try done.
    injection Hrm as <-. cbn. by rewrite lookup_delete_eq.
Qed.

(** *** A transcript that is written and cannot be read *)

Lemma run_checked_ok (argv : list pystr) (w : World) (stderr : pybytes)
    (files : gmap pystr node) :
  subprocess_run env (length (calls w)) argv (fs w) = Exited 0 stderr files ->
  run_checked env argv w
  = (Returns tt, set_fs (fun _ => files) (add_call (RunProcess argv) w)).
Proof. intros H. unfold run_checked. by rewrite H. Qed.

Lemma length_add_call (c : call) (w : World) :
  length (calls (add_call c w)) = S (length (calls w)).
Proof. cbn. rewrite length_app. cbn. lia. Qed.

(** X15. A video can end ["error"] and still leave its transcript file.
    With the cloud strategy, when both tools exit with status 0 and the
    file that [transcribe_audio.py] has written is not valid UTF-8, the
    executor fails to read it back and answers ["error"]; the file and
    the audio stay on disk, nothing reaches the combined output, and
    every later call for the same video answers ["skipped"]. *)
Theorem unreadable_transcript_is_error_then_skipped (vid title : pystr)
    (h : option handle) (w : World) (stderr1 stderr2 : pybytes)
    (files1 files2 : gmap pystr node) :
  (forall n, video_title env n vid = Reply title) ->
  fs w !! transcript_filename ucd title vid = None ->
  subprocess_run env (S (length (calls w))) (yt_dlp vid) (fs w)
    = Exited 0 stderr1 files1 ->
  subprocess_run env (S (S (length (calls w))))
    [str "python3"; str "transcribe_audio.py"; vid ++ str ".mp3";
     str "--gcs-bucket"; GCS_BUCKET; str "--output-file";
     transcript_filename ucd title vid] files1
    = Exited 0 stderr2 files2 ->
  files2 !! transcript_filename ucd title vid = Some (File None) ->
  exists w',
    download_and_save_transcript ucd env vid false false h w
      = (Returns (false, Error), w')
    /\ fs w' = files2
    /\ pending w' = pending w
    /\ forall h',
         (download_and_save_transcript ucd env vid false false h' w').1
         = Returns (true, Skipped).
Proof.
  intros Ht Hnone H1 H2 Hfile.
  eexists. split; [|split; [|split]].
  - rewrite download_run, Ht. cbn zeta.
    rewrite bool_decide_eq_false_2 by (rewrite Hnone; by intros [? ?]).
    unfold transcribe. rewrite bind_run.
    rewrite (run_checked_ok _ _ stderr1 files1)
      by (by rewrite length_add_call).
    rewrite bind_run.
    rewrite (run_checked_ok _ _ stderr2 files2)
      by (cbn [fs set_fs calls]; by rewrite !length_add_call).
    rewrite bind_run. unfold read_text at 1. cbn [fs set_fs add_call].
    rewrite Hfile. cbn. reflexivity.
  - reflexivity.
  - reflexivity.
  - intros h'. erewrite skip_run; [done|apply Ht|].
    cbn. by rewrite Hfile.
Qed.

(** *** The combined output only grows *)

Lemma download_appends (vid : pystr) (uw ua : bool) (h : option handle)
    (w : World) :
  pending w
    `prefix_of` pending (download_and_save_transcript ucd env vid uw ua h w).2.
Proof.
  destruct (download_cases ucd env vid uw ua h w)
    as [(title & _ & _ & Hr)
       |[(title & text & w2 & _ & _ & Htr & Hr)
        |[(m & w2 & Hr & Hp)|(w2 & Hr & Hp & _)]]];
    rewrite Hr; cbn [fst snd]; try (cbn; by rewrite ?Hp).
  destruct (write_entry_run env h (transcript_filename ucd title vid) title
              text w2) as (_ & Hp' & _).
  rewrite Hp'.
  destruct (quiet_transcribe env vid (transcript_filename ucd title vid)
              uw ua (add_call (FetchVideoPage vid) w)) as ((Hp & _) & _).
  rewrite Htr in Hp. cbn in Hp. rewrite Hp. by eexists.
Qed.

Lemma process_each_appends (ids : list pystr) (uw ua : bool)
    (stats : Stats) (w : World) :
  pending w `prefix_of` pending (process_each ucd env ids uw ua stats w).2.
Proof.
  revert stats w. induction ids as [|vid rest IH]; intros stats w; [done|].
  cbn [process_each]. rewrite bind_run.
  pose proof (download_appends vid uw ua (Some Combined) w) as Hd.
  destruct (download_and_save_transcript ucd env vid uw ua (Some Combined)
              w) as [[r|e] w1]; cbn [snd] in *; [|done].
  by etrans; [exact Hd|apply IH].
Qed.

Lemma process_each_app (ids1 ids2 : list pystr) (uw ua : bool)
    (stats : Stats) (w : World) :
  process_each ucd env (ids1 ++ ids2) uw ua stats w
  = match process_each ucd env ids1 uw ua stats w with
    | (Returns stats1, w1) => process_each ucd env ids2 uw ua stats1 w1
    | (Raises e, w1) => (Raises e, w1)
    end.
Proof.
  revert stats w. induction ids1 as [|vid rest IH]; intros stats w; [done|].
  cbn [process_each app]. rewrite !bind_run.
  destruct (download_and_save_transcript ucd env vid uw ua (Some Combined)
              w) as [[r|e] w1]; [apply IH|done].
Qed.

(** X16. The loop of the orchestrator only appends to the combined
    handle, and in the order of the identifiers: a batch over
    [ids1 ++ ids2] is the batch over [ids1] followed, from its statistics
    and its state, by the batch over [ids2], and what has been written
    after [ids1] is the beginning of what has been written at the end. *)
Theorem combined_log_is_append_only (ids1 ids2 : list pystr) (uw ua : bool)
    (stats : Stats) (w : World) :
  process_each ucd env (ids1 ++ ids2) uw ua stats w
  = match process_each ucd env ids1 uw ua stats w with
    | (Returns stats1, w1) => process_each ucd env ids2 uw ua stats1 w1
    | (Raises e, w1) => (Raises e, w1)
    end
  /\ pending w
       `prefix_of` pending (process_each ucd env ids1 uw ua stats w).2
  /\ pending (process_each ucd env ids1 uw ua stats w).2
       `prefix_of`
       pending (process_each ucd env (ids1 ++ ids2) uw ua stats w).2.
Proof.
  split; [apply process_each_app|]. split; [apply process_each_appends|].
  rewrite process_each_app.
  destruct (process_each ucd env ids1 uw ua stats w) as [[stats1|e] w1];
    [apply process_each_appends|done].
Qed.

(** *** Appending to an earlier combined output *)





(** *** Nothing to do *)

(** X18. For a channel that cannot be resolved [process_channel] does
    nothing: it opens no combined output, calls the executor for no
    video and returns. *)
Theorem process_channel_nothing_to_do (fuel : nat)
    (api_key channel_id out : pystr) (uw ua : bool) (w : World) :
  resolve_channel (build env api_key) channel_id = None ->
  exists batch,
    process_channel ucd env fuel api_key channel_id out uw ua = Some batch
    /\ batch w = (Returns tt, w).
Proof.
  intros Hr. unfold process_channel.
  rewrite (unknown_channel_is_empty env fuel api_key channel_id Hr).
  by eexists.
Qed.

(** *** From the executor to the aggregator *)

Lemma transcript_filename_is_transcript_name (title vid : pystr) :
  is_transcript_name (transcript_filename ucd title vid) = true.
Proof.
  unfold is_transcript_name, endswith, transcript_filename.
  apply bool_decide_eq_true. rewrite !app_assoc, length_app.
  rewrite Nat.add_sub. apply drop_app_length.
Qed.

(** X19. Every transcript the executor accounts for is one that
    [combine_local_files] selects: after a video has ended ["new"] or
    ["skipped"], its file is among the names ending in [-transcript.txt]
    in the directory. *)
Theorem saved_transcript_is_recombined (vid : pystr) (uw ua : bool)
    (h : option handle) (w w' : World) (b : bool) (st : status)
    (title : pystr) :
  download_and_save_transcript ucd env vid uw ua h w
    = (Returns (b, st), w') ->
  st <> Error ->
  video_title env (length (calls w)) vid = Reply title ->
  transcript_filename ucd title vid ∈ transcripts w'.
Proof.
  intros Hd Hst Ht.
  destruct (artifact_after_success vid uw ua h w w' b st title Hd Hst Ht)
    as [node Hnode].
  unfold transcripts, listdir. apply list_elem_of_In, filter_In. split.
  - apply list_elem_of_In, list_elem_of_fmap.
    exists (transcript_filename ucd title vid, node).
    split; [done|]. by apply elem_of_map_to_list.
  - apply transcript_filename_is_transcript_name.
Qed.
End Orchestrator.

(** *** Two runs over the same identifiers *)

Section TwoRuns.
Import Python TranscriptTool.
Context (ucd : Unicode) (env later : Env).

End TwoRuns.

(** C1 does not hold of the code. The channel lists two videos. The audio
    extraction of the first one exits with status 1 and the byte 0xFF on
    its standard error: the [except] clause for [CalledProcessError]
    raises [UnicodeDecodeError] while printing it, the executor raises
    instead of returning a status, and [process_channel] stops there
    without a call for the second video. *)
Theorem undecodable_stderr_aborts_batch :
  TranscriptTool.get_channel_videos Examples.garbled_stderr_env 1
    (Python.str "key") (Python.str "UCchannel")
  = Some [Python.str "abc123"; Python.str "def456"]
  /\ (TranscriptTool.download_and_save_transcript Python.latin1
        Examples.garbled_stderr_env (Python.str "abc123") false false
        (Some TranscriptTool.Combined) (Examples.directory [])).1
     = Python.Raises (Python.Exc Python.UnicodeDecodeError)
  /\ match
       TranscriptTool.process_channel Python.latin1
         Examples.garbled_stderr_env 1 (Python.str "key")
         (Python.str "UCchannel") (Python.str "master-transcript.txt")
         false false
     with
     | Some batch =>
         (batch (Examples.directory [])).1
         = Python.Raises (Python.Exc Python.UnicodeDecodeError)
         /\ TranscriptTool.calls (batch (Examples.directory [])).2
            = [TranscriptTool.FetchVideoPage (Python.str "abc123");
               TranscriptTool.RunProcess
                 (TranscriptTool.yt_dlp (Python.str "abc123"))]
     | None => False
     end
  /\ Python.decode_utf8 [255] = None.
Proof. repeat split; vm_compute; reflexivity. Qed.





Lemma new_transcript_leaves_no_intermediate_witness :
  TranscriptTool.fs
    (TranscriptTool.download_and_save_transcript Python.latin1
       Examples.local_tools_env (Python.str "abc123") true false None
       (Examples.directory [])).2
    !! (Python.str "abc123" ++ Python.str ".txt")
  = None
  /\ Forall
       (fun ext =>
          TranscriptTool.fs
            (TranscriptTool.download_and_save_transcript Python.latin1
               Examples.local_tools_env (Python.str "abc123") true false
               None (Examples.directory [])).2
            !! (Python.str "abc123" ++ Python.str "." ++ ext)
          = None)
       [Python.str "mp3"; Python.str "json"; Python.str "srt";
        Python.str "tsv"; Python.str "vtt"].
Proof.
  destruct (new_transcript_leaves_no_intermediate Python.latin1
              Examples.local_tools_env (Python.str "abc123") true false None
              (Examples.directory [])
              (TranscriptTool.download_and_save_transcript Python.latin1
                 Examples.local_tools_env (Python.str "abc123") true false
                 None (Examples.directory [])).2
              true) as [Hlocal _].
  - vm_compute. reflexivity.
  - apply Hlocal. reflexivity.
Defined.

Lemma unreadable_transcript_is_error_then_skipped_witness :
  exists w',
    TranscriptTool.download_and_save_transcript Python.latin1
      Examples.unreadable_output_env (Python.str "abc123") false false
      (Some TranscriptTool.Combined) (Examples.directory [])
    = (Python.Returns (false, TranscriptTool.Error), w')
    /\ TranscriptTool.fs w'
       = <[Python.str "episode_abc123-abc123-transcript.txt"
           := TranscriptTool.File None]>
           (<[Python.str "abc123.mp3" := TranscriptTool.File (Some [])]> ∅)
    /\ TranscriptTool.pending w' = []
    /\ forall h',
         (TranscriptTool.download_and_save_transcript Python.latin1
            Examples.unreadable_output_env (Python.str "abc123") false false
            h' w').1
         = Python.Returns (true, TranscriptTool.Skipped).
Proof.
  apply (unreadable_transcript_is_error_then_skipped Python.latin1
           Examples.unreadable_output_env (Python.str "abc123")
           (Python.str "Episode abc123") (Some TranscriptTool.Combined)
           (Examples.directory []) [] []
           (<[Python.str "abc123.mp3" := TranscriptTool.File (Some [])]> ∅)).
  - reflexivity.
  - reflexivity.
  - reflexivity.
  - reflexivity.
  - vm_compute. reflexivity.
Defined.


Lemma process_channel_nothing_to_do_witness :
  exists batch,
    TranscriptTool.process_channel Python.latin1 Examples.captions_env 0
      (Python.str "key") (Python.str "UCchannel")
      (Python.str "master-transcript.txt") false false
    = Some batch
    /\ batch (Examples.directory []) = (Python.Returns tt, Examples.directory []).
Proof.
  apply (process_channel_nothing_to_do Python.latin1 Examples.captions_env 0
           (Python.str "key") (Python.str "UCchannel")
           (Python.str "master-transcript.txt") false false
           (Examples.directory [])).
  reflexivity.
Defined.

Lemma saved_transcript_is_recombined_witness :
  Python.str "episode_def456-def456-transcript.txt"
  ∈ TranscriptTool.transcripts
      (TranscriptTool.download_and_save_transcript Python.latin1
         Examples.captions_env (Python.str "def456") false true None
         (Examples.directory [])).2.
Proof.
  apply (saved_transcript_is_recombined Python.latin1 Examples.captions_env
           (Python.str "def456") false true None (Examples.directory [])
           (TranscriptTool.download_and_save_transcript Python.latin1
              Examples.captions_env (Python.str "def456") false true None
              (Examples.directory [])).2
           true TranscriptTool.New (Python.str "Episode def456")).
  - vm_compute. reflexivity.
  - discriminate.
  - reflexivity.
Defined.

(* ===================================================================== *)
(** ** Properties of the aggregator                                       *)
(* ===================================================================== *)

Section Aggregator.
Import Python TranscriptTool.
Context (env : Env).

#[local] Arguments str : simpl never.
#[local] Arguments combine_header : simpl never.
#[local] Arguments combine_entry : simpl never.
#[local] Arguments universal_newlines : simpl never.
#[local] Arguments after_write : simpl never.

Lemma str_leb_total (a b : pystr) : str_leb a b = true \/ str_leb b a = true.
Proof.
  revert b. induction a as [|x a IH]; intros [|y b]; cbn; auto.
  destruct (N.ltb_spec x y), (N.ltb_spec y x); auto; lia.
Qed.

#[local] Instance str_le_total : Total str_le.
Proof. intros a b. apply str_leb_total. Qed.

(** The comparison of [sorted] is the lexicographic order. *)
Lemma str_le_lex (a b : pystr) : str_le a b <-> lex_le a b.
Proof.
  unfold str_le. split.
  - revert b. induction a as [|x a IH]; intros b; [constructor|].
    destruct b as [|y b]; cbn; [done|].
    destruct (N.ltb_spec x y); [intros _; by apply lex_le_lt|].
    destruct (N.ltb_spec y x); [done|].
    intros Hab. assert (x = y) as -> by lia. apply lex_le_eq. by apply IH.
  - induction 1 as [b|x a y b Hlt|x a b _ IH]; cbn; [done| |].
    + by destruct (N.ltb_spec x y); [|lia].
    + by rewrite N.ltb_irrefl.
Qed.

Lemma Sorted_str_le_lex (names : list pystr) :
  Sorted str_le names -> Sorted lex_le names.
Proof.
  induction 1 as [|name names _ IH Hhd]; constructor; [done|].
  destruct Hhd; constructor. by apply str_le_lex.
Qed.

(** The test of [combine_local_files] on a name is the naming
    convention. *)
Lemma is_transcript_name_convention (name : pystr) :
  is_transcript_name name = true <-> follows_convention name.
Proof.
  unfold is_transcript_name, endswith, follows_convention.
  rewrite bool_decide_eq_true. split.
  - intros Hdrop.
    pose proof (take_drop (length name - length (str "-transcript.txt"))
                  name) as Htd.
    rewrite Hdrop in Htd. by eexists.
  - intros [stem ->]. rewrite length_app, Nat.add_sub.
    apply drop_app_length.
Qed.

Lemma entry_of_lookup (d : gmap pystr node) (filename : pystr) :
  entry_of d filename
  = match d !! filename with
    | Some (File (Some text)) =>
        combine_entry filename (universal_newlines text)
    | _ => []
    end.
Proof. reflexivity. Qed.

Lemma elem_of_transcripts (name : pystr) (w : World) :
  name ∈ transcripts w
  <-> is_transcript_name name = true /\ is_Some (fs w !! name).
Proof.
  unfold transcripts, listdir. rewrite list_elem_of_In, filter_In.
  rewrite <- list_elem_of_In, list_elem_of_fmap. split.
  - intros [([name' node] & -> & Hin) Hname]. split; [done|].
    apply elem_of_map_to_list in Hin. by exists node.
  - intros [Hname [node Hnode]]. split; [|done].
    exists (name, node). split; [done|]. by apply elem_of_map_to_list.
Qed.

Lemma NoDup_transcripts (w : World) : NoDup (transcripts w).
Proof.
  unfold transcripts, listdir.
  apply NoDup_ListNoDup, List.NoDup_filter, NoDup_ListNoDup.
  apply NoDup_fst_map_to_list.
Qed.

(** The names [combine_local_files] works on: the discovered artifacts,
    each once, in lexicographic order. *)
Lemma sorted_transcripts (w : World) :
  NoDup (sorted (transcripts w))
  /\ (forall name,
        name ∈ sorted (transcripts w) <-> discovered (fs w) name)
  /\ Sorted lex_le (sorted (transcripts w)).
Proof.
  unfold sorted. split; [|split].
  - rewrite merge_sort_Permutation. apply NoDup_transcripts.
  - intros name. rewrite merge_sort_Permutation, elem_of_transcripts.
    unfold discovered. rewrite is_transcript_name_convention. tauto.
  - apply Sorted_str_le_lex, (Sorted_merge_sort str_le).
Qed.


(** *** The entries of a rebuilt output *)

Lemma recombined_others (d : gmap pystr node) (out written : pystr)
    (names : list pystr) (entries : pystr) :
  out ∉ names ->
  recombined d out written names entries ->
  entries = flat_map (entry_of d) names.
Proof.
  intros Hout Hrec.
  induction Hrec as [written|written name names entries Hne _ IH
                    |written names seen entries _ _ _]; [done| |].
  - cbn. rewrite IH; [done|]. intros Hin. apply Hout. by right.
  - destruct Hout. by left.
Qed.


Lemma flat_map_entry_of_insert (d : gmap pystr node) (out : pystr)
    (n : node) (names : list pystr) :
  out ∉ names ->
  flat_map (entry_of (<[out := n]> d)) names = flat_map (entry_of d) names.
Proof.
  induction names as [|name names IH]; [done|]. intros Hout. cbn.
  rewrite IH by (intros Hin; apply Hout; by right).
  rewrite !entry_of_lookup, lookup_insert_ne; [done|].
  intros ->. apply Hout. by left.
Qed.

(** *** The run of [combine_local_files] *)

Lemma appended_logs (out old text : pystr) (w w' : World) :
  logging out old w ->
  appended w w' text ->
  logging out old w'
  /\ forall name, name <> out -> fs w' !! name = fs w !! name.
Proof.
  intros (Htg & flushed & Hout & Hpend) (Hp & _ & _ & Ht & fl & Hf & Hb).
  split; [split; [congruence|]|].
  - exists (flushed ++ fl). split.
    + rewrite Hf, Htg, app_assoc. by apply flush_to_lookup.
    + by rewrite Hp, Hpend, <- !app_assoc, Hb.
  - intros name Hne. rewrite Hf, Htg. apply flush_to_lookup_ne. congruence.
Qed.

(** The loop of [combine_local_files] while the combined output [out] is
    open and the other files are those of the directory [d]: one entry
    for each name that can be read, in the order of the names, a report
    for each name that cannot; [out] itself is read as far as it has
    been written to the file. *)
Lemma combine_loop_run (d : gmap pystr node) (out : pystr)
    (names : list pystr) (w : World) :
  logging out [] w ->
  (forall name, name <> out -> fs w !! name = d !! name) ->
  exists w' entries,
    for_each names
      (fun filename =>
         try_except
           (content ← read_text filename;
            handle_write env
              (str "## Episode Transcript: " ++ filename ++ nl
               ++ content ++ nl ++ nl))
           (except_Exception (fun _ => say (FileError filename)))) w
    = (Returns tt, w')
    /\ recombined d out (pending w) names entries
    /\ logging out [] w'
    /\ (forall name, name <> out -> fs w' !! name = d !! name)
    /\ pending w' = pending w ++ entries
    /\ calls w' = calls w
    /\ stdout w' = stdout w ++ (FileError <$> failed_reads d out names).
Proof.
  revert w. induction names as [|name names IH]; intros w Hlog Hoth.
  - exists w, []. cbn. rewrite !app_nil_r.
    split; [done|]. split; [constructor|]. by repeat (split; [done|]).
  - assert (Hwrite : forall content,
               exists w' entries,
                 for_each names
                   (fun filename =>
                      try_except
                        (content ← read_text filename;
                         handle_write env
                           (str "## Episode Transcript: " ++ filename ++ nl
                            ++ content ++ nl ++ nl))
                        (except_Exception
                           (fun _ => say (FileError filename))))
                   (after_write env (combine_entry name content) w)
                 = (Returns tt, w')
                 /\ recombined d out
                      (pending w ++ combine_entry name content) names
                      entries
                 /\ logging out [] w'
                 /\ (forall name, name <> out -> fs w' !! name = d !! name)
                 /\ pending w'
                    = pending w ++ combine_entry name content ++ entries
                 /\ calls w' = calls w
                 /\ stdout w'
                    = stdout w ++ (FileError <$> failed_reads d out names)).
    { intros content.
      pose proof (after_write_appended env (combine_entry name content) w)
        as Happ.
      destruct (appended_logs out [] _ w _ Hlog Happ) as [Hlog1 Hoth1].
      destruct Happ as (Hp1 & Hc1 & Hs1 & _).
      destruct (IH (after_write env (combine_entry name content) w) Hlog1)
        as (w' & entries & Hrun & Hrec & Hlog' & Hoth' & Hp' & Hc' & Hs').
      { intros other Hne. by rewrite Hoth1, Hoth. }
      exists w', entries. rewrite Hp1 in Hrec, Hp'.
      rewrite Hc1 in Hc'. rewrite Hs1 in Hs'.
      by rewrite <- app_assoc in Hp'. }
    assert (Hfail :
               readable d name = false -> name <> out ->
               exists w' entries,
                 for_each names
                   (fun filename =>
                      try_except
                        (content ← read_text filename;
                         handle_write env
                           (str "## Episode Transcript: " ++ filename ++ nl
                            ++ content ++ nl ++ nl))
                        (except_Exception
                           (fun _ => say (FileError filename))))
                   (add_message (FileError name) w)
                 = (Returns tt, w')
                 /\ recombined d out (pending w) (name :: names) entries
                 /\ logging out [] w'
                 /\ (forall name, name <> out -> fs w' !! name = d !! name)
                 /\ pending w' = pending w ++ entries
                 /\ calls w' = calls w
                 /\ stdout w'
                    = stdout w
                      ++ (FileError <$> failed_reads d out (name :: names))).
    { intros Hread Hne.
      destruct (IH (add_message (FileError name) w))
        as (w' & entries & Hrun & Hrec & Hlog' & Hoth' & Hp' & Hc' & Hs');
        [done|done|].
      exists w', entries. split; [done|].
      assert (Hentry : entry_of d name = []).
      { rewrite entry_of_lookup. unfold readable in Hread.
        by destruct (d !! name) as [[[text|]|]|]. }
      split.
      { rewrite <- (app_nil_l entries), <- Hentry.
        apply recombined_other; [done|]. rewrite Hentry, app_nil_r.
        exact Hrec. }
      split; [done|]. split; [done|]. split; [done|]. split; [done|].
      rewrite Hs'. cbn [stdout add_message]. unfold failed_reads.
      cbn [List.filter]. rewrite Hread, bool_decide_eq_false_2 by done.
      cbn. by rewrite <- app_assoc. }
    cbn [for_each]. rewrite bind_run.
    unfold try_except at 1. rewrite bind_run. unfold read_text at 1.
    destruct (decide (name = out)) as [->|Hne].
    + destruct Hlog as (Htg & flushed & Hout & Hpend). rewrite Hout.
      cbn [fst snd]. unfold handle_write at 1, modify at 1.
      change (str "## Episode Transcript: " ++ out ++ nl
              ++ universal_newlines flushed ++ nl ++ nl)
        with (combine_entry out (universal_newlines flushed)).
      destruct (Hwrite (universal_newlines flushed))
        as (w' & entries & Hrun & Hrec & Hlog' & Hoth' & Hp' & Hc' & Hs').
      exists w', (combine_entry out (universal_newlines flushed) ++ entries).
      split; [exact Hrun|]. split.
      { apply recombined_self; [|done]. rewrite Hpend. by eexists. }
      split; [done|]. split; [done|]. split; [done|]. split; [done|].
      rewrite Hs'. unfold failed_reads. cbn [List.filter].
      by rewrite bool_decide_eq_true_2.
    + rewrite (Hoth name Hne).
      destruct (d !! name) as [[[text|]|]|] eqn:Hd.
      * cbn [fst snd]. unfold handle_write at 1, modify at 1.
        change (str "## Episode Transcript: " ++ name ++ nl
                ++ universal_newlines text ++ nl ++ nl)
          with (combine_entry name (universal_newlines text)).
        destruct (Hwrite (universal_newlines text))
          as (w' & entries & Hrun & Hrec & Hlog' & Hoth' & Hp' & Hc' & Hs').
        assert (Hentry : entry_of d name
                         = combine_entry name (universal_newlines text))
          by (by rewrite entry_of_lookup, Hd).
        exists w', (entry_of d name ++ entries).
        split; [exact Hrun|]. split.
        { apply recombined_other; [done|]. by rewrite Hentry. }
        split; [done|]. split; [done|]. split; [by rewrite Hentry|].
        split; [done|].
        rewrite Hs'. unfold failed_reads, readable. cbn [List.filter].
        by rewrite Hd, andb_false_r.
      * cbn -[for_each]. apply Hfail; [|done]. unfold readable.
        by rewrite Hd.
      * cbn -[for_each]. apply Hfail; [|done]. unfold readable.
        by rewrite Hd.
      * cbn -[for_each]. apply Hfail; [|done]. unfold readable.
        by rewrite Hd.
Qed.

Lemma with_open_write_run {A} (name : pystr) (body : M World A)
    (w : World) :
  fs w !! name <> Some Dir ->
  with_open_write name body w
  = ((body (open_handle name
              (set_fs (insert name (File (Some []))) w))).1,
     (handle_close name
        (body (open_handle name
                 (set_fs (insert name (File (Some []))) w))).2).2).
Proof.
  intros Hdir. unfold with_open_write. rewrite bind_run.
  destruct (fs w !! name) as [[text|]|]; [|done|];
    unfold try_finally; cbn;
    by destruct (body _) as [r w1].
Qed.

Lemma combine_local_files_none (out : pystr) (w : World) :
  transcripts w = [] ->
  combine_local_files env out w
  = (Returns tt, add_message NoTranscriptFilesFound w).
Proof.
  intros Hnone. unfold combine_local_files.
  rewrite bind_run. unfold get_state at 1. cbn [fst snd].
  change (List.filter (fun f => endswith f (str "-transcript.txt"))
            (listdir w)) with (transcripts w).
  by rewrite Hnone.
Qed.

(** What [combine_local_files] does when it has selected a name. *)
Lemma combine_local_files_run (out : pystr) (w : World) :
  transcripts w <> [] ->
  fs w !! out <> Some Dir ->
  exists entries,
    recombined (fs w) out
      (combine_header (strftime_now env (length (calls w))))
      (sorted (transcripts w)) entries
    /\ combine_local_files env out w
       = (Returns tt,
          {| fs := <[out := File (Some
                      (combine_header (strftime_now env (length (calls w)))
                       ++ entries))]> (fs w);
             pending := [];
             calls := calls w;
             stdout := stdout w
                       ++ (FileError
                             <$> failed_reads (fs w) out
                                   (sorted (transcripts w)))
                       ++ [AllCombined out];
             buffered := [];
             target := None |}).
Proof.
  intros Hsome Hdir. unfold combine_local_files.
  rewrite bind_run. unfold get_state at 1. cbn [fst snd].
  change (List.filter (fun f => endswith f (str "-transcript.txt"))
            (listdir w)) with (transcripts w).
  rewrite bool_decide_eq_false_2 by done.
  rewrite bind_run, with_open_write_run by done.
  set (w0 := open_handle out (set_fs (insert out (File (Some []))) w)).
  set (header := combine_header (strftime_now env (length (calls w)))).
  match goal with
  | |- context [handle_close out (?body w0).2] =>
      assert (Hbody : exists w' entries,
                 body w0 = (Returns tt, w')
                 /\ recombined (fs w) out header (sorted (transcripts w))
                      entries
                 /\ logging out [] w'
                 /\ (forall name, name <> out -> fs w' !! name = fs w !! name)
                 /\ pending w' = header ++ entries
                 /\ calls w' = calls w
                 /\ stdout w'
                    = stdout w
                      ++ (FileError
                            <$> failed_reads (fs w) out
                                  (sorted (transcripts w))))
  end.
  { rewrite bind_run. unfold now at 1. cbn [fst snd].
    rewrite bind_run. unfold handle_write at 1, modify at 1. cbn [fst snd].
    change (str "Combined Transcripts (from local files)" ++ nl
            ++ str "Generated on: " ++ strftime_now env (length (calls w0))
            ++ nl ++ repeat_char 61 40 ++ nl ++ nl)
      with header.
    assert (Hlog0 : logging out [] w0).
    { split; [done|]. exists []. split; [|done]. cbn.
      by rewrite lookup_insert_eq. }
    pose proof (after_write_appended env header w0) as Happ.
    destruct (appended_logs out [] _ w0 _ Hlog0 Happ) as [Hlog1 Hoth1].
    destruct Happ as (Hp1 & Hc1 & Hs1 & _).
    destruct (combine_loop_run (fs w) out (sorted (transcripts w))
                (after_write env header w0) Hlog1)
      as (w' & entries & Hrun & Hrec & Hlog' & Hoth' & Hp' & Hc' & Hs').
    { intros name Hne. rewrite Hoth1 by done. cbn.
      by rewrite lookup_insert_ne. }
    rewrite Hp1 in Hrec, Hp'. rewrite Hc1 in Hc'. rewrite Hs1 in Hs'.
    by exists w', entries. }
  destruct Hbody
    as (w' & entries & -> & Hrec & Hlog' & Hoth' & Hp' & Hc' & Hs').
  exists entries. split; [exact Hrec|].
  cbn [fst snd]. unfold handle_close, modify, say. cbn [fst snd].
  unfold add_message. cbn [fs pending calls stdout buffered target].
  destruct Hlog' as (Htg' & flushed & Hout' & Hpend').
  assert (Hfs : flush_to (Some out) (buffered w') (fs w')
                = <[out := File (Some (header ++ entries))]> (fs w)).
  { apply map_eq. intros name. destruct (decide (name = out)) as [->|Hne].
    - rewrite (flush_to_lookup _ _ _ _ Hout'), lookup_insert_eq.
      cbn [app]. by rewrite <- Hpend', Hp'.
    - rewrite flush_to_lookup_ne by congruence.
      by rewrite Hoth', lookup_insert_ne. }
  rewrite Hfs, Hc', Hs'. unfold modify.
  cbn [fs pending calls stdout buffered target]. by rewrite <- app_assoc.
Qed.

(** [combine_local_files] calls no collaborator, however it ends. *)
Lemma combine_local_files_calls (out : pystr) (w : World) :
  calls (combine_local_files env out w).2 = calls w.
Proof.
  destruct (decide (transcripts w = [])) as [Hnil|Hsome].
  - by rewrite combine_local_files_none.
  - destruct (fs w !! out) as [[content|]|] eqn:Hout.
    + by destruct (combine_local_files_run out w Hsome)
        as (entries & _ & ->); [rewrite Hout|].
    + unfold combine_local_files.
      rewrite bind_run. unfold get_state at 1. cbn [fst snd].
      change (List.filter (fun f => endswith f (str "-transcript.txt"))
                (listdir w)) with (transcripts w).
      rewrite bool_decide_eq_false_2 by done.
      rewrite bind_run. unfold with_open_write. rewrite bind_run.
      by rewrite Hout.
    + by destruct (combine_local_files_run out w Hsome)
        as (entries & _ & ->); [rewrite Hout|].
Qed.

(** The combined output when its own name is not one of a transcript. *)
Lemma combine_local_files_fs (out : pystr) (w : World) :
  transcripts w <> [] ->
  fs w !! out <> Some Dir ->
  is_transcript_name out = false ->
  fs (combine_local_files env out w).2
  = <[out := File (Some
        (combine_header (strftime_now env (length (calls w)))
         ++ flat_map (entry_of (fs w)) (sorted (transcripts w))))]> (fs w).
Proof.
  intros Hsome Hdir Hname.
  destruct (combine_local_files_run out w Hsome Hdir)
    as (entries & Hrec & ->). cbn [snd fs].
  assert (Hout : out ∉ sorted (transcripts w)).
  { intros Hin. apply sorted_transcripts in Hin as [_ Hconv].
    apply is_transcript_name_convention in Hconv. congruence. }
  by rewrite (recombined_others _ _ _ _ _ Hout Hrec).
Qed.


(** *** Recombining again, and the combined output among the transcripts *)


Lemma str_leb_trans (a b c : pystr) :
  str_leb a b = true -> str_leb b c = true -> str_leb a c = true.
Proof.
  revert b c. induction a as [|x a IH]; intros [|y b] [|z c]; cbn; try done.
  destruct (N.ltb_spec x y), (N.ltb_spec y x), (N.ltb_spec y z),
    (N.ltb_spec z y), (N.ltb_spec x z), (N.ltb_spec z x);
    try done; try lia.
  apply IH.
Qed.

Lemma str_leb_antisym (a b : pystr) :
  str_leb a b = true -> str_leb b a = true -> a = b.
Proof.
  revert b. induction a as [|x a IH]; intros [|y b]; cbn; try done.
  destruct (N.ltb_spec x y), (N.ltb_spec y x); try done; try lia.
  intros Hab Hba. f_equal; [lia|by apply IH].
Qed.

#[local] Instance str_le_trans : Transitive str_le.
Proof. intros a b c. apply str_leb_trans. Qed.

#[local] Instance str_le_antisym : AntiSymm (=) str_le.
Proof. intros a b. apply str_leb_antisym. Qed.

(** The selection after a run: the same names, when the combined output
    is not a name that the run has added to them. *)
Lemma sorted_transcripts_insert (out : pystr) (node : node) (w w1 : World) :
  is_transcript_name out = false \/ is_Some (fs w !! out) ->
  fs w1 = <[out := node]> (fs w) ->
  sorted (transcripts w1) = sorted (transcripts w).
Proof.
  intros Hout Hfs. unfold sorted.
  apply (Sorted_unique str_le);
    [apply (Sorted_merge_sort str_le)..|].
  rewrite !merge_sort_Permutation.
  apply NoDup_Permutation; [apply NoDup_transcripts..|].
  intros name. rewrite !elem_of_transcripts, Hfs.
  destruct (decide (out = name)) as [<-|Hne].
  - rewrite lookup_insert_eq. split; [|by intros [? _]; eauto].
    intros [Hname _]. split; [done|].
    destruct Hout as [Hno|Hex]; [congruence|done].
  - by rewrite lookup_insert_ne.
Qed.

(** X22. Recombining twice is recombining once, when the name of the
    combined output does not end in [-transcript.txt]: a second run at the
    same time of day, in the directory the first one has left, leaves the
    same directory. *)
Theorem combine_local_files_idempotent (out : pystr) (w : World) :
  is_transcript_name out = false ->
  fs w !! out <> Some Dir ->
  fs (combine_local_files env out (combine_local_files env out w).2).2
  = fs (combine_local_files env out w).2.
Proof.
  intros Hname Hdir.
  assert (Hout : is_transcript_name out = false \/ is_Some (fs w !! out))
    by (by left).
  destruct (decide (transcripts w = [])) as [Hnil|Hsome].
  - rewrite (combine_local_files_none out w Hnil). cbn [snd].
    by rewrite (combine_local_files_none out
                  (add_message NoTranscriptFilesFound w) Hnil).
  - pose proof (combine_local_files_fs out w Hsome Hdir Hname) as Hfs.
    pose proof (combine_local_files_calls out w) as Hcalls.
    set (w1 := (combine_local_files env out w).2) in *.
    pose proof (sorted_transcripts_insert out _ w w1 Hout Hfs) as Hnames.
    assert (Hsome1 : transcripts w1 <> []).
    { intros Hnil. rewrite Hnil in Hnames. apply Hsome.
      apply Permutation_nil_r. unfold sorted in Hnames.
      rewrite <- (merge_sort_Permutation str_le (transcripts w)).
      by rewrite <- Hnames. }
    rewrite (combine_local_files_fs out w1 Hsome1);
      [|by rewrite Hfs, lookup_insert_eq|done].
    rewrite Hnames, Hcalls, Hfs, insert_insert_eq.
    rewrite flat_map_entry_of_insert; [done|].
    intros Hin. apply sorted_transcripts in Hin as [_ Hconv].
    apply is_transcript_name_convention in Hconv. congruence.
Qed.
End Aggregator.





Lemma combine_local_files_idempotent_witness :
  TranscriptTool.fs
    (TranscriptTool.combine_local_files Examples.captions_env
       (Python.str "combined.txt")
       (TranscriptTool.combine_local_files Examples.captions_env
          (Python.str "combined.txt") Examples.abc123_saved).2).2
  = TranscriptTool.fs
      (TranscriptTool.combine_local_files Examples.captions_env
         (Python.str "combined.txt") Examples.abc123_saved).2.
Proof.
  apply (combine_local_files_idempotent Examples.captions_env
           (Python.str "combined.txt") Examples.abc123_saved).
  - vm_compute. reflexivity.
  - intros H. vm_compute in H. discriminate.
Defined.

(* ===================================================================== *)
(** ** Properties of the command line                                     *)
(* ===================================================================== *)

Section CommandLine.
Import Python TranscriptTool TranscriptToolMain.
Context (ucd : Unicode) (env : Env).

(** X23. The API key is needed for the two modes that go to the network,
    and only for them. Without a key, with [--channel] or [--video-id],
    [main] ends with exit status 2 before it does anything. With
    [--list-channels] it prints the two channels and changes nothing;
    with [--combine-only] it is [combine_local_files] on the output file;
    both work without a key and call no collaborator. *)
Theorem api_key_needed_online_only (fuel : nat) (args : Namespace)
    (c : Console) :
  (list_channels args = false ->
   combine_only args = false ->
   truthy (channel args) || truthy (video_id args) = true ->
   truthy (api_key args) = false ->
   exists run, main ucd env fuel args = Some run
               /\ run c = (Raises (SystemExit 2), c))
  /\ (list_channels args = true ->
      exists run,
        main ucd env fuel args = Some run
        /\ run c
           = (Returns tt,
              {| world := world c;
                 printed :=
                   printed c
                   ++ [ChannelLine (str "botbs")
                         (str "UCpwXkp5XwIw_WVswz9bzBUw");
                       ChannelLine (str "swh")
                         (str "UCyUA6TXPI48F6JLXc6I41xw")] |}))
  /\ (list_channels args = false ->
      combine_only args = true ->
      exists run,
        main ucd env fuel args = Some run
        /\ (run c).1 = (combine_local_files env (output_file args) (world c)).1
        /\ world (run c).2
           = (combine_local_files env (output_file args) (world c)).2
        /\ printed (run c).2 = printed c
        /\ calls (world (run c).2) = calls (world c)).
Proof.
  unfold main. split; [|split].
  - intros -> -> -> ->. eexists. split; [reflexivity|]. reflexivity.
  - intros ->. eexists. split; [reflexivity|].
    unfold CHANNELS, for_each_item, print, modify, mbind, mret, M_bind,
      M_ret.
    cbn [fst snd world printed]. by rewrite <- app_assoc.
  - intros -> ->. eexists. split; [reflexivity|].
    unfold in_world. cbn [fst snd world printed].
    repeat split. apply combine_local_files_calls.
Qed.

(** X24. The single-video mode ([--video-id] with an API key, no
    [--channel]) needs no listing of a channel and opens no combined
    output. When the executor returns, [main] prints that the operation
    completed for a video that is new or skipped and that it failed for
    an error, and returns in both cases: a failure is not turned into an
    exit status. *)
Theorem single_video_mode (fuel : nat) (args : Namespace) (c : Console) :
  list_channels args = false ->
  combine_only args = false ->
  truthy (channel args) = false ->
  truthy (video_id args) = true ->
  truthy (api_key args) = true ->
  exists run,
    main ucd env fuel args = Some run
    /\ pending (world (run c).2) = pending (world c)
    /\ forall b st w',
         download_and_save_transcript ucd env (default [] (video_id args))
           (use_whisper args) (use_api args) None (world c)
           = (Returns (b, st), w') ->
         run c
         = (Returns tt,
            {| world := w';
               printed :=
                 printed c
                 ++ [SingleOperation
                       match st with Error => false | _ => true end] |}).
Proof.
  intros Hl Hc Hch Hv Hk. unfold main. rewrite Hl, Hc, Hch, Hv, Hk.
  cbn [orb andb negb mbind option_bind].
  eexists. split; [reflexivity|].
  destruct (download_without_handle ucd env (default [] (video_id args))
              (use_whisper args) (use_api args) (world c)) as [Hp Hb].
  unfold in_world, print, modify, mbind, mret, M_bind, M_ret.
  cbn [fst snd world printed].
  destruct (download_and_save_transcript ucd env
              (default [] (video_id args)) (use_whisper args)
              (use_api args) None (world c)) as [[[b0 st0]|e] w1];
    cbn [fst snd world printed] in *; (split; [exact Hp|]);
    intros b st w' Hd; [|discriminate Hd].
  specialize (Hb b st w' Hd). injection Hd as -> -> ->.
  do 3 f_equal.
  destruct st, b; try done.
  - by destruct Hb as [_ Hb]; discriminate Hb.
  - by destruct Hb as [_ Hb]; discriminate Hb.
  - by destruct (proj1 Hb eq_refl).
Qed.
End CommandLine.

Lemma api_key_needed_online_only_witness :
  exists run,
    TranscriptToolMain.main Python.latin1 Examples.captions_env 0
      (Examples.single_video None)
    = Some run
    /\ run {| TranscriptToolMain.world := Examples.directory [];
              TranscriptToolMain.printed := [] |}
       = (Python.Raises (Python.SystemExit 2),
          {| TranscriptToolMain.world := Examples.directory [];
             TranscriptToolMain.printed := [] |}).
Proof.
  destruct (api_key_needed_online_only Python.latin1 Examples.captions_env 0
              (Examples.single_video None)
              {| TranscriptToolMain.world := Examples.directory [];
                 TranscriptToolMain.printed := [] |}) as [Hkey _].
  apply Hkey; reflexivity.
Defined.

Lemma single_video_mode_witness :
  exists run,
    TranscriptToolMain.main Python.latin1 Examples.no_captions_env 0
      (Examples.single_video (Some (Python.str "key")))
    = Some run
    /\ (run {| TranscriptToolMain.world := Examples.directory [];
               TranscriptToolMain.printed := [] |}).1
       = Python.Returns tt
    /\ TranscriptToolMain.printed
         (run {| TranscriptToolMain.world := Examples.directory [];
                 TranscriptToolMain.printed := [] |}).2
       = [TranscriptToolMain.SingleOperation false].
Proof.
  destruct (single_video_mode Python.latin1 Examples.no_captions_env 0
              (Examples.single_video (Some (Python.str "key")))
              {| TranscriptToolMain.world := Examples.directory [];
                 TranscriptToolMain.printed := [] |})
    as (run & Hmain & _ & Hrun); try reflexivity.
  exists run. split; [exact Hmain|].
  rewrite (Hrun false TranscriptTool.Error
             (TranscriptTool.download_and_save_transcript Python.latin1
                Examples.no_captions_env (Python.str "def456") false true
                None (Examples.directory [])).2).
  - split; reflexivity.
  - vm_compute. reflexivity.
Defined.
